(** * Verification of the content-generation pipeline

    A shallow embedding of the Python sources
      - [src/models/product.py], [src/models/question.py],
      - [src/logic_blocks/comparison_block.py], [src/logic_blocks/price_block.py],
      - [src/templates/template_engine.py],
      - [src/agents/*.py], [src/orchestration/{state,graph,execution}.py],
    followed by the properties proved about them.

    Conventions.
      - A Python [str] is a [string] holding the UTF-8 bytes of the text.
      - A Python [float] is an IEEE-754 binary64 value, given by the
        axiom-free [spec_float] of the standard library at precision 53 and
        maximal exponent 1024 (round to nearest, ties to even).
      - A Python [int] is a [Z].
      - Code that can raise returns a [Result]. *)

From Stdlib Require Import ZArith String Ascii List Bool Lia DecimalString.
From Stdlib Require Import Floats.SpecFloat.
From stdpp Require Import gmap strings list.

Open Scope string_scope.
Open Scope Z_scope.

(* ===================================================================== *)
(** * Python prelude: exceptions, strings, integers, floats               *)
(* ===================================================================== *)

Module Py.

(** ** Exceptions (all of them subclasses of [Exception]) *)

Inductive exn : Type :=
| ValueError (msg : string)
| OverflowError (msg : string)
| ZeroDivisionError (msg : string)
| TypeError (msg : string)
| AttributeError (msg : string)
| ValidationError (fields : list string)
| Exception (msg : string).

Inductive Result (A : Type) : Type :=
| Ok (a : A)
| Raise (e : exn).
Arguments Ok {A} a.
Arguments Raise {A} e.

Definition bind {A B : Type} (m : Result A) (k : A -> Result B) : Result B :=
  match m with
  | Ok a => k a
  | Raise e => Raise e
  end.

Definition is_ok {A : Type} (m : Result A) : bool :=
  match m with Ok _ => true | Raise _ => false end.

(** [try: m  except Exception: h] *)
Definition try_except {A : Type} (m : Result A) (h : exn -> Result A) : Result A :=
  match m with
  | Ok a => Ok a
  | Raise e => h e
  end.

(** ** Strings *)

Definition str_of_codes (l : list nat) : string :=
  fold_right (fun n s => String (ascii_of_nat n) s) EmptyString l.

Definition is_upper (c : ascii) : bool :=
  let n := nat_of_ascii c in (65 <=? n)%nat && (n <=? 90)%nat.

Definition lower_ascii (c : ascii) : ascii :=
  if is_upper c then ascii_of_nat (nat_of_ascii c + 32) else c.

(** [s.lower()].  Letters outside ASCII are multi-byte sequences whose
    bytes are all above 127; they are left as they are.  Python's own
    folding rewrites them to other non-ASCII code points, with two
    exceptions (U+0130, which becomes [i] followed by U+0307, and U+212A,
    which becomes [k]); none of the ASCII needles searched for in the
    sources ([mild], [twice], [morning and evening], the category words)
    can match across or because of either. *)
Fixpoint lower (s : string) : string :=
  match s with
  | EmptyString => EmptyString
  | String c s' => String (lower_ascii c) (lower s')
  end.

(** [needle in s] *)
Fixpoint contains (needle s : string) : bool :=
  String.prefix needle s ||
  match s with
  | EmptyString => false
  | String _ s' => contains needle s'
  end.

(** [sep.join(l)] *)
Definition join (sep : string) (l : list string) : string := String.concat sep l.

(** [l.append(x)] *)
Definition append {A : Type} (l : list A) (x : A) : list A := (l ++ [x])%list.

(** [l[:n]]: the first [n] items, and for a negative [n] all but the last
    [-n]. *)
Definition slice_to {A : Type} (l : list A) (n : Z) : list A :=
  if 0 <=? n then firstn (Z.to_nat n) l
  else firstn (length l - Z.to_nat (- n)) l.

(** [x in l] for a list of strings *)
Definition in_list (x : string) (l : list string) : bool :=
  existsb (String.eqb x) l.

(** [len(s)]: the number of code points, that is of bytes that are not
    UTF-8 continuation bytes. *)
Definition is_continuation (c : ascii) : bool :=
  let n := nat_of_ascii c in (128 <=? n)%nat && (n <=? 191)%nat.

Fixpoint len (s : string) : nat :=
  match s with
  | EmptyString => O
  | String c s' => if is_continuation c then len s' else S (len s')
  end.

(** Whitespace as [str.strip()] sees it: the code points
    U+0009..U+000D, U+001C..U+0020, U+0085, U+00A0, U+1680,
    U+2000..U+200A, U+2028, U+2029, U+202F, U+205F and U+3000, here by
    their UTF-8 encodings of one, two and three bytes. *)
Definition is_space1 (c : ascii) : bool :=
  let n := nat_of_ascii c in
  ((9 <=? n)%nat && (n <=? 13)%nat) || ((28 <=? n)%nat && (n <=? 32)%nat).

Definition is_space2 (c1 c2 : ascii) : bool :=
  (nat_of_ascii c1 =? 194)%nat &&
  ((nat_of_ascii c2 =? 133)%nat || (nat_of_ascii c2 =? 160)%nat).

Definition is_space3 (c1 c2 c3 : ascii) : bool :=
  let a := nat_of_ascii c1 in
  let b := nat_of_ascii c2 in
  let c := nat_of_ascii c3 in
  ((a =? 225)%nat && (b =? 154)%nat && (c =? 128)%nat) ||
  ((a =? 226)%nat && (b =? 128)%nat &&
     (((128 <=? c)%nat && (c <=? 138)%nat) ||
      (c =? 168)%nat || (c =? 169)%nat || (c =? 175)%nat)) ||
  ((a =? 226)%nat && (b =? 129)%nat && (c =? 159)%nat) ||
  ((a =? 227)%nat && (b =? 128)%nat && (c =? 128)%nat).

(** A string that is exactly one whitespace character. *)
Definition is_space_char (s : string) : bool :=
  match s with
  | String c1 EmptyString => is_space1 c1
  | String c1 (String c2 EmptyString) => is_space2 c1 c2
  | String c1 (String c2 (String c3 EmptyString)) => is_space3 c1 c2 c3
  | _ => false
  end.

Fixpoint lstrip (s : string) : string :=
  match s with
  | EmptyString => EmptyString
  | String c1 s1 =>
      if is_space1 c1 then lstrip s1
      else match s1 with
           | EmptyString => s
           | String c2 s2 =>
               if is_space2 c1 c2 then lstrip s2
               else match s2 with
                    | EmptyString => s
                    | String c3 s3 =>
                        if is_space3 c1 c2 c3 then lstrip s3 else s
                    end
           end
  end.

Fixpoint rstrip (s : string) : string :=
  match s with
  | EmptyString => EmptyString
  | String c s' =>
      let t := String c (rstrip s') in
      if is_space_char t then EmptyString else t
  end.

(** [s.strip()] *)
Definition strip (s : string) : string := rstrip (lstrip s).

(** [not s] *)
Definition is_empty (s : string) : bool :=
  match s with EmptyString => true | _ => false end.

(** ** Integers *)

(** [str(n)], as an f-string renders an [int] *)
Definition str_of_int (n : Z) : string := NilZero.string_of_int (Z.to_int n).

(** ** Floats *)

Definition float : Type := spec_float.

Definition prec : Z := 53.
Definition emax : Z := 1024.

(** An [int] used where a [float] is expected, correctly rounded;
    [OverflowError] when it is out of range. *)
Definition round_Z (n : Z) : float := binary_normalize prec emax n 0 false.

Definition float_of_int (n : Z) : Result float :=
  match round_Z n with
  | S754_infinity _ => Raise (OverflowError "int too large to convert to float")
  | x => Ok x
  end.

(** Small integer literals, exactly representable. *)
Definition lit (n : Z) : float := round_Z n.

(** The literals [2.5] and [0.05], correctly rounded. *)
Definition lit_2_5 : float := SFdiv prec emax (lit 5) (lit 2).
Definition lit_0_05 : float := SFdiv prec emax (lit 1) (lit 20).

Definition fsub (x y : float) : float := SFsub prec emax x y.
Definition fmul (x y : float) : float := SFmul prec emax x y.
Definition flt (x y : float) : bool := SFltb x y.
Definition fle (x y : float) : bool := SFleb x y.
Definition fgt (x y : float) : bool := SFltb y x.
Definition fge (x y : float) : bool := SFleb y x.
Definition fabs (x : float) : float := SFabs x.

Definition is_zero (x : float) : bool :=
  match x with S754_zero _ => true | _ => false end.

(** [x / y] raises on a zero divisor. *)
Definition fdiv (x y : float) : Result float :=
  if is_zero y then Raise (ZeroDivisionError "float division by zero")
  else Ok (SFdiv prec emax x y).

(** [int(x)]: truncation toward zero. *)
Definition int_of_float (x : float) : Result Z :=
  match x with
  | S754_nan => Raise (ValueError "cannot convert float NaN to integer")
  | S754_infinity _ => Raise (OverflowError "cannot convert float infinity to integer")
  | S754_zero _ => Ok 0
  | S754_finite s m e =>
      Ok (cond_Zopp s (if 0 <=? e then Zpos m * 2 ^ e else Z.shiftr (Zpos m) (- e)))
  end.

(** The integer nearest to [m * 2^e * 10^d], ties to even: the digits
    that [format(x, '.df')] prints, by exact arithmetic. *)
Definition scaled_round_half_even (m : positive) (e : Z) (d : nat) : Z :=
  let num := Zpos m * 10 ^ Z.of_nat d in
  if 0 <=? e then num * 2 ^ e
  else
    let k := - e in
    let q := Z.shiftr num k in
    let r := num - Z.shiftl q k in
    let half := 2 ^ (k - 1) in
    if (half <? r) || ((r =? half) && Z.odd q) then q + 1 else q.

Fixpoint zeros (n : nat) : string :=
  match n with O => EmptyString | S n' => "0" ++ zeros n' end.

Definition pad_left_zeros (d : nat) (s : string) : string :=
  zeros (d - String.length s) ++ s.

Definition fixed_digits (d : nat) (n : Z) : string :=
  let p := 10 ^ Z.of_nat d in
  str_of_int (n / p) ++
  match d with
  | O => EmptyString
  | _ => "." ++ pad_left_zeros d (str_of_int (n mod p))
  end.

Definition sign_prefix (plus s : bool) : string :=
  if s then "-" else if plus then "+" else EmptyString.

(** [format(x, '.df')] and, with [plus], [format(x, '+.df')]. *)
Definition format_f (plus : bool) (d : nat) (x : float) : string :=
  match x with
  | S754_nan => sign_prefix plus false ++ "nan"
  | S754_infinity s => sign_prefix plus s ++ "inf"
  | S754_zero s => sign_prefix plus s ++ fixed_digits d 0
  | S754_finite s m e =>
      sign_prefix plus s ++ fixed_digits d (scaled_round_half_even m e d)
  end.

End Py.

Export Py.

Notation "'let*' x ':=' m 'in' k" := (Py.bind m (fun x => k))
  (at level 10, x name, m at level 100, k at level 200).

(* ===================================================================== *)
(** * [src/models/product.py]                                             *)
(* ===================================================================== *)

Module Product.

(** The validated record. *)
Record ProductModel : Type := {
  name : string;
  concentration : string;
  skin_types : list string;
  ingredients : list string;
  benefits : list string;
  usage : string;
  side_effects : string;
  price : float
}.

(** The keyword arguments that [ProductModel], called on the unpacked
    [raw_data], receives, each one
    already of its declared type; [None] stands for a key that is missing
    from the dictionary. *)
Record RawProduct : Type := {
  raw_name : option string;
  raw_concentration : option string;
  raw_skin_types : option (list string);
  raw_ingredients : option (list string);
  raw_benefits : option (list string);
  raw_usage : option string;
  raw_side_effects : option string;
  raw_price : option float
}.

(** [validate_non_empty_list] *)
Definition validate_non_empty_list (v : list string) : Result (list string) :=
  match v with
  | [] => Raise (ValueError "List cannot be empty")
  | _ => Ok v
  end.

(** [validate_non_empty_string] *)
Definition validate_non_empty_string (v : string) : Result string :=
  if is_empty v || is_empty (strip v)
  then Raise (ValueError "String cannot be empty")
  else Ok (strip v).

(** [Field(..., gt=0)] *)
Definition validate_gt_0 (v : float) : Result float :=
  if fgt v (lit 0) then Ok v
  else Raise (ValueError "Input should be greater than 0").

(** One field: required ([Field(...)]), then its validator. *)
Definition field {A : Type} (raw : option A) (validator : A -> Result A) : Result A :=
  match raw with
  | None => Raise (ValueError "Field required")
  | Some v => validator v
  end.

Definition offending {A : Type} (fname : string) (r : Result A) : list string :=
  if is_ok r then [] else [fname].

(** Construction of a [ProductModel]: every field is validated, and the
    [ValidationError] lists all the offending fields in declaration
    order. *)
Definition ProductModel_new (raw : RawProduct) : Result ProductModel :=
  let r_name := field (raw_name raw) validate_non_empty_string in
  let r_concentration := field (raw_concentration raw) validate_non_empty_string in
  let r_skin_types := field (raw_skin_types raw) validate_non_empty_list in
  let r_ingredients := field (raw_ingredients raw) validate_non_empty_list in
  let r_benefits := field (raw_benefits raw) validate_non_empty_list in
  let r_usage := field (raw_usage raw) validate_non_empty_string in
  let r_side_effects := field (raw_side_effects raw) validate_non_empty_string in
  let r_price := field (raw_price raw) validate_gt_0 in
  match r_name, r_concentration, r_skin_types, r_ingredients,
        r_benefits, r_usage, r_side_effects, r_price with
  | Ok n, Ok c, Ok st, Ok ing, Ok ben, Ok u, Ok se, Ok p =>
      Ok {| name := n; concentration := c; skin_types := st;
            ingredients := ing; benefits := ben; usage := u;
            side_effects := se; price := p |}
  | _, _, _, _, _, _, _, _ =>
      Raise (ValidationError
               (offending "name" r_name ++
                offending "concentration" r_concentration ++
                offending "skin_types" r_skin_types ++
                offending "ingredients" r_ingredients ++
                offending "benefits" r_benefits ++
                offending "usage" r_usage ++
                offending "side_effects" r_side_effects ++
                offending "price" r_price))
  end.

(** What construction guarantees of a record. *)
Record validated (p : ProductModel) : Prop := {
  v_name : name p <> EmptyString /\ strip (name p) = name p;
  v_concentration : concentration p <> EmptyString /\ strip (concentration p) = concentration p;
  v_usage : usage p <> EmptyString /\ strip (usage p) = usage p;
  v_side_effects : side_effects p <> EmptyString /\ strip (side_effects p) = side_effects p;
  v_skin_types : skin_types p <> [];
  v_ingredients : ingredients p <> [];
  v_benefits : benefits p <> [];
  v_price : fgt (price p) (lit 0) = true
}.

End Product.

(* ===================================================================== *)
(** * [src/models/question.py]                                            *)
(* ===================================================================== *)

Module Question.

(** The [Literal] of question categories. *)
Inductive Category : Type :=
| cat_informational | cat_safety | cat_usage
| cat_purchase | cat_comparison | cat_ingredients.

Definition category_str (c : Category) : string :=
  match c with
  | cat_informational => "informational"
  | cat_safety => "safety"
  | cat_usage => "usage"
  | cat_purchase => "purchase"
  | cat_comparison => "comparison"
  | cat_ingredients => "ingredients"
  end.

Record QuestionModel : Type := {
  category : Category;
  question : string
}.

Record QuestionAnswerModel : Type := {
  qa_question : string;
  qa_answer : string;
  qa_category : string
}.

(** [QuestionAnswerModel(question=..., answer=..., category=...)]:
    [answer] has [min_length=20]. *)
Definition QuestionAnswerModel_new (q a c : string) : Result QuestionAnswerModel :=
  if (len a <? 20)%nat then Raise (ValidationError ["answer"])
  else Ok {| qa_question := q; qa_answer := a; qa_category := c |}.

End Question.

(* ===================================================================== *)
(** * Builtins of the interpreter that the sources rely on                *)
(* ===================================================================== *)

(** Taken as given: the text an f-string prints for a [float] (its
    shortest round-tripping [repr]), the order in which a [set] built from a
    list is iterated (it depends on string hashing), the message of a
    pydantic [ValidationError] for a list of offending fields, and
    [str.lower] with its full Unicode folding, where lowered texts are
    compared with each other or written out (the [lower] of the prelude
    serves the searches for ASCII needles and the look-up of ASCII keys
    only). *)
Class Builtins : Type := {
  str_of_float : float -> string;
  set_iter : list string -> list string;
  validation_error_text : list string -> string;
  str_lower : string -> string
}.

(** [str(e)] for an exception [e]; the text of a pydantic
    [ValidationError] is the library's. *)
Definition str_of_exn `{Builtins} (e : exn) : string :=
  match e with
  | ValueError msg | OverflowError msg | ZeroDivisionError msg
  | TypeError msg | AttributeError msg | Exception msg => msg
  | ValidationError fields => validation_error_text fields
  end.

(* ===================================================================== *)
(** * [src/logic_blocks/comparison_block.py]                              *)
(* ===================================================================== *)

Module ComparisonBlock.
Import Product.

(** One row of the comparison matrix: the dictionary each [_compare_*]
    returns.  [difference] is present in the price row only and
    [common_ingredients] in the ingredients row only. *)
Record Dimension : Type := {
  dimension : string;
  product_a : string;
  product_b : string;
  difference : option string;
  common_ingredients : option Z;
  winner : string;
  verdict : string
}.

Record Scores : Type := {
  product_a_wins : Z;
  product_b_wins : Z;
  ties : Z;
  total_dimensions : Z
}.

Record Comparison : Type := {
  matrix : list Dimension;
  scores : Scores;
  summary : string
}.

Definition rupee : string := "₹".

Section WithBuiltins.
Context `{Builtins}.

(** The local [price_diff] of [_compare_price]. *)
Definition price_diff (a b : ProductModel) : float := fsub (price a) (price b).

(** The local [price_diff_percent] of [_compare_price]. *)
Definition price_diff_percent (a b : ProductModel) : Result float :=
  if fgt (price b) (lit 0)
  then let* q := fdiv (price_diff a b) (price b) in Ok (fmul q (lit 100))
  else Ok (lit 0).

(** [_compare_price] *)
Definition _compare_price (a b : ProductModel) : Result Dimension :=
  let price_diff := price_diff a b in
  let* price_diff_percent := price_diff_percent a b in
  let* wv :=
    if flt (fabs price_diff) (lit 100) then
      Ok ("tie", "Similarly priced")
    else if flt price_diff (lit 0) then
      let* n := int_of_float price_diff in
      Ok ("product_b", rupee ++ str_of_int (Z.abs n) ++ " cheaper")
    else
      let* n := int_of_float price_diff in
      Ok ("product_a", rupee ++ str_of_int n ++ " more affordable") in
  let* n := int_of_float price_diff in
  Ok {| dimension := "Price";
        product_a := rupee ++ str_of_float (price a);
        product_b := rupee ++ str_of_float (price b);
        difference :=
          Some (rupee ++ str_of_int (Z.abs n) ++
                " (" ++ format_f true 0 price_diff_percent ++ "%)");
        common_ingredients := None;
        winner := fst wv;
        verdict := snd wv |}.

(** [_compare_concentration] *)
Definition _compare_concentration (a b : ProductModel) : Dimension :=
  {| dimension := "Concentration";
     product_a := concentration a;
     product_b := concentration b;
     difference := None;
     common_ingredients := None;
     winner := "contextual";
     verdict := "Compare based on your skin's needs" |}.

(** [_compare_skin_types] *)
Definition _compare_skin_types (a b : ProductModel) : Dimension :=
  let a_types : gset string := list_to_set (skin_types a) in
  let b_types : gset string := list_to_set (skin_types b) in
  let a_count := Z.of_nat (size a_types) in
  let b_count := Z.of_nat (size b_types) in
  let wv :=
    if a_count >? b_count then
      ("product_a", "Suitable for " ++ str_of_int a_count ++ " skin types")
    else if b_count >? a_count then
      ("product_b", "Suitable for " ++ str_of_int b_count ++ " skin types")
    else
      ("tie", "Both suitable for " ++ str_of_int a_count ++ " skin types") in
  {| dimension := "Skin Type Coverage";
     product_a := join ", " (set_iter (skin_types a));
     product_b := join ", " (set_iter (skin_types b));
     difference := None;
     common_ingredients := None;
     winner := fst wv;
     verdict := snd wv |}.

(** [_compare_ingredients] *)
Definition _compare_ingredients (a b : ProductModel) : Dimension :=
  let a_ings : gset string := list_to_set (map str_lower (ingredients a)) in
  let b_ings : gset string := list_to_set (map str_lower (ingredients b)) in
  let common := a_ings ∩ b_ings in
  let a_unique := a_ings ∖ b_ings in
  let b_unique := b_ings ∖ a_ings in
  {| dimension := "Ingredients";
     product_a := str_of_int (Z.of_nat (length (ingredients a))) ++ " ingredients";
     product_b := str_of_int (Z.of_nat (length (ingredients b))) ++ " ingredients";
     difference := None;
     common_ingredients := Some (Z.of_nat (size common));
     winner := "contextual";
     verdict := str_of_int (Z.of_nat (size common)) ++ " shared ingredients" |}.

(** [_compare_benefits] *)
Definition _compare_benefits (a b : ProductModel) : Dimension :=
  let a_count := Z.of_nat (length (benefits a)) in
  let b_count := Z.of_nat (length (benefits b)) in
  let wv :=
    if a_count >? b_count then
      ("product_a", str_of_int a_count ++ " claimed benefits")
    else if b_count >? a_count then
      ("product_b", str_of_int b_count ++ " claimed benefits")
    else
      ("tie", "Both offer " ++ str_of_int a_count ++ " benefits") in
  {| dimension := "Benefits";
     product_a := str_of_int a_count ++ " benefits";
     product_b := str_of_int b_count ++ " benefits";
     difference := None;
     common_ingredients := None;
     winner := fst wv;
     verdict := snd wv |}.

(** [_compare_safety] *)
Definition _compare_safety (a b : ProductModel) : Dimension :=
  let a_safe := contains "mild" (lower (side_effects a)) in
  let b_safe := contains "mild" (lower (side_effects b)) in
  let wv :=
    if a_safe && negb b_safe then
      ("product_a", "Milder side effect profile")
    else if b_safe && negb a_safe then
      ("product_b", "Milder side effect profile")
    else
      ("tie", "Similar safety profiles") in
  {| dimension := "Safety";
     product_a := side_effects a;
     product_b := side_effects b;
     difference := None;
     common_ingredients := None;
     winner := fst wv;
     verdict := snd wv |}.

(** [sum(1 for item in comparison_matrix if cond(item))] *)
Definition sum_ones (cond : Dimension -> bool) (l : list Dimension) : Z :=
  fold_left Z.add (map (fun _ => 1) (List.filter cond l)) 0.

(** [_calculate_scores] *)
Definition _calculate_scores (comparison_matrix : list Dimension) : Scores :=
  let a_wins := sum_ones (fun item => String.eqb (winner item) "product_a") comparison_matrix in
  let b_wins := sum_ones (fun item => String.eqb (winner item) "product_b") comparison_matrix in
  let ties := sum_ones (fun item => in_list (winner item) ["tie"; "contextual"]) comparison_matrix in
  {| product_a_wins := a_wins;
     product_b_wins := b_wins;
     ties := ties;
     total_dimensions := Z.of_nat (length comparison_matrix) |}.

(** [_generate_comparison_summary] *)
Definition _generate_comparison_summary (a b : ProductModel) (scores : Scores) : string :=
  let a_wins := product_a_wins scores in
  let b_wins := product_b_wins scores in
  if a_wins >? b_wins then
    name a ++ " leads in " ++ str_of_int a_wins ++ " out of " ++
    str_of_int (total_dimensions scores) ++ " dimensions"
  else if b_wins >? a_wins then
    name b ++ " leads in " ++ str_of_int b_wins ++ " out of " ++
    str_of_int (total_dimensions scores) ++ " dimensions"
  else
    "Both products are competitive across " ++
    str_of_int (total_dimensions scores) ++ " key dimensions".

(** [generate_comparison_block]: the six rows are appended in this
    order; the price row is the only one that can raise. *)
Definition generate_comparison_block (a b : ProductModel) : Result Comparison :=
  let* row_price := _compare_price a b in
  let comparison_matrix :=
    [ row_price;
      _compare_concentration a b;
      _compare_skin_types a b;
      _compare_ingredients a b;
      _compare_benefits a b;
      _compare_safety a b ] in
  let scores := _calculate_scores comparison_matrix in
  Ok {| matrix := comparison_matrix;
        scores := scores;
        summary := _generate_comparison_summary a b scores |}.

End WithBuiltins.

End ComparisonBlock.

(* ===================================================================== *)
(** * [src/logic_blocks/price_block.py]                                   *)
(* ===================================================================== *)

Module PriceBlock.
Import Product.

(** The dictionary [generate_price_block] returns. *)
Record PriceContent : Type := {
  title : string;
  price_text : string;
  price_numeric : float;
  bottle_size_ml : Z;
  positioning : string;
  positioning_description : string;
  cost_per_ml : string;
  cost_per_use : string;
  estimated_days_supply : Z;
  value_highlights : list string;
  investment_statement : string
}.

Definition premium_ingredients : list string :=
  ["Vitamin C"; "Hyaluronic Acid"; "Retinol"; "Niacinamide"].

(** [x / n] and [n / x] for a float [x] and an int [n] *)
Definition fdiv_int (x : float) (n : Z) : Result float :=
  let* y := float_of_int n in fdiv x y.

Definition int_fdiv (n : Z) (x : float) : Result float :=
  let* y := float_of_int n in fdiv y x.

Section WithBuiltins.
Context `{Builtins}.

(** [_generate_value_highlights] *)
Definition _generate_value_highlights
    (product : ProductModel) (cost_per_use days_supply : float)
  : Result (list string) :=
  let highlights : list string := [] in
  (* Cost per use highlight *)
  let* highlights :=
    if flt cost_per_use (lit 5) then
      let* n := int_of_float cost_per_use in
      Ok (append highlights
            ("Less than " ++ ComparisonBlock.rupee ++ str_of_int (n + 1) ++ " per application"))
    else
      Ok (append highlights
            ("Approximately " ++ ComparisonBlock.rupee ++ format_f false 0 cost_per_use ++ " per use")) in
  (* Supply duration *)
  let* highlights :=
    if fge days_supply (lit 60) then
      let* months := fdiv_int days_supply 30 in
      let* n := int_of_float months in
      Ok (append highlights ("Over " ++ str_of_int n ++ " months supply with daily use"))
    else
      let* n := int_of_float days_supply in
      Ok (append highlights ("Approximately " ++ str_of_int n ++ " days of use")) in
  (* Concentration value *)
  let highlights :=
    if negb (is_empty (concentration product)) then
      append highlights ("Effective " ++ concentration product ++ " formulation")
    else highlights in
  (* Ingredient value *)
  let highlights :=
    if existsb (fun ing => in_list ing (ingredients product)) premium_ingredients then
      append highlights "Contains premium, research-backed ingredients"
    else highlights in
  (* Multi-benefit value *)
  let highlights :=
    if Z.of_nat (length (benefits product)) >=? 2 then
      append highlights
        ("Delivers " ++ str_of_int (Z.of_nat (length (benefits product))) ++
         " benefits in one product")
    else highlights in
  Ok highlights.

(** [_generate_investment_statement] *)
Definition _generate_investment_statement
    (product : ProductModel) (price days_supply : float) : Result string :=
  let* daily_cost := fdiv price days_supply in
  if flt daily_cost (lit 15) then
    Ok ("An investment of just " ++ ComparisonBlock.rupee ++ format_f false 0 daily_cost ++
        " per day for healthier, more radiant skin")
  else if flt daily_cost (lit 30) then
    Ok ("Premium skincare at " ++ ComparisonBlock.rupee ++ format_f false 0 daily_cost ++
        " daily - less than your morning coffee")
  else
    Ok ("A professional-grade treatment for " ++ ComparisonBlock.rupee ++
        format_f false 0 daily_cost ++ " per day").

(** The positioning tier and its description, by the chain of
    comparisons on [price]. *)
Definition price_positioning (price : float) : string * string :=
  if flt price (lit 500) then
    ("Budget-Friendly", "Affordable luxury for everyday skincare")
  else if flt price (lit 1000) then
    ("Mid-Range", "Premium quality at accessible pricing")
  else if flt price (lit 2000) then
    ("Premium", "High-end formulation with proven ingredients")
  else
    ("Luxury", "Professional-grade investment in skin health").

(** [generate_price_block(product, bottle_size_ml)] *)
Definition generate_price_block (product : ProductModel) (bottle_size_ml : Z)
  : Result PriceContent :=
  let price := price product in
  (* Calculate cost per ml *)
  let* cost_per_ml := fdiv_int price bottle_size_ml in
  (* Calculate estimated cost per use *)
  let drops_per_use := lit_2_5 in
  let ml_per_use := fmul drops_per_use lit_0_05 in
  let cost_per_use := fmul ml_per_use cost_per_ml in
  (* Calculate estimated days of use *)
  let uses_per_day : Z :=
    if contains "twice" (lower (usage product)) ||
       contains "morning and evening" (lower (usage product))
    then 2 else 1 in
  let* total_uses := int_fdiv bottle_size_ml ml_per_use in
  let* days_supply := fdiv_int total_uses uses_per_day in
  (* Determine price positioning *)
  let pos := price_positioning price in
  (* Generate value highlights *)
  let* value_highlights := _generate_value_highlights product cost_per_use days_supply in
  let* days := int_of_float days_supply in
  let* statement := _generate_investment_statement product price days_supply in
  Ok {| title := "Pricing & Value";
        price_text := ComparisonBlock.rupee ++ str_of_float price;
        price_numeric := price;
        bottle_size_ml := bottle_size_ml;
        positioning := fst pos;
        positioning_description := snd pos;
        cost_per_ml := ComparisonBlock.rupee ++ format_f false 2 cost_per_ml;
        cost_per_use := ComparisonBlock.rupee ++ format_f false 2 cost_per_use;
        estimated_days_supply := days;
        value_highlights := value_highlights;
        investment_statement := statement |}.

(** [generate_price_block(product)], with the default bottle of 30 ml:
    the call the template engine and the product page agent make. *)
Definition generate_price_block_default (product : ProductModel) : Result PriceContent :=
  generate_price_block product 30.

End WithBuiltins.

End PriceBlock.

(* ===================================================================== *)
(** * [src/models/templates.py] and [src/templates/template_engine.py]    *)
(* ===================================================================== *)

Module TemplateEngine.
Import Product.

(** [TemplateSection] *)
Record TemplateSection : Type := {
  section_name : string;
  required_blocks : list string;
  optional_blocks : list string;
  llm_enhance : bool;
  format_rules : gmap string string
}.

(** [TemplateModel] *)
Record TemplateModel : Type := {
  template_type : string;
  sections : list TemplateSection
}.

Section Engine.
(** The content mapping a block returns. *)
Variable Content : Type.

(** A logic block: called on the product, it returns its content or
    raises. *)
Definition Block : Type := ProductModel -> Result Content.

(** [TemplateEngine]: the registry [registered_blocks]. *)
Record Engine : Type := {
  registered_blocks : gmap string Block
}.

(** [TemplateEngine()] *)
Definition new_engine : Engine := {| registered_blocks := ∅ |}.

(** [register_block] *)
Definition register_block (self : Engine) (block_name : string) (block_func : Block)
  : Engine :=
  {| registered_blocks := <[block_name := block_func]> (registered_blocks self) |}.

(** One entry of a rendered section's ["blocks"] list. *)
Record RenderedBlock : Type := {
  rb_name : string;
  rb_content : Content;
  rb_required : bool
}.

Record RenderedSection : Type := {
  rs_section_name : string;
  rs_blocks : list RenderedBlock
}.

Record RenderedTemplate : Type := {
  rt_template_type : string;
  rt_sections : list RenderedSection
}.

(** The run of a loop: the names of the blocks it has called, in call
    order, and what it produced.  The call log is kept so that "is
    invoked" can be stated; the source keeps no such log. *)
Definition Run (A : Type) : Type := list string * Result A.

(** The first loop of [render_section]:
    [for block_name in section.required_blocks]. *)
Fixpoint required_loop (self : Engine) (product : ProductModel)
    (names : list string) (calls : list string) (blocks : list RenderedBlock)
  : Run (list RenderedBlock) :=
  match names with
  | [] => (calls, Ok blocks)
  | block_name :: rest =>
      match registered_blocks self !! block_name with
      | Some block_func =>
          match block_func product with
          | Ok block_result =>
              required_loop self product rest (append calls block_name)
                (append blocks {| rb_name := block_name;
                                  rb_content := block_result;
                                  rb_required := true |})
          | Raise e => (append calls block_name, Raise e)
          end
      | None => required_loop self product rest calls blocks
      end
  end.

(** The second loop of [render_section]:
    [for block_name in section.optional_blocks], the call inside
    [try ... except Exception]. *)
Fixpoint optional_loop (self : Engine) (product : ProductModel)
    (names : list string) (calls : list string) (blocks : list RenderedBlock)
  : list string * list RenderedBlock :=
  match names with
  | [] => (calls, blocks)
  | block_name :: rest =>
      match registered_blocks self !! block_name with
      | Some block_func =>
          match block_func product with
          | Ok block_result =>
              optional_loop self product rest (append calls block_name)
                (append blocks {| rb_name := block_name;
                                  rb_content := block_result;
                                  rb_required := false |})
          | Raise e =>
              (* print: Optional block ... failed *)
              optional_loop self product rest (append calls block_name) blocks
          end
      | None => optional_loop self product rest calls blocks
      end
  end.

(** [render_section] *)
Definition render_section (self : Engine) (section : TemplateSection)
    (product : ProductModel) : Run RenderedSection :=
  match required_loop self product (required_blocks section) [] [] with
  | (calls, Raise e) => (calls, Raise e)
  | (calls, Ok blocks) =>
      let '(calls, blocks) :=
        optional_loop self product (optional_blocks section) calls blocks in
      (calls, Ok {| rs_section_name := section_name section;
                    rs_blocks := blocks |})
  end.

(** The loop of [render_template]. *)
Fixpoint sections_loop (self : Engine) (product : ProductModel)
    (todo : list TemplateSection) (calls : list string) (done : list RenderedSection)
  : Run (list RenderedSection) :=
  match todo with
  | [] => (calls, Ok done)
  | section :: rest =>
      match render_section self section product with
      | (calls', Ok rendered_section) =>
          sections_loop self product rest (calls ++ calls')%list
            (append done rendered_section)
      | (calls', Raise e) => ((calls ++ calls')%list, Raise e)
      end
  end.

(** [render_template] *)
Definition render_template (self : Engine) (template : TemplateModel)
    (product : ProductModel) : Run RenderedTemplate :=
  match sections_loop self product (sections template) [] [] with
  | (calls, Ok rendered) =>
      (calls, Ok {| rt_template_type := template_type template;
                    rt_sections := rendered |})
  | (calls, Raise e) => (calls, Raise e)
  end.

End Engine.

Arguments registered_blocks {Content} _.
Arguments new_engine {Content}.
Arguments register_block {Content} _ _ _.
Arguments rb_name {Content} _.
Arguments rb_content {Content} _.
Arguments rb_required {Content} _.
Arguments rs_section_name {Content} _.
Arguments rs_blocks {Content} _.
Arguments required_loop {Content} _ _ _ _ _.
Arguments optional_loop {Content} _ _ _ _ _.
Arguments render_section {Content} _ _ _.
Arguments render_template {Content} _ _ _.

End TemplateEngine.

(* ===================================================================== *)
(** * The LLM collaborator ([src/utils/llm_client.py])                    *)
(* ===================================================================== *)

(** The text-completion service, one reply per call site.  Every prompt in
    the sources is a fixed function of the arguments listed here, so a
    reply that depends on the prompt is a reply that depends on them. *)
Class LLM : Type := {
  (** [os.getenv("OPENAI_API_KEY")] *)
  api_key : option string;
  (** the structured call of the question generator: [Ok None] is a reply
      without a [questions] attribute *)
  llm_questions : Product.ProductModel -> Result (option (list Question.QuestionModel));
  (** [llm.invoke(prompt).content] in [_generate_answers] *)
  llm_answers : Product.ProductModel -> list Question.QuestionModel -> Result string;
  (** [llm.invoke(prompt).content] in [_generate_recommendation] *)
  llm_recommendation : Product.ProductModel -> Product.ProductModel -> Result string
}.

(** [get_llm] and [get_structured_llm]: both fail without an API key. *)
Definition get_llm `{LLM} : Result unit :=
  match api_key with
  | None | Some EmptyString => Raise (ValueError "OPENAI_API_KEY environment variable not set")
  | Some _ => Ok tt
  end.

(* ===================================================================== *)
(** * [src/agents/faq_generator.py]                                       *)
(* ===================================================================== *)

Module FaqGenerator.
Import Product Question.

(** The insertion-ordered dictionary [by_category]. *)
Definition Groups : Type := list (Category * list QuestionModel).

Definition Category_eqb (c1 c2 : Category) : bool :=
  String.eqb (category_str c1) (category_str c2).

(** [if q.category not in by_category: by_category[q.category] = []]
    followed by [by_category[q.category].append(q)] *)
Fixpoint group_add (by_category : Groups) (q : QuestionModel) : Groups :=
  match by_category with
  | [] => [(category q, [q])]
  | (c, qs) :: rest =>
      if Category_eqb c (category q) then (c, append qs q) :: rest
      else (c, qs) :: group_add rest q
  end.

(** [_select_best_questions]: [max_count] is an [int], [//] is the floor
    division of [Z], which raises on a zero divisor, and the two slices are
    Python's. *)
Definition _select_best_questions (questions : list QuestionModel) (max_count : Z)
  : Result (list QuestionModel) :=
  if Z.of_nat (length questions) <=? max_count then Ok questions
  else
    let by_category := fold_left group_add questions [] in
    if Z.of_nat (length by_category) =? 0 then
      Raise (ZeroDivisionError "integer division or modulo by zero")
    else
      let per_category := max_count / Z.of_nat (length by_category) in
      let selected :=
        fold_left (fun selected cq => (selected ++ slice_to (snd cq) per_category)%list)
                  by_category [] in
      Ok (slice_to selected max_count).

Section WithEnvironment.
Context `{Builtins} `{LLM}.

(** [_generate_fallback_answer] *)
Definition _generate_fallback_answer (product : ProductModel) (question : QuestionModel)
  : string :=
  let category := lower (category_str (category question)) in
  if contains "usage" category then
    "This product should be used as follows: " ++ usage product ++
    ". Apply consistently for best results."
  else if contains "safety" category then
    "Safety information: " ++ side_effects product ++
    ". Always perform a patch test before full application."
  else if contains "ingredient" category then
    "This product contains: " ++ join ", " (ingredients product) ++
    ". Each ingredient has been selected for its benefits."
  else if contains "price" category || contains "purchase" category then
    "This product is priced at " ++ ComparisonBlock.rupee ++ str_of_float (price product) ++
    ", offering excellent value for its formulation."
  else if contains "benefit" category then
    "The key benefits of this product include: " ++ join ", " (benefits product) ++
    ". Results vary by individual."
  else
    name product ++ " is designed for " ++ join ", " (skin_types product) ++
    " skin types. Please review the product information for more details.".

(** The loop that both branches of [_generate_answers] run. *)
Fixpoint answers_loop (product : ProductModel) (questions : list QuestionModel)
    (qna_pairs : list QuestionAnswerModel) : Result (list QuestionAnswerModel) :=
  match questions with
  | [] => Ok qna_pairs
  | question :: rest =>
      let answer := _generate_fallback_answer product question in
      let* qa := QuestionAnswerModel_new (Question.question question) answer
                   (category_str (category question)) in
      answers_loop product rest (append qna_pairs qa)
  end.

(** [_generate_answers]: the client is built outside the [try]; the
    reply [content] is bound and never read. *)
Definition _generate_answers (product : ProductModel) (questions : list QuestionModel)
  : Result (list QuestionAnswerModel) :=
  let* llm := get_llm in
  try_except
    (let* content := llm_answers product questions in
     answers_loop product questions [])
    (fun e => answers_loop product questions []).

End WithEnvironment.

End FaqGenerator.

(* ===================================================================== *)
(** * [src/models/pages.py] and [src/orchestration/state.py]              *)
(* ===================================================================== *)

Module State.
Import Product Question.

(** [FAQPageModel] *)
Record FAQPageModel : Type := {
  faq_page_type : string;
  faq_product_name : string;
  faqs : list QuestionAnswerModel;
  faq_generated_at : string
}.

(** [ComparisonPageModel] *)
Record ComparisonPageModel : Type := {
  cp_page_type : string;
  cp_product_a : ProductModel;
  cp_product_b : ProductModel;
  comparison_matrix : list ComparisonBlock.Dimension;
  recommendation : string;
  cp_generated_at : string
}.

(** [ComparisonPageModel(...)]: [recommendation] has [min_length=50]. *)
Definition ComparisonPageModel_new (a b : ProductModel)
    (m : list ComparisonBlock.Dimension) (r generated_at : string)
  : Result ComparisonPageModel :=
  if (len r <? 50)%nat then Raise (ValidationError ["recommendation"])
  else Ok {| cp_page_type := "comparison"; cp_product_a := a; cp_product_b := b;
             comparison_matrix := m; recommendation := r;
             cp_generated_at := generated_at |}.

Section WithPages.
(** [ProductPageModel]: its sections come from blocks that are not
    embedded here, so the page is kept abstract. *)
Variable ProductPageModel : Type.

(** [SystemState], a [TypedDict] with [total=False]: every key may be
    absent. *)
Record SystemState : Type := {
  raw_data : option RawProduct;
  product : option ProductModel;
  questions : option (list QuestionModel);
  faq_page : option FAQPageModel;
  product_page : option ProductPageModel;
  comparison_page : option ComparisonPageModel;
  errors : option (list string);
  execution_log : option (list string)
}.

(** [state.get(key, [])] on a list-valued key *)
Definition get_list {A : Type} (v : option (list A)) : list A :=
  match v with Some l => l | None => [] end.

(** [create_initial_state] *)
Definition create_initial_state (raw : RawProduct) : SystemState :=
  {| raw_data := Some raw;
     product := None;
     questions := None;
     faq_page := None;
     product_page := None;
     comparison_page := None;
     errors := Some [];
     execution_log := Some ["🚀 Workflow started"] |}.

(** [state["execution_log"] = state.get("execution_log", []) + entry] *)
Definition log_append (state : SystemState) (entry : string) : SystemState :=
  {| raw_data := raw_data state;
     product := product state;
     questions := questions state;
     faq_page := faq_page state;
     product_page := product_page state;
     comparison_page := comparison_page state;
     errors := errors state;
     execution_log := Some (append (get_list (execution_log state)) entry) |}.

(** [state["errors"] = ...] *)
Definition set_errors (state : SystemState) (l : list string) : SystemState :=
  {| raw_data := raw_data state;
     product := product state;
     questions := questions state;
     faq_page := faq_page state;
     product_page := product_page state;
     comparison_page := comparison_page state;
     errors := Some l;
     execution_log := execution_log state |}.

(** [add_error] *)
Definition add_error (state : SystemState) (error_message : string) : SystemState :=
  let errors := get_list (errors state) in
  let errors := append errors error_message in
  let state := set_errors state errors in
  log_append state (" Error: " ++ error_message).

(** [has_errors] *)
Definition has_errors (state : SystemState) : bool :=
  (0 <? length (get_list (errors state)))%nat.

(** [state["product"] = v] and the like *)
Definition set_product (state : SystemState) (v : ProductModel) : SystemState :=
  {| raw_data := raw_data state;
     product := Some v;
     questions := questions state;
     faq_page := faq_page state;
     product_page := product_page state;
     comparison_page := comparison_page state;
     errors := errors state;
     execution_log := execution_log state |}.

Definition set_questions (state : SystemState) (v : list QuestionModel) : SystemState :=
  {| raw_data := raw_data state;
     product := product state;
     questions := Some v;
     faq_page := faq_page state;
     product_page := product_page state;
     comparison_page := comparison_page state;
     errors := errors state;
     execution_log := execution_log state |}.

Definition set_faq_page (state : SystemState) (v : FAQPageModel) : SystemState :=
  {| raw_data := raw_data state;
     product := product state;
     questions := questions state;
     faq_page := Some v;
     product_page := product_page state;
     comparison_page := comparison_page state;
     errors := errors state;
     execution_log := execution_log state |}.

Definition set_product_page (state : SystemState) (v : ProductPageModel) : SystemState :=
  {| raw_data := raw_data state;
     product := product state;
     questions := questions state;
     faq_page := faq_page state;
     product_page := Some v;
     comparison_page := comparison_page state;
     errors := errors state;
     execution_log := execution_log state |}.

Definition set_comparison_page (state : SystemState) (v : ComparisonPageModel)
  : SystemState :=
  {| raw_data := raw_data state;
     product := product state;
     questions := questions state;
     faq_page := faq_page state;
     product_page := product_page state;
     comparison_page := Some v;
     errors := errors state;
     execution_log := execution_log state |}.

End WithPages.

Arguments raw_data {ProductPageModel} _.
Arguments product {ProductPageModel} _.
Arguments questions {ProductPageModel} _.
Arguments faq_page {ProductPageModel} _.
Arguments product_page {ProductPageModel} _.
Arguments comparison_page {ProductPageModel} _.
Arguments errors {ProductPageModel} _.
Arguments execution_log {ProductPageModel} _.
Arguments create_initial_state {ProductPageModel} _.
Arguments log_append {ProductPageModel} _ _.
Arguments set_errors {ProductPageModel} _ _.
Arguments add_error {ProductPageModel} _ _.
Arguments has_errors {ProductPageModel} _.
Arguments set_product {ProductPageModel} _ _.
Arguments set_questions {ProductPageModel} _ _.
Arguments set_faq_page {ProductPageModel} _ _.
Arguments set_product_page {ProductPageModel} _ _.
Arguments set_comparison_page {ProductPageModel} _ _.

End State.

(* ===================================================================== *)
(** * The agents ([src/agents/*.py])                                      *)
(* ===================================================================== *)

Module Agents.
Import Product Question State.

Section WithEnvironment.
Context `{Builtins} `{LLM}.

Variable ProductPageModel : Type.

(** The body of [product_page_generator_agent] between the product
    check and the assignment of [state["product_page"]]: the hero section
    and the five content blocks, which call the LLM and are not embedded
    here.  It yields the page or raises. *)
Variable build_product_page : ProductModel -> Result ProductPageModel.

(** [_generate_fictional_product]: a competitor parsed from the LLM
    reply or the fallback competitor; [Ok None] when the reply holds no
    JSON object (the function then falls off its end); it raises when the
    client cannot be built or the fallback itself fails. *)
Variable _generate_fictional_product : ProductModel -> Result (option ProductModel).

(** [datetime.utcnow()] *)
Variable utcnow : string.

Abbreviation SystemState := (State.SystemState ProductPageModel).
Definition Agent : Type := SystemState -> SystemState.

(** [ProductModel()] with no argument at all *)
Definition empty_raw : RawProduct :=
  {| raw_name := None; raw_concentration := None; raw_skin_types := None;
     raw_ingredients := None; raw_benefits := None; raw_usage := None;
     raw_side_effects := None; raw_price := None |}.

(** [data_parser_agent] *)
Definition data_parser_agent (state : SystemState) : SystemState :=
  let raw_data := match raw_data state with Some r => r | None => empty_raw end in
  match ProductModel_new raw_data with
  | Ok product =>
      let state := set_product state product in
      log_append state
        (" Agent 1 (Data Parser): Product validated - " ++ name product)
  | Raise (ValidationError fields) =>
      add_error state
        ("Product validation failed: " ++ str_of_exn (ValidationError fields))
  | Raise e =>
      add_error state ("Unexpected error in data parser: " ++ str_of_exn e)
  end.

(** [question_generator_agent] *)
Definition question_generator_agent (state : SystemState) : SystemState :=
  match product state with
  | None => add_error state "Product not found in state"
  | Some product =>
      let body :=
        let* llm := get_llm in
        let* result := llm_questions product in
        Ok (match result with Some questions => questions | None => [] end) in
      match body with
      | Ok questions =>
          let state := set_questions state questions in
          log_append state
            (" Agent 2 (Question Generator): Generated " ++
             str_of_int (Z.of_nat (length questions)) ++ " questions")
      | Raise e =>
          add_error state ("Question generation failed: " ++ str_of_exn e)
      end
  end.

(** [faq_generator_agent] *)
Definition faq_generator_agent (state : SystemState) : SystemState :=
  match product state with
  | None => add_error state "Product not found in state"
  | Some product =>
      match get_list (questions state) with
      | [] => add_error state "Questions not found in state"
      | questions =>
          let body :=
            let* selected_questions :=
              FaqGenerator._select_best_questions questions 10 in
            FaqGenerator._generate_answers product selected_questions in
          match body with
          | Ok qna_pairs =>
              let faq_page :=
                {| faq_page_type := "faq";
                   faq_product_name := name product;
                   faqs := qna_pairs;
                   faq_generated_at := utcnow |} in
              let state := set_faq_page state faq_page in
              log_append state
                (" Agent 4 (FAQ Generator): Generated FAQ with " ++
                 str_of_int (Z.of_nat (length qna_pairs)) ++ " Q&A pairs")
          | Raise e =>
              add_error state ("FAQ generation failed: " ++ str_of_exn e)
          end
      end
  end.

(** [product_page_generator_agent] *)
Definition product_page_generator_agent (state : SystemState) : SystemState :=
  match product state with
  | None => add_error state "Product not found in state"
  | Some product =>
      match build_product_page product with
      | Ok product_page =>
          let state := set_product_page state product_page in
          log_append state
            " Agent 5 (Product Page Generator): Generated complete product page"
      | Raise e =>
          add_error state ("Product page generation failed: " ++ str_of_exn e)
      end
  end.

(** [_generate_recommendation]: the client is built outside the [try];
    a failed call falls back to a fixed text.  The third argument of the
    source, [comparison_data], is read for the prompt only. *)
Definition _generate_recommendation (product_a product_b : ProductModel)
  : Result string :=
  let* llm := get_llm in
  match llm_recommendation product_a product_b with
  | Ok content => Ok content
  | Raise e =>
      Ok ("Both " ++ name product_a ++ " and " ++ name product_b ++
          " are excellent skincare products. Choose based on your specific skin type and budget preferences. " ++
          name product_a ++ " offers proven benefits, while " ++ name product_b ++
          " provides an alternative formulation. Patch test before full use.")
  end.

(** [comparison_generator_agent] *)
Definition comparison_generator_agent (state : SystemState) : SystemState :=
  match product state with
  | None => add_error state "Product not found in state"
  | Some product_a =>
      let body :=
        let* generated := _generate_fictional_product product_a in
        let* product_b :=
          match generated with
          | Some b => Ok b
          | None => Raise (AttributeError "'NoneType' object has no attribute 'price'")
          end in
        let* comparison_data :=
          ComparisonBlock.generate_comparison_block product_a product_b in
        let* recommendation := _generate_recommendation product_a product_b in
        let* comparison_page :=
          ComparisonPageModel_new product_a product_b
            (ComparisonBlock.matrix comparison_data) recommendation utcnow in
        Ok (comparison_page, product_b) in
      match body with
      | Ok (comparison_page, product_b) =>
          let state := set_comparison_page state comparison_page in
          log_append state
            (" Agent 6 (Comparison Generator): Generated comparison with " ++
             name product_b)
      | Raise e =>
          add_error state ("Comparison generation failed: " ++ str_of_exn e)
      end
  end.

End WithEnvironment.

End Agents.

(* ===================================================================== *)
(** * [src/orchestration/graph.py] and [src/orchestration/execution.py]   *)
(* ===================================================================== *)

Module Graph.
Import Product Question State Agents.

(** The nodes [create_workflow_graph] adds. *)
Inductive Node : Type :=
| parse_data
| generate_questions
| generate_faq
| generate_product_page
| generate_comparison.

(** Where an edge leads: a node or [END]. *)
Inductive Target : Type :=
| To (n : Node)
| END.

(** The two values [should_continue_after_questions] returns. *)
Inductive Decision : Type :=
| continue
| error.

Section WithEnvironment.
Context `{Builtins} `{LLM}.
Variable ProductPageModel : Type.
Variable build_product_page : ProductModel -> Result ProductPageModel.
Variable _generate_fictional_product : ProductModel -> Result (option ProductModel).
Variable utcnow : string.

Abbreviation SystemState := (State.SystemState ProductPageModel).

(** [should_continue_after_questions]: the decision, and the state as
    the function leaves it (it records an error when the questions are
    missing). *)
Definition should_continue_after_questions (state : SystemState)
  : Decision * SystemState :=
  let errors := get_list (errors state) in
  if (0 <? length errors)%nat then (error, state)
  else
    match questions state with
    | None =>
        let error_msg := "No questions were generated" in
        (error, set_errors state (get_list (State.errors state) ++ [error_msg])%list)
    | Some _ => (continue, state)
    end.

(** A [StateGraph]: the agent of each node, its unconditional edge if
    it has one, its conditional edges otherwise, and the entry point. *)
Record StateGraph : Type := {
  node : Node -> SystemState -> SystemState;
  edge : Node -> option Target;
  conditional_edges :
    Node -> option ((SystemState -> Decision * SystemState) * (Decision -> Target));
  entry_point : Node
}.

(** [create_workflow_graph] *)
Definition create_workflow_graph : StateGraph :=
  {| node := fun n =>
       match n with
       | parse_data => data_parser_agent ProductPageModel
       | generate_questions => question_generator_agent ProductPageModel
       | generate_faq => faq_generator_agent ProductPageModel utcnow
       | generate_product_page =>
           product_page_generator_agent ProductPageModel build_product_page
       | generate_comparison =>
           comparison_generator_agent ProductPageModel
             _generate_fictional_product utcnow
       end;
     edge := fun n =>
       match n with
       | parse_data => Some (To generate_questions)
       | generate_questions => None
       | generate_faq => Some (To generate_product_page)
       | generate_product_page => Some (To generate_comparison)
       | generate_comparison => Some END
       end;
     conditional_edges := fun n =>
       match n with
       | generate_questions =>
           Some (should_continue_after_questions,
                 fun d => match d with
                          | continue => To generate_faq
                          | error => END
                          end)
       | _ => None
       end;
     entry_point := parse_data |}.

(** One step of the compiled graph: run the node, then follow its
    edge.  A router only chooses the edge: the graph hands it the state to
    read, and what the router writes to it is not kept. *)
Definition step (g : StateGraph) (n : Node) (state : SystemState)
  : Target * SystemState :=
  let state := node g n state in
  match edge g n with
  | Some t => (t, state)
  | None =>
      match conditional_edges g n with
      | Some (router, targets) => (targets (fst (router state)), state)
      | None => (END, state)
      end
  end.

(** [compiled_workflow.invoke(state)]: steps until [END], within the
    library's recursion limit.  The result holds the nodes that ran, in
    order, and the final state. *)
Fixpoint run (g : StateGraph) (limit : nat) (n : Node) (state : SystemState)
    (ran : list Node) : option (list Node * SystemState) :=
  match limit with
  | O => None
  | S limit' =>
      match step g n state with
      | (END, state) => Some (append ran n, state)
      | (To n', state) => run g limit' n' state (append ran n)
      end
  end.

Definition recursion_limit : nat := 25.

Definition invoke (g : StateGraph) (state : SystemState)
  : option (list Node * SystemState) :=
  run g recursion_limit (entry_point g) state [].

(** [execute_workflow] *)
Definition execute_workflow (raw : RawProduct) : option (list Node * SystemState) :=
  let state := create_initial_state raw in
  let workflow := create_workflow_graph in
  invoke workflow state.

(** The state as it is when the gate is evaluated: after
    [parse_data] and [generate_questions]. *)
Definition state_after_questions (raw : RawProduct) : SystemState :=
  question_generator_agent ProductPageModel
    (data_parser_agent ProductPageModel (create_initial_state raw)).

(** The three agents behind the gate, in the order of their edges. *)
Definition after_gate (state : SystemState) : SystemState :=
  comparison_generator_agent ProductPageModel _generate_fictional_product utcnow
    (product_page_generator_agent ProductPageModel build_product_page
       (faq_generator_agent ProductPageModel utcnow state)).

(** The three page fields of a state. *)
Definition pages (state : SystemState)
  : option FAQPageModel * option ProductPageModel * option ComparisonPageModel :=
  (faq_page state, product_page state, comparison_page state).

End WithEnvironment.

Arguments pages {ProductPageModel} _.

End Graph.


(* ===================================================================== *)
(** * Vocabulary of the statements                                        *)
(* ===================================================================== *)

Module Spec.
Import Product.

(** The sign a float carries, when it has one. *)
Definition sign_is (s : bool) (x : float) : Prop :=
  match x with
  | S754_zero s' | S754_infinity s' | S754_finite s' _ _ => s' = s
  | S754_nan => False
  end.

(** Two differences mirror each other when one is the opposite of the
    other, or when both are zero. *)
Definition mirror (d d' : float) : Prop :=
  d' = SFopp d \/ (is_zero d = true /\ is_zero d' = true).

(** [occurs needle s]: the text [s] has an occurrence of [needle]. *)
Definition occurs (needle s : string) : Prop :=
  exists pre post, s = pre ++ needle ++ post.

(** [mentions word s]: the text [s] has an occurrence of [word] in some
    mix of upper and lower case. *)
Definition mentions (word s : string) : Prop :=
  exists pre w post, s = pre ++ w ++ post /\ lower w = word.

(** The winner tag of the price row, as the chain of tests on the
    difference [d] decides it. *)
Definition price_winner (d : float) : string :=
  if flt (fabs d) (lit 100) then "tie"
  else if flt d (lit 0) then "product_b" else "product_a".

(** The verdict of the price row, for a difference [d] whose integer part
    is [n]. *)
Definition price_verdict (d : float) (n : Z) : string :=
  if flt (fabs d) (lit 100) then "Similarly priced"
  else if flt d (lit 0) then
    ComparisonBlock.rupee ++ str_of_int (Z.abs n) ++ " cheaper"
  else ComparisonBlock.rupee ++ str_of_int n ++ " more affordable".

(** The number of rows of a matrix whose winner tag is exactly [tag]. *)
Definition tally (tag : string) (m : list ComparisonBlock.Dimension) : nat :=
  count_occ string_dec (map ComparisonBlock.winner m) tag.

(** The four winner tags. *)
Definition winner_tags : list string :=
  ["product_a"; "product_b"; "tie"; "contextual"].

(** No whitespace character at the start of [s]. *)
Definition no_leading_space (s : string) : bool :=
  match s with
  | EmptyString => true
  | String c1 s1 =>
      negb (is_space1 c1) &&
      match s1 with
      | EmptyString => true
      | String c2 s2 =>
          negb (is_space2 c1 c2) &&
          match s2 with
          | EmptyString => true
          | String c3 _ => negb (is_space3 c1 c2 c3)
          end
      end
  end.

(** *** Template engine *)

Section EngineVocabulary.
Context {Content : Type}.
Import TemplateEngine.

(** The block registered under [name] raises on [product]. *)
Definition raises (self : Engine Content) (product : ProductModel) (name : string) : Prop :=
  exists f e, registered_blocks self !! name = Some f /\ f product = Raise e.

(** The block registered under [name] returns [c] on [product]. *)
Definition returns (self : Engine Content) (product : ProductModel) (name : string)
    (c : Content) : Prop :=
  exists f, registered_blocks self !! name = Some f /\ f product = Ok c.

(** [name in self.registered_blocks] *)
Definition registered (self : Engine Content) (name : string) : bool :=
  match registered_blocks self !! name with Some _ => true | None => false end.

(** The entries that a pass over [names] contributes: one per registered
    name whose block returns, in listed order. *)
Fixpoint entries (self : Engine Content) (product : ProductModel) (required : bool)
    (names : list string) : list (RenderedBlock Content) :=
  match names with
  | [] => []
  | name :: rest =>
      match registered_blocks self !! name with
      | Some f =>
          match f product with
          | Ok c =>
              {| rb_name := name; rb_content := c; rb_required := required |}
              :: entries self product required rest
          | Raise _ => entries self product required rest
          end
      | None => entries self product required rest
      end
  end.

(** The reading of "every required block is rendered, none is skipped":
    the call returns a section whose required entries are, name by name,
    the listed required blocks. *)
Definition renders_all_required (self : Engine Content) (section : TemplateSection)
    (product : ProductModel) : Prop :=
  exists calls r,
    render_section self section product = (calls, Ok r) /\
    map rb_name (List.filter rb_required (rs_blocks r)) = required_blocks section.

End EngineVocabulary.

(** *** FAQ answers *)

(** The answer record built from the fallback answer alone. *)
Definition fallback_qa `{Builtins} (p : ProductModel) (q : Question.QuestionModel)
  : Question.QuestionAnswerModel :=
  {| Question.qa_question := Question.question q;
     Question.qa_answer := FaqGenerator._generate_fallback_answer p q;
     Question.qa_category := Question.category_str (Question.category q) |}.

End Spec.

(* ===================================================================== *)
(** * Concrete inputs                                                     *)
(* ===================================================================== *)

Module Examples.
Import Product.

(** The example record of [ProductModel.Config]. *)
Definition glowboost_raw : RawProduct :=
  {| raw_name := Some "GlowBoost Vitamin C Serum";
     raw_concentration := Some "10% Vitamin C";
     raw_skin_types := Some ["Oily"; "Combination"];
     raw_ingredients := Some ["Vitamin C"; "Hyaluronic Acid"];
     raw_benefits := Some ["Brightening"; "Fades dark spots"];
     raw_usage := Some "Apply 2-3 drops in the morning before sunscreen";
     raw_side_effects := Some "Mild tingling for sensitive skin";
     raw_price := Some (lit 699) |}.

Definition glowboost : ProductModel :=
  {| name := "GlowBoost Vitamin C Serum";
     concentration := "10% Vitamin C";
     skin_types := ["Oily"; "Combination"];
     ingredients := ["Vitamin C"; "Hyaluronic Acid"];
     benefits := ["Brightening"; "Fades dark spots"];
     usage := "Apply 2-3 drops in the morning before sunscreen";
     side_effects := "Mild tingling for sensitive skin";
     price := lit 699 |}.

(** The same input with no skin type. *)
Definition no_skin_type_raw : RawProduct :=
  {| raw_name := Some "GlowBoost Vitamin C Serum";
     raw_concentration := Some "10% Vitamin C";
     raw_skin_types := Some [];
     raw_ingredients := Some ["Vitamin C"; "Hyaluronic Acid"];
     raw_benefits := Some ["Brightening"; "Fades dark spots"];
     raw_usage := Some "Apply 2-3 drops in the morning before sunscreen";
     raw_side_effects := Some "Mild tingling for sensitive skin";
     raw_price := Some (lit 699) |}.

(** Two products that differ in price and side effects: A costs 500 and
    B costs 700. *)
Definition product_500 : ProductModel :=
  {| name := "Serum A";
     concentration := "10% Vitamin C";
     skin_types := ["Oily"; "Combination"];
     ingredients := ["Vitamin C"; "Hyaluronic Acid"];
     benefits := ["Brightening"; "Fades dark spots"];
     usage := "Apply 2-3 drops in the morning before sunscreen";
     side_effects := "Mild tingling";
     price := lit 500 |}.

Definition product_700 : ProductModel :=
  {| name := "Serum B";
     concentration := "12% Vitamin C";
     skin_types := ["Dry"; "Normal"];
     ingredients := ["Vitamin C"; "Retinol"];
     benefits := ["Brightening"];
     usage := "Apply twice daily";
     side_effects := "Moderate redness";
     price := lit 700 |}.

(** Builtins for evaluation: the texts they produce play no part in what
    is evaluated with them, and the texts lowered in the examples are
    ASCII. *)
Definition plain_builtins : Builtins :=
  {| str_of_float := fun _ => EmptyString;
     set_iter := fun l => l;
     validation_error_text := fun fields => String.concat ", " fields;
     str_lower := lower |}.

(** A section with one required block. *)
Definition benefits_section : TemplateEngine.TemplateSection :=
  {| TemplateEngine.section_name := "benefits";
     TemplateEngine.required_blocks := ["benefit_block"];
     TemplateEngine.optional_blocks := [];
     TemplateEngine.llm_enhance := true;
     TemplateEngine.format_rules := ∅ |}.

(** A section with one optional block. *)
Definition extras_section : TemplateEngine.TemplateSection :=
  {| TemplateEngine.section_name := "extras";
     TemplateEngine.required_blocks := [];
     TemplateEngine.optional_blocks := ["comparison_block"];
     TemplateEngine.llm_enhance := false;
     TemplateEngine.format_rules := ∅ |}.

(** A section with a required and an optional block. *)
Definition pricing_section : TemplateEngine.TemplateSection :=
  {| TemplateEngine.section_name := "pricing";
     TemplateEngine.required_blocks := ["price_block"];
     TemplateEngine.optional_blocks := ["comparison_block"];
     TemplateEngine.llm_enhance := false;
     TemplateEngine.format_rules := ∅ |}.

(** An engine with the price block and with the comparison block, which
    takes two products and so raises when the engine calls it on one. *)
Definition price_engine : TemplateEngine.Engine PriceBlock.PriceContent :=
  TemplateEngine.register_block
    (TemplateEngine.register_block TemplateEngine.new_engine
       "price_block" (PriceBlock.generate_price_block_default (H := plain_builtins)))
    "comparison_block"
    (fun _ => Raise (TypeError
       "generate_comparison_block() missing 1 required positional argument: 'product_b'")).

(** An engine whose only block, required by [benefits_section], raises. *)
Definition failing_engine : TemplateEngine.Engine PriceBlock.PriceContent :=
  TemplateEngine.register_block TemplateEngine.new_engine
    "benefit_block" (fun _ => Raise (Exception "benefit block failed")).

(** The engine of [price_engine] with a benefit block that raises. *)
Definition guarded_engine : TemplateEngine.Engine PriceBlock.PriceContent :=
  TemplateEngine.register_block price_engine
    "benefit_block" (fun _ => Raise (Exception "benefit block failed")).

(** A section with four required names: the second is registered with no
    engine here, and in [guarded_engine] the third raises. *)
Definition summary_section : TemplateEngine.TemplateSection :=
  {| TemplateEngine.section_name := "summary";
     TemplateEngine.required_blocks :=
       ["price_block"; "hero_block"; "benefit_block"; "comparison_block"];
     TemplateEngine.optional_blocks := [];
     TemplateEngine.llm_enhance := false;
     TemplateEngine.format_rules := ∅ |}.

(** Three questions. *)
Definition sample_questions : list Question.QuestionModel :=
  [ {| Question.category := Question.cat_usage;
       Question.question := "How often should I apply this serum?" |};
    {| Question.category := Question.cat_purchase;
       Question.question := "Is this serum worth the price?" |};
    {| Question.category := Question.cat_informational;
       Question.question := "What skin types is this serum for?" |} ].

(** An LLM that answers every call. *)
Definition answering_llm : LLM :=
  {| api_key := Some "sk-test";
     llm_questions := fun _ => Ok (Some sample_questions);
     llm_answers := fun _ _ => Ok "1. Apply it every morning.";
     llm_recommendation := fun _ _ => Ok "Both are fine." |}.

(** An LLM whose every call fails. *)
Definition failing_llm : LLM :=
  {| api_key := Some "sk-test";
     llm_questions := fun _ => Raise (Exception "rate limit");
     llm_answers := fun _ _ => Raise (Exception "rate limit");
     llm_recommendation := fun _ _ => Raise (Exception "rate limit") |}.

(** No API key in the environment. *)
Definition no_key_llm : LLM :=
  {| api_key := None;
     llm_questions := fun _ => Ok (Some sample_questions);
     llm_answers := fun _ _ => Ok "1. Apply it every morning.";
     llm_recommendation := fun _ _ => Ok "Both are fine." |}.

(** The competitor the comparison agent generates in the examples. *)
Definition competitor (a : ProductModel) : Result (option ProductModel) :=
  Ok (Some product_700).

End Examples.

(* ===================================================================== *)
(** * [src/logic_blocks/usage_block.py]                                   *)
(* ===================================================================== *)

Module UsageBlock.
Import Product.

(** One entry of the ["steps"] list. *)
Record Step : Type := {
  step : Z;
  action : string;
  description : string
}.

(** The dictionary [generate_usage_block] returns. *)
Record UsageContent : Type := {
  title : string;
  frequency : string;
  timing : string;
  routine_position : string;
  application_amount : string;
  steps : list Step;
  tips : list string;
  instructions : string
}.

(** [_determine_frequency] *)
Definition _determine_frequency (usage_text : string) : string :=
  if contains "once" usage_text then "Once daily"
  else if contains "twice" usage_text || contains "morning and evening" usage_text then
    "Twice daily"
  else if contains "morning" usage_text then "Once daily (morning)"
  else if contains "evening" usage_text || contains "night" usage_text then
    "Once daily (evening)"
  else "Daily".

(** [_generate_application_steps] *)
Definition _generate_application_steps (product : ProductModel) (amount timing : string)
  : list Step :=
  let steps :=
    [ {| step := 1;
         action := "Cleanse";
         description := "Start with a clean face and neck. Pat dry completely." |};
      {| step := 2;
         action := "Apply Serum";
         description :=
           "Dispense " ++ amount ++ " onto fingertips and apply to face and neck." |};
      {| step := 3;
         action := "Massage";
         description := "Gently massage in upward, circular motions for 30 seconds." |};
      {| step := 4;
         action := "Wait";
         description := "Allow serum to absorb for 1-2 minutes before proceeding." |} ] in
  (* Add timing-specific step *)
  if contains "morning" (lower timing) then
    append steps
      {| step := 5;
         action := "Apply Sunscreen";
         description :=
           "Always apply broad-spectrum SPF 30+ sunscreen as the final step." |}
  else
    append steps
      {| step := 5;
         action := "Moisturize";
         description := "Follow with your regular moisturizer to lock in benefits." |}.

(** [tips.append(a); tips.append(b)] *)
Definition append2 (l : list string) (a b : string) : list string :=
  append (append l a) b.

(** [_generate_usage_tips] *)
Definition _generate_usage_tips (product : ProductModel) : list string :=
  let tips : list string := [] in
  (* Vitamin C specific tips *)
  let tips :=
    if existsb (fun ing => contains "vitamin c" (lower ing)) (ingredients product) then
      append2 tips
        "Vitamin C works best on clean skin - apply to completely dry face"
        "Store in a cool place to maintain stability and potency"
    else tips in
  (* Skin type specific tips *)
  let tips :=
    if in_list "Oily" (skin_types product) then
      append tips "Use lightweight moisturizer after application"
    else tips in
  let tips :=
    if in_list "Sensitive" (skin_types product) ||
       contains "sensitive" (lower (side_effects product)) then
      append2 tips
        "Start with use 2-3 times per week to allow skin to adapt"
        "Do patch test on inner arm first if this is your first time"
    else tips in
  (* General tips *)
  append2 tips
    "Consistency is key - use daily for best results"
    "Visible results typically appear within 2-4 weeks of regular use".

(** The timing and the routine position, by the first chain of tests. *)
Definition usage_timing (usage_text : string) : string * string :=
  if contains "morning" usage_text then
    ("Morning", "after cleansing, before sunscreen")
  else if contains "evening" usage_text || contains "night" usage_text then
    ("Evening", "after cleansing, before moisturizer")
  else
    ("Daily", "as needed in your skincare routine").

(** The application amount, by the second chain of tests; the second
    needle of the first test is written with an en dash. *)
Definition usage_amount (usage_text : string) : string :=
  if contains "2-3 drops" usage_text || contains "2–3 drops" usage_text then "2-3 drops"
  else if contains "drop" usage_text then "Few drops"
  else if contains "pea-sized" usage_text then "Pea-sized amount"
  else "As directed".

(** [generate_usage_block] *)
Definition generate_usage_block (product : ProductModel) : UsageContent :=
  (* Parse the usage instruction *)
  let usage_text := lower (usage product) in
  let tr := usage_timing usage_text in
  let timing := fst tr in
  let routine_position := snd tr in
  let application_amount := usage_amount usage_text in
  (* Generate step-by-step instructions *)
  let steps := _generate_application_steps product application_amount timing in
  (* Generate tips *)
  let tips := _generate_usage_tips product in
  {| title := "How to Use";
     frequency := _determine_frequency usage_text;
     timing := timing;
     routine_position := routine_position;
     application_amount := application_amount;
     steps := steps;
     tips := tips;
     instructions := usage product |}.

End UsageBlock.

(* ===================================================================== *)
(** * [src/logic_blocks/safety_block.py]                                  *)
(* ===================================================================== *)

Module SafetyBlock.
Import Product.

(** One entry of the ["side_effects"] list. *)
Record Effect : Type := {
  effect : string;
  context : string
}.

(** The dictionary [generate_safety_block] returns; its key
    [side_effects] is the field [known_side_effects] here. *)
Record SafetyContent : Type := {
  title : string;
  severity : string;
  description : string;
  known_side_effects : list Effect;
  precautions : list string;
  if_side_effects_occur : list string;
  suitable_for : list string;
  not_suitable_for : list string;
  disclaimer : string
}.

(** [_identify_side_effects] *)
Definition _identify_side_effects (side_effects_text : string) : list Effect :=
  let effects : list Effect := [] in
  let effects :=
    if contains "tingling" side_effects_text then
      append effects
        {| effect := "Tingling sensation";
           context :=
             "Common with actives like Vitamin C, usually subsides after a few minutes" |}
    else effects in
  let effects :=
    if contains "redness" side_effects_text then
      append effects
        {| effect := "Mild redness";
           context :=
             "May occur during initial use as skin adjusts - reduce frequency if severe" |}
    else effects in
  let effects :=
    if contains "dryness" side_effects_text then
      append effects
        {| effect := "Temporary dryness";
           context :=
             "Use a good moisturizer after application to maintain skin barrier" |}
    else effects in
  let effects :=
    if contains "irritation" side_effects_text then
      append effects
        {| effect := "Skin irritation";
           context := "Discontinue use and allow skin to calm before resuming" |}
    else effects in
  match effects with
  | [] =>
      append effects
        {| effect := "No known severe side effects";
           context := "Well-tolerated by most users when used as directed" |}
  | _ => effects
  end.

(** [_generate_precautions] *)
Definition _generate_precautions (product : ProductModel) (side_effects_text : string)
  : list string :=
  let precautions :=
    [ "Always patch test on inner arm 24 hours before full application";
      "Avoid contact with eyes - if contact occurs, rinse immediately with water" ] in
  let precautions :=
    if contains "sensitive" side_effects_text then
      append precautions "Start with 2-3 times per week if you have sensitive skin"
    else precautions in
  let precautions :=
    if existsb (fun ing => contains "vitamin c" (lower ing)) (ingredients product) then
      append precautions "Do not mix with vitamin B3 or niacinamide in the same routine"
    else precautions in
  let precautions :=
    if existsb (fun ing => contains "acid" (lower ing)) (ingredients product) then
      append precautions "Avoid using with other exfoliating acids on the same day"
    else precautions in
  (precautions ++
   [ "Keep away from heat sources - store in cool place";
     "Consult a dermatologist if you have specific skin conditions or concerns" ])%list.

(** [_generate_action_steps] *)
Definition _generate_action_steps (severity : string) (effects : list Effect)
  : list string :=
  let steps :=
    [ "Stop using the product immediately";
      "Rinse face thoroughly with cool water" ] in
  let steps :=
    if in_list severity ["Moderate"; "Requires Caution"] then
      (steps ++
       [ "Apply a gentle, fragrance-free moisturizer";
         "Do not use other active ingredients until irritation clears" ])%list
    else
      append steps "Apply a calming moisturizer to soothe skin" in
  append steps "Consider reintroducing at lower frequency once skin has calmed".

(** [_determine_suitable_for] *)
Definition _determine_suitable_for (product : ProductModel) : list string :=
  let suitable :=
    fold_left (fun suitable skin_type => append suitable (skin_type ++ " skin"))
              (skin_types product) [] in
  let suitable := append suitable "Adults 18+ years" in
  if contains "mild" (lower (side_effects product)) then
    append suitable "Sensitive skin types (with patch test)"
  else suitable.

(** [_determine_not_suitable_for] *)
Definition _determine_not_suitable_for (product : ProductModel)
    (side_effects_text : string) : list string :=
  let not_suitable :=
    [ "Pregnant or nursing women (consult doctor)";
      "Children under 18 years" ] in
  let not_suitable :=
    if contains "sensitive" side_effects_text then
      append not_suitable "Those with severe skin sensitivity without prior testing"
    else not_suitable in
  (not_suitable ++
   [ "Those allergic to any ingredient (review full ingredient list)";
     "Active skin infections or severe acne (consult dermatologist first)" ])%list.

(** The severity and its description, by the chain of tests. *)
Definition parse_severity (product : ProductModel) (side_effects_text : string)
  : string * string :=
  if contains "mild" side_effects_text then
    ("Mild", "Generally well-tolerated with minimal side effects")
  else if contains "moderate" side_effects_text then
    ("Moderate", "Some users may experience temporary discomfort")
  else if contains "severe" side_effects_text then
    ("Requires Caution", "Please consult a dermatologist before use")
  else
    ("Minimal", name product ++ " is formulated for optimal safety").

(** [generate_safety_block] *)
Definition generate_safety_block (product : ProductModel) : SafetyContent :=
  let side_effects_text := lower (side_effects product) in
  (* Parse severity *)
  let sd := parse_severity product side_effects_text in
  let severity := fst sd in
  let severity_description := snd sd in
  (* Identify specific side effects *)
  let known_effects := _identify_side_effects side_effects_text in
  (* Generate precautions *)
  let precautions := _generate_precautions product side_effects_text in
  (* Generate what to do if side effects occur *)
  let action_steps := _generate_action_steps severity known_effects in
  (* Suitable for *)
  let suitable_for := _determine_suitable_for product in
  let not_suitable_for := _determine_not_suitable_for product side_effects_text in
  {| title := "Safety & Side Effects";
     severity := severity;
     description := severity_description;
     known_side_effects := known_effects;
     precautions := precautions;
     if_side_effects_occur := action_steps;
     suitable_for := suitable_for;
     not_suitable_for := not_suitable_for;
     disclaimer :=
       "This information is for educational purposes. Always patch test and consult a dermatologist if you have concerns." |}.

End SafetyBlock.

(* ===================================================================== *)
(** * JSON out of an LLM reply                                            *)
(* ===================================================================== *)

Module Json.

(** A parsed JSON value. *)
#[warnings="-register-all"]
Inductive Value : Type :=
| Null
| Bool (b : bool)
| Int (n : Z)
| Float (x : float)
| Str (s : string)
| Array (l : list Value)
| Object (items : list (string * Value)).

(** [d.items()]: only a dictionary has it. *)
Definition items (d : Value) : Result (list (string * Value)) :=
  match d with
  | Object l => Ok l
  | _ => Raise (AttributeError "object has no attribute 'items'")
  end.

Fixpoint lookup_key (k : string) (l : list (string * Value)) : option Value :=
  match l with
  | [] => None
  | (k', v) :: rest => if String.eqb k' k then Some v else lookup_key k rest
  end.

(** [d.get(k, default)]: only a dictionary has it. *)
Definition get (d : Value) (k : string) (default : Value) : Result Value :=
  match d with
  | Object l => Ok (match lookup_key k l with Some v => v | None => default end)
  | _ => Raise (AttributeError "object has no attribute 'get'")
  end.

(** [s.find(c)] for a one-character [c]: the index of its first
    occurrence, or [-1].  Indices count bytes here and code points in the
    interpreter; the braces searched for are single bytes that occur in no
    longer encoding, and an index is only ever used to cut the text it was
    found in, so that the texts cut out are the same. *)
Fixpoint find_from (c : ascii) (s : string) (i : Z) : Z :=
  match s with
  | EmptyString => -1
  | String a s' => if Ascii.eqb a c then i else find_from c s' (i + 1)
  end.

Definition find (c : ascii) (s : string) : Z := find_from c s 0.

(** [s.rfind(c)]: the index of the last occurrence, or [-1]. *)
Fixpoint rfind_from (c : ascii) (s : string) (i last : Z) : Z :=
  match s with
  | EmptyString => last
  | String a s' => rfind_from c s' (i + 1) (if Ascii.eqb a c then i else last)
  end.

Definition rfind (c : ascii) (s : string) : Z := rfind_from c s 0 (-1).

(** [s[start:stop]] for [0 <= start], the only case the sources reach. *)
Definition slice (s : string) (start stop : Z) : string :=
  substring (Z.to_nat start) (Z.to_nat (stop - start)) s.

Definition open_brace : ascii := "{"%char.
Definition close_brace : ascii := "}"%char.

(** The extraction every LLM caller repeats:
    [start_idx = content.find('{')], [end_idx = content.rfind('}') + 1],
    and, [if start_idx >= 0 and end_idx > start_idx], the text
    [content[start_idx:end_idx]]. *)
Definition extract_json (content : string) : option string :=
  let start_idx := find open_brace content in
  let end_idx := rfind close_brace content + 1 in
  if (start_idx >=? 0) && (end_idx >? start_idx)
  then Some (slice content start_idx end_idx)
  else None.

End Json.

(** [json.loads], the parser of the standard library, is taken as
    given. *)
Class JsonLib : Type := {
  json_loads : string -> Result Json.Value
}.

(** The replies of the LLM to the prompts of the content blocks. *)
Class BlockLLM : Type := {
  (** [llm.invoke(prompt).content] in [_generate_benefit_block_with_llm] *)
  llm_benefits : Product.ProductModel -> Result string;
  (** [llm.invoke(prompt).content] in [_get_ingredient_info_from_llm],
      where the call is made twice in a row: the content of the second
      reply, or the failure of either call *)
  llm_ingredients : list string -> Product.ProductModel -> Result string;
  (** [llm.invoke(prompt).content] in [_generate_hero_section] *)
  llm_hero : Product.ProductModel -> Result string
}.

(* ===================================================================== *)
(** * [src/logic_blocks/benefit_block.py]                                 *)
(* ===================================================================== *)

Module BenefitBlock.
Import Product.

Record BenefitDetail : Type := {
  benefit : string;
  description : Json.Value;
  relevance : string
}.

Record BenefitContent : Type := {
  title : string;
  benefit_details : list BenefitDetail;
  summary : string
}.

Section WithEnvironment.
Context `{Builtins} `{JsonLib} `{LLM} `{BlockLLM}.

(** [_generate_benefit_block_rule_based] *)
Definition _generate_benefit_block_rule_based (product : ProductModel) : BenefitContent :=
  let benefit_details :=
    map (fun benefit =>
           {| benefit := benefit;
              description :=
                Json.Str ("Experience the power of " ++ str_lower benefit ++
                          " with our advanced formula.");
              relevance := "High" |})
        (benefits product) in
  {| title := "Key Benefits";
     benefit_details := benefit_details;
     summary :=
       "This product delivers " ++ str_of_int (Z.of_nat (length (benefits product))) ++
       " proven benefits for " ++ join ", " (skin_types product) ++ " skin." |}.

(** [_generate_benefit_block_with_llm]: the client is built outside the
    [try]; when the reply holds no JSON object, the function falls off its
    end and returns [None]. *)
Definition _generate_benefit_block_with_llm (product : ProductModel)
  : Result (option BenefitContent) :=
  let* llm := get_llm in
  try_except
    (let* content := llm_benefits product in
     match Json.extract_json content with
     | Some json_str =>
         let* benefit_dict := json_loads json_str in
         let* items := Json.items benefit_dict in
         let benefit_details :=
           map (fun bd : string * Json.Value =>
                  {| benefit := fst bd;
                     description := snd bd;
                     relevance := "High" |})
               items in
         Ok (Some {| title := "Key Benefits";
                     benefit_details := benefit_details;
                     summary :=
                       "This product delivers " ++
                       str_of_int (Z.of_nat (length benefit_details)) ++
                       " proven benefits for " ++ join ", " (skin_types product) ++
                       " skin." |})
     | None => Ok None
     end)
    (fun e => Ok (Some (_generate_benefit_block_rule_based product))).

(** [generate_benefit_block(product, use_llm)] *)
Definition generate_benefit_block (product : ProductModel) (use_llm : bool)
  : Result (option BenefitContent) :=
  if use_llm then _generate_benefit_block_with_llm product
  else Ok (Some (_generate_benefit_block_rule_based product)).

End WithEnvironment.

End BenefitBlock.

(* ===================================================================== *)
(** * [src/logic_blocks/ingredient_block.py]                              *)
(* ===================================================================== *)

Module IngredientBlock.
Import Product.

Record Info : Type := {
  info_function : string;
  info_benefits : list string
}.

(** [INGREDIENT_KNOWLEDGE] *)
Definition INGREDIENT_KNOWLEDGE : gmap string Info :=
  list_to_map
    [ ("vitamin c",
       {| info_function := "Powerful antioxidant that brightens and protects skin";
          info_benefits := ["Brightening"; "Antioxidant protection"; "Collagen synthesis"] |});
      ("hyaluronic acid",
       {| info_function := "Humectant that holds up to 1000x its weight in water";
          info_benefits := ["Deep hydration"; "Plumping effect"; "Moisture retention"] |});
      ("niacinamide",
       {| info_function := "Vitamin B3 that strengthens skin barrier";
          info_benefits := ["Oil control"; "Pore minimizing"; "Barrier support"] |});
      ("retinol",
       {| info_function := "Vitamin A derivative that promotes cell renewal";
          info_benefits := ["Anti-aging"; "Texture improvement"; "Wrinkle reduction"] |});
      ("salicylic acid",
       {| info_function := "Beta hydroxy acid that exfoliates deep in pores";
          info_benefits := ["Acne control"; "Pore cleansing"; "Texture smoothing"] |}) ].

Record IngredientDetail : Type := {
  ingredient : string;
  ing_function : Json.Value;
  ing_benefits : Json.Value
}.

Record IngredientContent : Type := {
  title : string;
  ingredient_details : list IngredientDetail;
  summary : string
}.

(** The entry of an ingredient found in the knowledge base. *)
Definition known_detail (ingredient : string) (info : Info) : IngredientDetail :=
  {| ingredient := ingredient;
     ing_function := Json.Str (info_function info);
     ing_benefits := Json.Array (map Json.Str (info_benefits info)) |}.

(** The first pass: [ingredient_details] and [unknown_ingredients]. *)
Definition first_pass (product : ProductModel) : list IngredientDetail * list string :=
  fold_left
    (fun (acc : list IngredientDetail * list string) ingredient =>
       let ing_lower := lower ingredient in
       match INGREDIENT_KNOWLEDGE !! ing_lower with
       | Some info => (append (fst acc) (known_detail ingredient info), snd acc)
       | None => (fst acc, append (snd acc) ingredient)
       end)
    (ingredients product) ([], []).

Section WithEnvironment.
Context `{JsonLib} `{LLM} `{BlockLLM}.

(** The loop over [ingredient_dict.items()]. *)
Fixpoint details_loop (items : list (string * Json.Value))
    (details : list IngredientDetail) : Result (list IngredientDetail) :=
  match items with
  | [] => Ok details
  | (ingredient, info) :: rest =>
      let* f := Json.get info "function" (Json.Str "Active ingredient") in
      let* b := Json.get info "benefits" (Json.Array []) in
      details_loop rest
        (append details {| ingredient := ingredient; ing_function := f; ing_benefits := b |})
  end.

(** [_get_ingredient_info_from_llm]: the client is built outside the
    [try]; [None] when the reply holds no JSON object; the empty list when
    the call or the parsing fails. *)
Definition _get_ingredient_info_from_llm (ingredients : list string)
    (product : ProductModel) : Result (option (list IngredientDetail)) :=
  let* llm := get_llm in
  try_except
    (let* content := llm_ingredients ingredients product in
     match Json.extract_json content with
     | Some json_str =>
         let* ingredient_dict := json_loads json_str in
         let* items := Json.items ingredient_dict in
         let* details := details_loop items [] in
         Ok (Some details)
     | None => Ok None
     end)
    (fun e => Ok (Some [])).

(** The entry of an ingredient nothing is known about. *)
Definition filler_detail (product : ProductModel) (ingredient : string)
  : IngredientDetail :=
  {| ingredient := ingredient;
     ing_function := Json.Str ("Active ingredient in " ++ name product);
     ing_benefits := Json.Array [Json.Str "Part of proprietary formula"] |}.

(** [generate_ingredient_block(product, use_llm)]; extending a list by
    [None] is a [TypeError]. *)
Definition generate_ingredient_block (product : ProductModel) (use_llm : bool)
  : Result IngredientContent :=
  let fp := first_pass product in
  let ingredient_details := fst fp in
  let unknown_ingredients := snd fp in
  let* ingredient_details :=
    if negb (Nat.eqb (length unknown_ingredients) 0) && use_llm then
      let* llm_details := _get_ingredient_info_from_llm unknown_ingredients product in
      match llm_details with
      | Some l => Ok (ingredient_details ++ l)%list
      | None => Raise (TypeError "'NoneType' object is not iterable")
      end
    else
      Ok (fold_left (fun details ingredient =>
                       append details (filler_detail product ingredient))
                    unknown_ingredients ingredient_details) in
  Ok {| title := "Key Ingredients";
        ingredient_details := ingredient_details;
        summary :=
          "Formulated with " ++ str_of_int (Z.of_nat (length (ingredients product))) ++
          " science-backed ingredients" |}.

End WithEnvironment.

End IngredientBlock.

(* ===================================================================== *)
(** * [src/agents/product_page_generator.py] and [ProductPageModel]       *)
(* ===================================================================== *)

Module ProductPage.
Import Product.

(** [ProductPageModel] *)
Record ProductPageModel : Type := {
  page_type : string;
  product_name : string;
  hero_section : list (string * Json.Value);
  benefits_section : BenefitBlock.BenefitContent;
  usage_section : UsageBlock.UsageContent;
  ingredients_section : IngredientBlock.IngredientContent;
  safety_section : SafetyBlock.SafetyContent;
  price_section : PriceBlock.PriceContent;
  generated_at : string
}.

(** Construction of a [ProductPageModel]: every section must be a
    dictionary, so a hero that is not a JSON object and a benefits section
    that is [None] are validation errors. *)
Definition ProductPageModel_new (product_name : string) (hero : Json.Value)
    (benefits : option BenefitBlock.BenefitContent)
    (usage : UsageBlock.UsageContent)
    (ingredients : IngredientBlock.IngredientContent)
    (safety : SafetyBlock.SafetyContent)
    (price : PriceBlock.PriceContent) (generated_at : string)
  : Result ProductPageModel :=
  match hero, benefits with
  | Json.Object h, Some b =>
      Ok {| page_type := "product";
            product_name := product_name;
            hero_section := h;
            benefits_section := b;
            usage_section := usage;
            ingredients_section := ingredients;
            safety_section := safety;
            price_section := price;
            generated_at := generated_at |}
  | _, _ =>
      Raise (ValidationError
               ((match hero with Json.Object _ => [] | _ => ["hero_section"] end) ++
                (match benefits with Some _ => [] | None => ["benefits_section"] end))%list)
  end.

Section WithEnvironment.
Context `{Builtins} `{JsonLib} `{LLM} `{BlockLLM}.

(** [datetime.utcnow()] *)
Variable utcnow : string.

(** The dictionary [_generate_hero_section] ends with. *)
Definition fallback_hero (product : ProductModel) : Json.Value :=
  Json.Object
    [ ("headline", Json.Str ("Premium " ++ name product));
      ("tagline",
       Json.Str ("Professional skincare solution for " ++
                 join ", " (skin_types product) ++ " skin. Formulated with " ++
                 concentration product ++ "."));
      ("cta_text", Json.Str "Shop Now") ].

(** [_generate_hero_section]: the client is built outside the [try]; a
    reply without a JSON object, a failed call and a failed parse all end
    with the fallback dictionary. *)
Definition _generate_hero_section (product : ProductModel) : Result Json.Value :=
  let* llm := get_llm in
  let attempt :=
    let* content := llm_hero product in
    match Json.extract_json content with
    | Some json_str =>
        let* hero_data := json_loads json_str in
        Ok (Some hero_data)
    | None => Ok None
    end in
  match attempt with
  | Ok (Some hero_data) => Ok hero_data
  | Ok None => Ok (fallback_hero product)
  | Raise e => Ok (fallback_hero product)
  end.

(** The body of the [try] of [product_page_generator_agent], from the
    hero section to the construction of the page. *)
Definition build_product_page (product : ProductModel) : Result ProductPageModel :=
  let* hero_section := _generate_hero_section product in
  let* benefits_section := BenefitBlock.generate_benefit_block product true in
  let* ingredients_section := IngredientBlock.generate_ingredient_block product true in
  let usage_section := UsageBlock.generate_usage_block product in
  let safety_section := SafetyBlock.generate_safety_block product in
  let* price_section := PriceBlock.generate_price_block_default product in
  ProductPageModel_new (name product) hero_section benefits_section usage_section
    ingredients_section safety_section price_section utcnow.

End WithEnvironment.

End ProductPage.

(* ===================================================================== *)
(** * [create_default_engine] and the page templates                      *)
(* ===================================================================== *)

Module DefaultEngine.
Import Product TemplateEngine.

(** What the registered blocks return. *)
Inductive BlockContent : Type :=
| BenefitBlockContent (c : option BenefitBlock.BenefitContent)
| IngredientBlockContent (c : IngredientBlock.IngredientContent)
| UsageBlockContent (c : UsageBlock.UsageContent)
| SafetyBlockContent (c : SafetyBlock.SafetyContent)
| PriceBlockContent (c : PriceBlock.PriceContent).

Section WithEnvironment.
Context `{Builtins} `{JsonLib} `{LLM} `{BlockLLM}.

(** [generate_comparison_block] takes two products; the engine calls
    every block on one. *)
Definition comparison_block_on_one_product : Block BlockContent :=
  fun _ =>
    Raise (TypeError
      "generate_comparison_block() missing 1 required positional argument: 'product_b'").

(** [create_default_engine] *)
Definition create_default_engine : Engine BlockContent :=
  let engine := new_engine in
  let engine :=
    register_block engine "benefit_block"
      (fun p => let* c := BenefitBlock.generate_benefit_block p true in
                Ok (BenefitBlockContent c)) in
  let engine :=
    register_block engine "ingredient_block"
      (fun p => let* c := IngredientBlock.generate_ingredient_block p true in
                Ok (IngredientBlockContent c)) in
  let engine :=
    register_block engine "usage_block"
      (fun p => Ok (UsageBlockContent (UsageBlock.generate_usage_block p))) in
  let engine :=
    register_block engine "safety_block"
      (fun p => Ok (SafetyBlockContent (SafetyBlock.generate_safety_block p))) in
  let engine :=
    register_block engine "price_block"
      (fun p => let* c := PriceBlock.generate_price_block_default p in
                Ok (PriceBlockContent c)) in
  register_block engine "comparison_block" comparison_block_on_one_product.

End WithEnvironment.

(** The format rules of a section, each value written as the interpreter
    prints it; the engine never reads them. *)
Definition rules (l : list (string * string)) : gmap string string := list_to_map l.

(** [get_product_template] *)
Definition get_product_template : TemplateModel :=
  {| template_type := "product";
     sections :=
       [ {| section_name := "hero";
            required_blocks := [];
            optional_blocks := [];
            llm_enhance := true;
            format_rules :=
              rules [("headline_length", "5-8 words");
                     ("tagline_length", "10-15 words");
                     ("style", "Aspirational but honest")] |};
         {| section_name := "benefits";
            required_blocks := ["benefit_block"];
            optional_blocks := [];
            llm_enhance := false;
            format_rules :=
              rules [("max_benefits", "6");
                     ("description_length", "15-25 words per benefit")] |};
         {| section_name := "ingredients";
            required_blocks := ["ingredient_block"];
            optional_blocks := [];
            llm_enhance := false;
            format_rules :=
              rules [("include_functions", "True"); ("include_benefits", "True")] |};
         {| section_name := "usage";
            required_blocks := ["usage_block"];
            optional_blocks := [];
            llm_enhance := false;
            format_rules :=
              rules [("include_steps", "True"); ("include_tips", "True");
                     ("include_frequency", "True")] |};
         {| section_name := "safety";
            required_blocks := ["safety_block"];
            optional_blocks := [];
            llm_enhance := false;
            format_rules :=
              rules [("include_side_effects", "True"); ("include_precautions", "True");
                     ("include_who_should_avoid", "True")] |};
         {| section_name := "pricing";
            required_blocks := ["price_block"];
            optional_blocks := [];
            llm_enhance := false;
            format_rules :=
              rules [("include_cost_per_use", "True");
                     ("include_value_proposition", "True")] |} ] |}.

(** [get_comparison_template] *)
Definition get_comparison_template : TemplateModel :=
  {| template_type := "comparison";
     sections :=
       [ {| section_name := "overview";
            required_blocks := [];
            optional_blocks := [];
            llm_enhance := false;
            format_rules :=
              rules [("include_product_a_summary", "True");
                     ("include_product_b_summary", "True")] |};
         {| section_name := "matrix";
            required_blocks := ["comparison_block"];
            optional_blocks := [];
            llm_enhance := false;
            format_rules :=
              rules [("dimensions",
                      "['Price', 'Concentration', 'Skin Type Coverage', 'Ingredients', 'Benefits', 'Safety']")] |};
         {| section_name := "detailed_comparison";
            required_blocks := [];
            optional_blocks := [];
            llm_enhance := true;
            format_rules :=
              rules [("sections",
                      "['Price Analysis', 'Formula Comparison', 'Efficacy Comparison', 'Safety Comparison']")] |};
         {| section_name := "recommendation";
            required_blocks := [];
            optional_blocks := [];
            llm_enhance := true;
            format_rules :=
              rules [("length", "3-5 sentences");
                     ("structure",
                      "['Who should choose Product A', 'Who should choose Product B', 'Overall recommendation']")] |} ] |}.

End DefaultEngine.

(* ===================================================================== *)
(** * [get_state_summary] and [validate_workflow_output]                  *)
(* ===================================================================== *)

Module Execution.
Import Product Question State.

(** [get_state_summary] *)
Record StateSummary : Type := {
  has_product : bool;
  has_questions : bool;
  has_faq : bool;
  has_product_page : bool;
  has_comparison : bool;
  error_count : Z;
  log_entries : Z
}.

(** The report of [validate_workflow_output]. *)
Record Validation : Type := {
  all_required_outputs_present : bool;
  missing_outputs : list string;
  validation_errors : list string;
  state_summary : StateSummary
}.

Section WithPages.
Variable ProductPageModel : Type.

(** [key in state] *)
Definition has_key (state : SystemState ProductPageModel) (key : string) : bool :=
  if String.eqb key "raw_data" then bool_decide (is_Some (raw_data state))
  else if String.eqb key "product" then bool_decide (is_Some (product state))
  else if String.eqb key "questions" then bool_decide (is_Some (questions state))
  else if String.eqb key "faq_page" then bool_decide (is_Some (faq_page state))
  else if String.eqb key "product_page" then bool_decide (is_Some (product_page state))
  else if String.eqb key "comparison_page" then
    bool_decide (is_Some (comparison_page state))
  else if String.eqb key "errors" then bool_decide (is_Some (errors state))
  else if String.eqb key "execution_log" then
    bool_decide (is_Some (execution_log state))
  else false.

(** [get_state_summary] *)
Definition get_state_summary (state : SystemState ProductPageModel) : StateSummary :=
  {| has_product := has_key state "product";
     has_questions := has_key state "questions";
     has_faq := has_key state "faq_page";
     has_product_page := has_key state "product_page";
     has_comparison := has_key state "comparison_page";
     error_count := Z.of_nat (length (get_list (errors state)));
     log_entries := Z.of_nat (length (get_list (execution_log state))) |}.

Definition required_outputs : list string :=
  ["product"; "questions"; "faq_page"; "product_page"; "comparison_page"].

(** [validate_workflow_output] *)
Definition validate_workflow_output (state : SystemState ProductPageModel) : Validation :=
  let validation :=
    {| all_required_outputs_present := true;
       missing_outputs := [];
       validation_errors := get_list (errors state);
       state_summary := get_state_summary state |} in
  fold_left
    (fun validation output =>
       if negb (has_key state output) then
         {| all_required_outputs_present := false;
            missing_outputs := append (missing_outputs validation) output;
            validation_errors := validation_errors validation;
            state_summary := state_summary validation |}
       else validation)
    required_outputs validation.

End WithPages.

Arguments has_key {ProductPageModel} _ _.
Arguments get_state_summary {ProductPageModel} _.
Arguments validate_workflow_output {ProductPageModel} _.

End Execution.

(* ===================================================================== *)
(** * Further vocabulary of the statements                                *)
(* ===================================================================== *)

Module Vocabulary.
Import Product.

(** The number of distinct strings of a list. *)
Definition distinct (l : list string) : nat := length (nodup string_dec l).

(** The winner tag seen from the other side. *)
Definition flip_tag (w : string) : string :=
  if String.eqb w "product_a" then "product_b"
  else if String.eqb w "product_b" then "product_a"
  else w.

(** [l'] is [l] with entries added at its end. *)
Definition extends {A : Type} (l l' : list A) : Prop := exists t, l' = (l ++ t)%list.

(** The keyword arguments that hold the fields of a product. *)
Definition raw_of (p : ProductModel) : RawProduct :=
  {| raw_name := Some (name p);
     raw_concentration := Some (concentration p);
     raw_skin_types := Some (skin_types p);
     raw_ingredients := Some (ingredients p);
     raw_benefits := Some (benefits p);
     raw_usage := Some (usage p);
     raw_side_effects := Some (side_effects p);
     raw_price := Some (price p) |}.

(** A text argument is acceptable when it is present and more than
    whitespace; a list argument when it is present and not empty; the price
    when it is present and above zero. *)
Definition good_text (v : option string) : bool :=
  match v with
  | Some s => negb (is_empty (strip s))
  | None => false
  end.

Definition good_list (v : option (list string)) : bool :=
  match v with
  | Some (_ :: _) => true
  | _ => false
  end.

Definition good_price (v : option float) : bool :=
  match v with
  | Some x => fgt x (lit 0)
  | None => false
  end.

Definition unless (ok : bool) (fname : string) : list string :=
  if ok then [] else [fname].

(** The names of the arguments that are not acceptable, in the order of
    the fields of the model. *)
Definition bad_fields (raw : RawProduct) : list string :=
  (unless (good_text (raw_name raw)) "name" ++
   unless (good_text (raw_concentration raw)) "concentration" ++
   unless (good_list (raw_skin_types raw)) "skin_types" ++
   unless (good_list (raw_ingredients raw)) "ingredients" ++
   unless (good_list (raw_benefits raw)) "benefits" ++
   unless (good_text (raw_usage raw)) "usage" ++
   unless (good_text (raw_side_effects raw)) "side_effects" ++
   unless (good_price (raw_price raw)) "price")%list.

(** The rank of a positioning tier. *)
Definition tier_rank (tier : string) : nat :=
  if String.eqb tier "Budget-Friendly" then 0
  else if String.eqb tier "Mid-Range" then 1
  else if String.eqb tier "Premium" then 2
  else 3.

(** The character [c] occurs in the text [s]. *)
Definition has_char (c : ascii) (s : string) : Prop :=
  exists pre post, s = pre ++ String c post.

(** [ingredient.lower() in INGREDIENT_KNOWLEDGE] *)
Definition known (ingredient : string) : bool :=
  bool_decide (is_Some (IngredientBlock.INGREDIENT_KNOWLEDGE !! lower ingredient)).

(** The entries of the ingredients found in the knowledge base. *)
Definition known_details (l : list string) : list IngredientBlock.IngredientDetail :=
  omap (fun ingredient =>
          match IngredientBlock.INGREDIENT_KNOWLEDGE !! lower ingredient with
          | Some info => Some (IngredientBlock.known_detail ingredient info)
          | None => None
          end) l.

(** The number of the five outputs of the workflow that a state
    holds. *)
Definition present {A : Type} (v : option A) : nat :=
  match v with Some _ => 1 | None => 0 end.

Definition outputs_present {P : Type} (s : State.SystemState P) : nat :=
  present (State.product s) + present (State.questions s) +
  present (State.faq_page s) + present (State.product_page s) +
  present (State.comparison_page s).

(** The categories of a list of questions, each once, in the order of
    their first occurrence. *)
Fixpoint categories_in_order (l : list Question.QuestionModel)
  : list Question.Category :=
  match l with
  | [] => []
  | q :: rest =>
      Question.category q ::
      List.filter (fun c => negb (FaqGenerator.Category_eqb c (Question.category q)))
                  (categories_in_order rest)
  end.

(** The questions of a category, in the order of the list. *)
Definition of_category (c : Question.Category) (l : list Question.QuestionModel)
  : list Question.QuestionModel :=
  List.filter (fun q => FaqGenerator.Category_eqb (Question.category q) c) l.

(** The questions grouped under a category in the dictionary
    [by_category]. *)
Definition group (c : Question.Category) (G : FaqGenerator.Groups)
  : list Question.QuestionModel :=
  match List.find (fun cg => FaqGenerator.Category_eqb (fst cg) c) G with
  | Some cg => snd cg
  | None => []
  end.

End Vocabulary.

(* ===================================================================== *)
(** * Further example inputs                                              *)
(* ===================================================================== *)

Module MoreExamples.
Import Product.

Definition usage_question (text : string) : Question.QuestionModel :=
  {| Question.category := Question.cat_usage; Question.question := text |}.

(** Eleven questions: ten about usage and one about safety. *)
Definition eleven_questions : list Question.QuestionModel :=
  [ usage_question "How many drops should I apply?";
    usage_question "Can I use it every day?";
    usage_question "Should I apply it before moisturizer?";
    usage_question "Can I use it at night?";
    usage_question "How long until I see results?";
    {| Question.category := Question.cat_safety;
       Question.question := "Is it safe for sensitive skin?" |};
    usage_question "Do I need sunscreen afterwards?";
    usage_question "Can I layer it with retinol?";
    usage_question "Should I shake the bottle first?";
    usage_question "How should I store it?";
    usage_question "Can I apply it around the eyes?" ].

(** A JSON parser for the examples, none of which has a reply with
    braces, so that it is never reached. *)
Definition plain_json : JsonLib :=
  {| json_loads := fun _ => Raise (ValueError "Expecting value") |}.

(** An LLM that answers the prompts of the content blocks in prose. *)
Definition prose_llm : BlockLLM :=
  {| llm_benefits := fun _ => Ok "It brightens the skin and fades dark spots.";
     llm_ingredients := fun _ _ => Ok "These are common cosmetic ingredients.";
     llm_hero := fun _ => Ok "Glow every morning." |}.

(** An LLM whose every call for a content block fails. *)
Definition failing_block_llm : BlockLLM :=
  {| llm_benefits := fun _ => Raise (Exception "rate limit");
     llm_ingredients := fun _ _ => Raise (Exception "rate limit");
     llm_hero := fun _ => Raise (Exception "rate limit") |}.

(** A product with an ingredient that the knowledge base does not
    have, listed first. *)
Definition bakuchiol_serum : ProductModel :=
  {| name := "Night Renewal Serum";
     concentration := "1% Bakuchiol";
     skin_types := ["Dry"; "Sensitive"];
     ingredients := ["Bakuchiol"; "Retinol"; "Squalane"; "Niacinamide"];
     benefits := ["Smoothing"; "Firming"];
     usage := "Apply once at night";
     side_effects := "Moderate dryness for sensitive skin";
     price := lit 1299 |}.

End MoreExamples.
(* ===================================================================== *)
(** * Facts about the prelude                                             *)
(* ===================================================================== *)

Module FloatFacts.

Import Spec.

Lemma lit_0 : lit 0 = S754_zero false.
Proof. reflexivity. Qed.

Lemma round_aux_opp (s : bool) (m e : Z) (l : location) :
  binary_round_aux prec emax (negb s) m e l = SFopp (binary_round_aux prec emax s m e l).
Proof.
  unfold binary_round_aux.
  destruct (shr_fexp prec emax m e l) as [mrs' e'].
  destruct (shr_fexp prec emax _ e' loc_Exact) as [mrs'' e''].
  destruct (shr_m mrs''); try reflexivity.
  destruct (e'' <=? emax - prec); reflexivity.
Qed.

Lemma round_opp (s : bool) (m : positive) (e : Z) :
  binary_round prec emax (negb s) m e = SFopp (binary_round prec emax s m e).
Proof.
  unfold binary_round.
  destruct (shl_align m e _) as [mz ez]. apply round_aux_opp.
Qed.

Lemma normalize_opp (m e : Z) :
  mirror (binary_normalize prec emax m e false) (binary_normalize prec emax (- m) e false).
Proof.
  destruct m as [|p|p]; simpl.
  - right. split; reflexivity.
  - left. apply (round_opp false).
  - left. change (binary_round prec emax false p e)
      with (binary_round prec emax (negb true) p e).
    rewrite round_opp. destruct (binary_round prec emax true p e) as [[]|[]| |[] ? ?]; reflexivity.
Qed.

(** Swapping the operands of a subtraction mirrors the result (the sign
    of an exact zero apart). *)
Lemma fsub_swap (x y : float) : mirror (fsub x y) (fsub y x).
Proof.
  unfold fsub.
  destruct x as [sx|sx| |sx mx ex], y as [sy|sy| |sy my ey];
    try (left; reflexivity);
    try (destruct sx, sy; simpl; (left; reflexivity) || (right; split; reflexivity)).
  cbn [SFsub]. rewrite (Z.min_comm ey ex).
  set (a := cond_Zopp sx _). set (b := cond_Zopp sy _).
  replace (b - a) with (- (a - b)) by lia.
  apply normalize_opp.
Qed.

Lemma fabs_mirror (d d' : float) : mirror d d' -> fabs d' = fabs d.
Proof.
  intros [-> | [Hz Hz']].
  - destruct d; reflexivity.
  - destruct d, d'; try discriminate; reflexivity.
Qed.

Lemma int_of_float_mirror (d d' : float) :
  mirror d d' ->
  match int_of_float d, int_of_float d' with
  | Ok n, Ok n' => n' = - n
  | Raise _, Raise _ => True
  | _, _ => False
  end.
Proof.
  intros [-> | [Hz Hz']].
  - destruct d as [s|s| |s m e]; simpl; try exact I; try reflexivity.
    destruct s; simpl; lia.
  - destruct d, d'; try discriminate; reflexivity.
Qed.

(** A float that is below a float, in absolute value or not, is neither
    an infinity of the positive side nor a NaN. *)
Lemma flt_lit_0_finite (s : bool) (m : positive) (e : Z) :
  flt (S754_finite s m e) (lit 0) = s.
Proof. destruct s; reflexivity. Qed.

Lemma flt_abs_zero_100 (d : float) : is_zero d = true -> flt (fabs d) (lit 100) = true.
Proof. destruct d; try discriminate; reflexivity. Qed.

Lemma fgt_0_not_zero (x : float) : fgt x (lit 0) = true -> is_zero x = false.
Proof. destruct x as [s|s| |s m e]; try reflexivity. destruct s; discriminate. Qed.

Lemma fgt_0_sign (x : float) : fgt x (lit 0) = true -> sign_is false x /\ is_zero x = false.
Proof.
  destruct x as [s|s| |s m e]; try (destruct s); try discriminate; split; reflexivity.
Qed.

Lemma round_aux_sign (s : bool) (m e : Z) (l : location) :
  binary_round_aux prec emax s m e l = S754_nan \/
  sign_is s (binary_round_aux prec emax s m e l).
Proof.
  unfold binary_round_aux.
  destruct (shr_fexp prec emax m e l) as [mrs' e'].
  destruct (shr_fexp prec emax _ e' loc_Exact) as [mrs'' e''].
  destruct (shr_m mrs''); [right; reflexivity | | left; reflexivity].
  destruct (e'' <=? emax - prec); right; reflexivity.
Qed.

(** The quotient and the product of two floats of positive sign are a
    NaN or of positive sign. *)
Lemma SFdiv_sign (x y : float) :
  sign_is false x -> sign_is false y ->
  SFdiv prec emax x y = S754_nan \/ sign_is false (SFdiv prec emax x y).
Proof.
  destruct x as [sx|sx| |sx mx ex], y as [sy|sy| |sy my ey]; simpl;
    intros Hx Hy; try contradiction; subst;
    try (left; reflexivity); try (right; reflexivity).
  destruct (SFdiv_core_binary prec emax (Z.pos mx) ex (Z.pos my) ey) as [[mz ez] lz].
  apply (round_aux_sign false).
Qed.

Lemma SFmul_sign (x y : float) :
  sign_is false x -> sign_is false y ->
  fmul x y = S754_nan \/ sign_is false (fmul x y).
Proof.
  unfold fmul.
  destruct x as [sx|sx| |sx mx ex], y as [sy|sy| |sy my ey]; simpl;
    intros Hx Hy; try contradiction; subst;
    try (left; reflexivity); try (right; reflexivity).
  apply (round_aux_sign false).
Qed.

(** Below a finite float and of positive sign: [int] does not raise. *)
Lemma int_of_float_below (x c : float) :
  sign_is false x -> flt x c = true -> exists n, int_of_float x = Ok n.
Proof.
  destruct x as [s|s| |s m e]; simpl; intros Hs Hlt; try contradiction; subst.
  - eexists; reflexivity.
  - destruct c as [|[]| |]; discriminate.
  - eexists; reflexivity.
Qed.

(** The order of floats against the three price thresholds. *)
Lemma not_flt_fle (x c : float) :
  x <> S754_nan -> c <> S754_nan -> (flt x c = false <-> fle c x = true).
Proof.
  unfold flt, fle, SFltb, SFleb.
  destruct x as [sx|sx| |sx mx ex], c as [sc|sc| |sc mc ec]; simpl;
    intros Hx Hc; try congruence;
    try (destruct sx); try (destruct sc); simpl; try (split; congruence).
  - rewrite (Z.compare_antisym ex ec).
    destruct (ex ?= ec) eqn:E; simpl; try (split; congruence).
    change (Pos.compare_cont Eq) with Pos.compare.
    rewrite (Pos.compare_antisym mx mc).
    destruct (mx ?= mc)%positive; simpl; split; congruence.
  - rewrite (Z.compare_antisym ex ec).
    destruct (ex ?= ec) eqn:E; simpl; try (split; congruence).
    change (Pos.compare_cont Eq) with Pos.compare.
    rewrite (Pos.compare_antisym mx mc).
    destruct (mx ?= mc)%positive; simpl; split; congruence.
Qed.

End FloatFacts.

Module StringFacts.
Import Spec.

Lemma append_cons (c : ascii) (s u : string) : String c s ++ u = String c (s ++ u).
Proof. reflexivity. Qed.

Lemma append_nil (u : string) : EmptyString ++ u = u.
Proof. reflexivity. Qed.

Lemma prefix_occurs (n s : string) :
  String.prefix n s = true <-> exists post, s = n ++ post.
Proof.
  revert s. induction n as [|c n IH]; intros s.
  - destruct s; simpl; (split; [intros _; eexists; reflexivity | reflexivity]).
  - destruct s as [|c' s]; simpl.
    + split; [discriminate | intros [post H]; discriminate].
    + destruct (Ascii.ascii_dec c c') as [->|Hne].
      * rewrite IH. split; intros [post Hp]; exists post.
        -- now rewrite Hp.
        -- now injection Hp.
      * split; [discriminate | intros [post Hp]; injection Hp; congruence].
Qed.

(** [contains] decides the occurrence of the needle. *)
Lemma contains_occurs (n s : string) : contains n s = true <-> occurs n s.
Proof.
  unfold occurs. induction s as [|c s IH]; cbn [contains].
  - rewrite orb_false_r, prefix_occurs. split.
    + intros [post Hp]. exists EmptyString, post. exact Hp.
    + intros [pre [post Hp]]. destruct pre; [exists post; exact Hp | discriminate].
  - rewrite orb_true_iff, IH, prefix_occurs. split.
    + intros [[post Hp] | [pre [post Hp]]].
      * exists EmptyString, post. exact Hp.
      * exists (String c pre), post. simpl. now rewrite Hp.
    + intros [pre [post Hp]]. destruct pre as [|c' pre]; simpl in Hp.
      * left. exists post. exact Hp.
      * right. exists pre, post. now injection Hp.
Qed.

Lemma lower_app (a b : string) : lower (a ++ b) = lower a ++ lower b.
Proof. induction a as [|c a IH]; simpl; [reflexivity | now rewrite IH]. Qed.

Lemma lower_app_inv (s a b : string) :
  lower s = a ++ b -> exists s1 s2, s = s1 ++ s2 /\ lower s1 = a /\ lower s2 = b.
Proof.
  revert s. induction a as [|c a IH]; intros s Hs; simpl in Hs.
  - exists EmptyString, s. repeat split; assumption.
  - destruct s as [|c' s]; [discriminate|]. simpl in Hs.
    injection Hs as Hc Hrest.
    destruct (IH s Hrest) as [s1 [s2 [-> [H1 H2]]]].
    exists (String c' s1), s2. simpl. rewrite H1, Hc. repeat split. exact H2.
Qed.

(** Searching the lower-cased text finds the occurrences in any case. *)
Lemma contains_lower_mentions (word s : string) :
  contains word (lower s) = true <-> mentions word s.
Proof.
  rewrite contains_occurs. unfold occurs, mentions. split.
  - intros [pre [post Hs]].
    destruct (lower_app_inv _ _ _ Hs) as [s1 [s2 [-> [_ H2]]]].
    destruct (lower_app_inv _ _ _ H2) as [w [s3 [-> [Hw _]]]].
    exists s1, w, s3. split; [reflexivity | exact Hw].
  - intros [pre [w [post [-> Hw]]]].
    exists (lower pre), (lower post). now rewrite !lower_app, Hw.
Qed.

(** *** [strip] *)

Lemma lstrip_length (s : string) : (String.length (lstrip s) <= String.length s)%nat.
Proof.
  remember (String.length s) as n eqn:Hn.
  assert (Hle : (String.length s <= n)%nat) by lia. clear Hn.
  revert s Hle. induction n as [|n IH]; intros s Hle.
  - destruct s; simpl in *; lia.
  - destruct s as [|c1 [|c2 [|c3 s3]]]; simpl in *; try lia.
    + destruct (is_space1 c1); simpl; lia.
    + destruct (is_space1 c1).
      * specialize (IH (String c2 EmptyString)). simpl in IH. 
        destruct (is_space1 c2); simpl in *; lia.
      * destruct (is_space2 c1 c2); simpl; lia.
    + destruct (is_space1 c1).
      * specialize (IH (String c2 (String c3 s3))). simpl in IH. lia.
      * destruct (is_space2 c1 c2).
        -- specialize (IH (String c3 s3)). simpl in IH. lia.
        -- destruct (is_space3 c1 c2 c3).
           ++ specialize (IH s3). lia.
           ++ simpl. lia.
Qed.

Lemma no_leading_space_lstrip (s : string) :
  no_leading_space s = true -> lstrip s = s.
Proof.
  destruct s as [|c1 [|c2 [|c3 s3]]]; simpl; try reflexivity.
  - destruct (is_space1 c1); [discriminate | reflexivity].
  - destruct (is_space1 c1); [discriminate|].
    destruct (is_space2 c1 c2); [discriminate | reflexivity].
  - destruct (is_space1 c1); [discriminate|].
    destruct (is_space2 c1 c2); [discriminate|].
    destruct (is_space3 c1 c2 c3); [discriminate | reflexivity].
Qed.

Lemma lstrip_no_leading_space (s : string) : no_leading_space (lstrip s) = true.
Proof.
  remember (String.length s) as n eqn:Hn.
  assert (Hle : (String.length s <= n)%nat) by lia. clear Hn.
  revert s Hle. induction n as [|n IH]; intros s Hle.
  - destruct s; simpl in *; [reflexivity | lia].
  - destruct s as [|c1 [|c2 [|c3 s3]]]; try reflexivity.
    + simpl. destruct (is_space1 c1) eqn:E1; simpl; [reflexivity | now rewrite E1].
    + cbn [lstrip]. destruct (is_space1 c1) eqn:E1.
      * apply (IH (String c2 EmptyString)). simpl in *. lia.
      * destruct (is_space2 c1 c2) eqn:E2; [reflexivity|].
        simpl. now rewrite E1, E2.
    + cbn [lstrip]. destruct (is_space1 c1) eqn:E1.
      * apply (IH (String c2 (String c3 s3))). simpl in *. lia.
      * destruct (is_space2 c1 c2) eqn:E2.
        -- apply (IH (String c3 s3)). simpl in *. lia.
        -- destruct (is_space3 c1 c2 c3) eqn:E3.
           ++ apply (IH s3). simpl in *. lia.
           ++ simpl. now rewrite E1, E2, E3.
Qed.

Lemma rstrip_prefix (s : string) : exists u, s = rstrip s ++ u.
Proof.
  induction s as [|c s [u Hu]]; cbn [rstrip].
  - exists EmptyString. reflexivity.
  - cbv zeta. destruct (is_space_char (String c (rstrip s))).
    + exists (String c s). reflexivity.
    + exists u. rewrite append_cons. now rewrite <- Hu.
Qed.

Lemma no_leading_space_prefix (p u : string) :
  no_leading_space (p ++ u) = true -> no_leading_space p = true.
Proof.
  destruct p as [|c1 [|c2 [|c3 p3]]]; simpl; try reflexivity.
  - destruct u as [|c2 [|c3 u3]]; simpl; rewrite ?andb_true_r;
      try (intros H; exact H); intros H; apply andb_true_iff in H; tauto.
  - destruct u as [|c3 u3]; simpl; rewrite ?andb_true_r; try (intros H; exact H).
    intros H. apply andb_true_iff in H. destruct H as [H1 H2].
    apply andb_true_iff in H2. rewrite H1. simpl. tauto.
  - intros H; exact H.
Qed.

Lemma rstrip_idempotent (s : string) : rstrip (rstrip s) = rstrip s.
Proof.
  induction s as [|c s IH]; cbn [rstrip]; [reflexivity|].
  cbv zeta. destruct (is_space_char (String c (rstrip s))) eqn:E; [reflexivity|].
  cbn [rstrip]. cbv zeta. rewrite IH, E. reflexivity.
Qed.

(** Stripping a stripped text changes nothing. *)
Lemma strip_idempotent (s : string) : strip (strip s) = strip s.
Proof.
  unfold strip.
  assert (Hfix : lstrip (rstrip (lstrip s)) = rstrip (lstrip s)).
  { apply no_leading_space_lstrip.
    destruct (rstrip_prefix (lstrip s)) as [u Hu].
    apply (no_leading_space_prefix _ u). rewrite <- Hu.
    apply lstrip_no_leading_space. }
  rewrite Hfix. apply rstrip_idempotent.
Qed.

Lemma is_empty_false (s : string) : is_empty s = false <-> s <> EmptyString.
Proof. destruct s; simpl; split; congruence. Qed.

Lemma len_app (a b : string) : len (a ++ b) = (len a + len b)%nat.
Proof.
  induction a as [|c a IH]; simpl; [reflexivity|].
  destruct (is_continuation c); rewrite IH; reflexivity.
Qed.

End StringFacts.

(* ===================================================================== *)
(** * Construction of a product record                                    *)
(* ===================================================================== *)

Module ProductFacts.
Import Product Spec StringFacts.

Lemma validate_non_empty_string_ok (v w : string) :
  validate_non_empty_string v = Ok w -> w = strip v /\ w <> EmptyString /\ strip w = w.
Proof.
  unfold validate_non_empty_string.
  destruct (is_empty v || is_empty (strip v)) eqn:E; [discriminate|].
  intros [= <-]. apply orb_false_iff in E. destruct E as [_ E].
  repeat split.
  - now apply is_empty_false.
  - apply strip_idempotent.
Qed.

Lemma validate_non_empty_list_ok (v w : list string) :
  validate_non_empty_list v = Ok w -> w = v /\ w <> [].
Proof. destruct v; [discriminate|]. intros [= <-]. split; [reflexivity | discriminate]. Qed.

Lemma validate_gt_0_ok (v w : float) :
  validate_gt_0 v = Ok w -> w = v /\ fgt w (lit 0) = true.
Proof.
  unfold validate_gt_0. destruct (fgt v (lit 0)) eqn:E; [|discriminate].
  intros [= <-]. split; [reflexivity | exact E].
Qed.

Lemma field_ok {A : Type} (raw : option A) (validator : A -> Result A) (w : A) :
  field raw validator = Ok w -> exists v, raw = Some v /\ validator v = Ok w.
Proof. destruct raw as [v|]; [|discriminate]. intros Hv. exists v. split; [reflexivity | exact Hv]. Qed.

(** An accepted input: every validator returned the field it stored. *)
Lemma ProductModel_new_ok (raw : RawProduct) (p : ProductModel) :
  ProductModel_new raw = Ok p ->
  field (raw_name raw) validate_non_empty_string = Ok (name p) /\
  field (raw_concentration raw) validate_non_empty_string = Ok (concentration p) /\
  field (raw_skin_types raw) validate_non_empty_list = Ok (skin_types p) /\
  field (raw_ingredients raw) validate_non_empty_list = Ok (ingredients p) /\
  field (raw_benefits raw) validate_non_empty_list = Ok (benefits p) /\
  field (raw_usage raw) validate_non_empty_string = Ok (usage p) /\
  field (raw_side_effects raw) validate_non_empty_string = Ok (side_effects p) /\
  field (raw_price raw) validate_gt_0 = Ok (price p).
Proof.
  unfold ProductModel_new.
  destruct (field (raw_name raw) _); [|discriminate].
  destruct (field (raw_concentration raw) _); [|discriminate].
  destruct (field (raw_skin_types raw) _); [|discriminate].
  destruct (field (raw_ingredients raw) _); [|discriminate].
  destruct (field (raw_benefits raw) _); [|discriminate].
  destruct (field (raw_usage raw) _); [|discriminate].
  destruct (field (raw_side_effects raw) _); [|discriminate].
  destruct (field (raw_price raw) _); [|discriminate].
  intros [= <-]. simpl. repeat split; reflexivity.
Qed.

(** A rejected field is named in the error. *)
Lemma ProductModel_new_rejects (raw : RawProduct) :
  (exists e, field (raw_skin_types raw) validate_non_empty_list = Raise e) \/
  (exists e, field (raw_ingredients raw) validate_non_empty_list = Raise e) \/
  (exists e, field (raw_benefits raw) validate_non_empty_list = Raise e) ->
  exists fields, ProductModel_new raw = Raise (ValidationError fields) /\ fields <> [].
Proof.
  intros Hbad. unfold ProductModel_new.
  destruct (field (raw_name raw) _) as [?|?];
  destruct (field (raw_concentration raw) _) as [?|?];
  destruct (field (raw_skin_types raw) _) as [?|?];
  destruct (field (raw_ingredients raw) _) as [?|?];
  destruct (field (raw_benefits raw) _) as [?|?];
  destruct (field (raw_usage raw) _) as [?|?];
  destruct (field (raw_side_effects raw) _) as [?|?];
  destruct (field (raw_price raw) _) as [?|?];
  try (eexists; split; [reflexivity | discriminate]);
  exfalso; destruct Hbad as [[e He] | [[e He] | [e He]]]; discriminate.
Qed.

(** C9.  A product whose skin-type, ingredient or benefit list is empty
    is never constructed: construction raises a validation error that names
    at least one field.  A product that is constructed has its four text
    fields equal to the stripped input text, non-empty and free of
    surrounding whitespace, its three lists non-empty, and a price above
    zero. *)
Theorem product_construction_validates (raw : RawProduct) :
  ((raw_skin_types raw = Some [] \/ raw_ingredients raw = Some [] \/
    raw_benefits raw = Some []) ->
   exists fields,
     ProductModel_new raw = Raise (ValidationError fields) /\ fields <> []) /\
  (forall p, ProductModel_new raw = Ok p ->
     validated p /\
     Some (name p) = option_map strip (raw_name raw) /\
     Some (concentration p) = option_map strip (raw_concentration raw) /\
     Some (usage p) = option_map strip (raw_usage raw) /\
     Some (side_effects p) = option_map strip (raw_side_effects raw) /\
     Some (skin_types p) = raw_skin_types raw /\
     Some (ingredients p) = raw_ingredients raw /\
     Some (benefits p) = raw_benefits raw /\
     Some (price p) = raw_price raw).
Proof.
  split.
  - intros Hempty. apply ProductModel_new_rejects.
    destruct Hempty as [E | [E | E]]; rewrite E;
      [left | right; left | right; right]; eexists; reflexivity.
  - intros p Hok.
    destruct (ProductModel_new_ok raw p Hok)
      as (Hn & Hc & Hst & Hi & Hb & Hu & Hse & Hp).
    apply field_ok in Hn, Hc, Hst, Hi, Hb, Hu, Hse, Hp.
    destruct Hn as (vn & En & Hn), Hc as (vc & Ec & Hc), Hst as (vst & Est & Hst),
             Hi as (vi & Ei & Hi), Hb as (vb & Eb & Hb), Hu as (vu & Eu & Hu),
             Hse as (vse & Ese & Hse), Hp as (vp & Ep & Hp).
    apply validate_non_empty_string_ok in Hn, Hc, Hu, Hse.
    apply validate_non_empty_list_ok in Hst, Hi, Hb.
    apply validate_gt_0_ok in Hp.
    rewrite En, Ec, Est, Ei, Eb, Eu, Ese, Ep. simpl.
    split; [constructor; tauto|].
    destruct Hn as [-> _], Hc as [-> _], Hu as [-> _], Hse as [-> _],
             Hst as [-> _], Hi as [-> _], Hb as [-> _], Hp as [-> _].
    repeat split; reflexivity.
Qed.

Lemma product_construction_validates_witness :
  (Examples.no_skin_type_raw.(raw_skin_types) = Some [] /\
   exists fields,
     ProductModel_new Examples.no_skin_type_raw = Raise (ValidationError fields) /\
     fields <> []) /\
  (ProductModel_new Examples.glowboost_raw = Ok Examples.glowboost /\
   validated Examples.glowboost).
Proof.
  split.
  - split; [reflexivity|].
    apply (proj1 (product_construction_validates Examples.no_skin_type_raw)).
    left. reflexivity.
  - split; [reflexivity|].
    apply (proj2 (product_construction_validates Examples.glowboost_raw)
             Examples.glowboost).
    reflexivity.
Defined.

End ProductFacts.

(* ===================================================================== *)
(** * The comparison scorer                                               *)
(* ===================================================================== *)

Module ComparisonFacts.
Import Product ComparisonBlock Spec FloatFacts StringFacts.

Section WithBuiltins.
Context `{Builtins}.

(** The percentage is always computed: the division is guarded. *)
Lemma price_diff_percent_ok (a b : ProductModel) :
  exists pct, price_diff_percent a b = Ok pct.
Proof.
  unfold price_diff_percent.
  destruct (fgt (price b) (lit 0)) eqn:E; [|eexists; reflexivity].
  unfold fdiv. rewrite (fgt_0_not_zero _ E). eexists; reflexivity.
Qed.

(** [_compare_price] raises exactly when [int] of the difference does;
    otherwise its row is the following one. *)
Lemma compare_price_unfold (a b : ProductModel) :
  exists pct,
    price_diff_percent a b = Ok pct /\
    _compare_price a b =
    match int_of_float (price_diff a b) with
    | Raise e => Raise e
    | Ok n =>
        Ok {| dimension := "Price";
              product_a := rupee ++ str_of_float (price a);
              product_b := rupee ++ str_of_float (price b);
              difference :=
                Some (rupee ++ str_of_int (Z.abs n) ++
                      " (" ++ format_f true 0 pct ++ "%)");
              common_ingredients := None;
              winner := price_winner (price_diff a b);
              verdict := price_verdict (price_diff a b) n |}
    end.
Proof.
  destruct (price_diff_percent_ok a b) as [pct Hpct].
  exists pct. split; [exact Hpct|].
  unfold _compare_price, price_winner, price_verdict. rewrite Hpct.
  cbn [bind].
  destruct (flt (fabs (price_diff a b)) (lit 100));
    [|destruct (flt (price_diff a b) (lit 0))];
    destruct (int_of_float (price_diff a b)) as [n|e]; reflexivity.
Qed.

(** [_compare_price] returns exactly when the difference of the prices
    is a finite number. *)
Lemma compare_price_returns (a b : ProductModel) :
  (exists r, _compare_price a b = Ok r) <->
  (exists n, int_of_float (price_diff a b) = Ok n).
Proof.
  destruct (compare_price_unfold a b) as [pct [_ ->]].
  destruct (int_of_float (price_diff a b)) as [n|e]; split.
  - intros _. exists n. reflexivity.
  - intros _. eexists. reflexivity.
  - intros [r Hr]. discriminate Hr.
  - intros [n Hn]. discriminate Hn.
Qed.

Lemma price_winner_tag (d : float) : In (price_winner d) ["tie"; "product_a"; "product_b"].
Proof.
  unfold price_winner.
  destruct (flt (fabs d) (lit 100)); [left; reflexivity|].
  destruct (flt d (lit 0)); [right; right; left | right; left]; reflexivity.
Qed.

(** The mirrored difference takes the mirrored branch and reports the
    same amount. *)
Lemma price_row_mirror (d d' : float) (n : Z) :
  mirror d d' -> int_of_float d = Ok n ->
  (price_winner d = "tie" /\ price_winner d' = "tie" /\
   price_verdict d n = "Similarly priced" /\
   price_verdict d' (- n) = "Similarly priced") \/
  (price_winner d = "product_a" /\ price_winner d' = "product_b" /\
   price_verdict d n = rupee ++ str_of_int (Z.abs n) ++ " more affordable" /\
   price_verdict d' (- n) = rupee ++ str_of_int (Z.abs n) ++ " cheaper") \/
  (price_winner d = "product_b" /\ price_winner d' = "product_a" /\
   price_verdict d n = rupee ++ str_of_int (Z.abs n) ++ " cheaper" /\
   price_verdict d' (- n) = rupee ++ str_of_int (Z.abs n) ++ " more affordable").
Proof.
  intros Hm Hn. unfold price_winner, price_verdict.
  rewrite (fabs_mirror _ _ Hm).
  destruct (flt (fabs d) (lit 100)) eqn:E100; [left; repeat split; reflexivity|].
  right.
  destruct Hm as [-> | [Hz _]]; [|rewrite (flt_abs_zero_100 _ Hz) in E100; discriminate].
  destruct d as [s|s| |s m e]; try discriminate.
  change (SFopp (S754_finite s m e)) with (S754_finite (negb s) m e).
  rewrite !flt_lit_0_finite.
  simpl in Hn. injection Hn as <-.
  assert (Hpos : 0 <= (if 0 <=? e then Z.pos m * 2 ^ e else Z.shiftr (Z.pos m) (- e))).
  { destruct (0 <=? e) eqn:Ee.
    - apply Z.leb_le in Ee. apply Z.mul_nonneg_nonneg; [lia|].
      apply Z.pow_nonneg. lia.
    - apply Z.shiftr_nonneg. lia. }
  set (v := if 0 <=? e then Z.pos m * 2 ^ e else Z.shiftr (Z.pos m) (- e)) in *.
  destruct s; cbn [negb cond_Zopp]; [right | left].
  - rewrite Z.abs_opp, Z.opp_involutive, (Z.abs_eq v) by lia.
    repeat split; reflexivity.
  - rewrite (Z.abs_eq v) by lia. rewrite Z.abs_opp, (Z.abs_eq v) by lia.
    repeat split; reflexivity.
Qed.

(** C3.  Swapping the two arguments of the price comparison: both calls
    raise or both return; when they return, a tie stays a tie, the winner
    tags [product_a] and [product_b] change places, and the amount reported
    in the [difference] field and in the verdict is the same number of
    rupees on both sides. *)
Theorem compare_price_swap (a b : ProductModel) :
  match _compare_price a b, _compare_price b a with
  | Ok r, Ok r' =>
      In (winner r) ["tie"; "product_a"; "product_b"] /\
      (winner r = "tie" <-> winner r' = "tie") /\
      (winner r = "product_a" <-> winner r' = "product_b") /\
      (winner r = "product_b" <-> winner r' = "product_a") /\
      exists (n : Z) (pct pct' : float),
        int_of_float (price_diff a b) = Ok n /\
        int_of_float (price_diff b a) = Ok (- n) /\
        difference r =
          Some (rupee ++ str_of_int (Z.abs n) ++ " (" ++ format_f true 0 pct ++ "%)") /\
        difference r' =
          Some (rupee ++ str_of_int (Z.abs n) ++ " (" ++ format_f true 0 pct' ++ "%)") /\
        (winner r = "tie" ->
           verdict r = "Similarly priced" /\ verdict r' = "Similarly priced") /\
        (winner r = "product_a" ->
           verdict r = rupee ++ str_of_int (Z.abs n) ++ " more affordable" /\
           verdict r' = rupee ++ str_of_int (Z.abs n) ++ " cheaper") /\
        (winner r = "product_b" ->
           verdict r = rupee ++ str_of_int (Z.abs n) ++ " cheaper" /\
           verdict r' = rupee ++ str_of_int (Z.abs n) ++ " more affordable")
  | Raise _, Raise _ => True
  | _, _ => False
  end.
Proof.
  destruct (compare_price_unfold a b) as [pct [_ ->]].
  destruct (compare_price_unfold b a) as [pct' [_ ->]].
  pose proof (fsub_swap (price a) (price b)) as Hm.
  fold (price_diff a b) in Hm. fold (price_diff b a) in Hm.
  pose proof (int_of_float_mirror _ _ Hm) as Hint.
  destruct (int_of_float (price_diff a b)) as [n|e] eqn:En;
    destruct (int_of_float (price_diff b a)) as [n'|e'] eqn:En'; try exact Hint.
  subst n'. cbn [winner difference verdict].
  split; [apply price_winner_tag|].
  destruct (price_row_mirror _ _ n Hm En)
    as [(W & W' & V & V') | [(W & W' & V & V') | (W & W' & V & V')]];
    rewrite W, W', V, V';
    (split; [split; intros; (reflexivity || discriminate)|]);
    (split; [split; intros; (reflexivity || discriminate)|]);
    (split; [split; intros; (reflexivity || discriminate)|]);
    exists n, pct, pct'; rewrite Z.abs_opp;
    repeat split; try reflexivity; discriminate.
Qed.

(** C1.  At prices 500 for A and 700 for B, A is the cheaper product and
    its price is more than 100 below B's; the price row names [product_b]
    as the winner, with the verdict "200 rupees cheaper" and the signed
    percentage in the [difference] field. *)
Theorem compare_price_names_dearer_product :
  flt (price Examples.product_500) (price Examples.product_700) = true /\
  flt (fabs (price_diff Examples.product_500 Examples.product_700)) (lit 100) = false /\
  exists r,
    _compare_price Examples.product_500 Examples.product_700 = Ok r /\
    winner r = "product_b" /\
    verdict r = rupee ++ "200 cheaper" /\
    difference r = Some (rupee ++ "200 (-29%)").
Proof.
  split; [reflexivity|]. split; [reflexivity|].
  destruct (compare_price_unfold Examples.product_500 Examples.product_700)
    as [pct [Hpct ->]].
  vm_compute in Hpct. injection Hpct as <-.
  eexists. split; [reflexivity|].
  repeat split; reflexivity.
Qed.

(** Whenever the price row names a winner, it is the product with the
    higher price side of the difference: [product_b] goes with a negative
    [A - B], [product_a] with a non-negative one. *)
Lemma compare_price_winner_sign (a b : ProductModel) (r : Dimension) :
  _compare_price a b = Ok r ->
  (winner r = "product_b" -> flt (price_diff a b) (lit 0) = true) /\
  (winner r = "product_a" -> flt (price_diff a b) (lit 0) = false).
Proof.
  destruct (compare_price_unfold a b) as [pct [_ ->]].
  destruct (int_of_float (price_diff a b)) as [n|e]; [|discriminate].
  intros [= <-]. cbn [winner]. unfold price_winner.
  destruct (flt (fabs (price_diff a b)) (lit 100)); [split; discriminate|].
  destruct (flt (price_diff a b) (lit 0)); split; intros; (reflexivity || discriminate).
Qed.

(** *** Safety *)

(** C4.  The safety row names [product_a] exactly when A's side-effect
    text mentions "mild" (in any letter case) and B's does not,
    [product_b] in the mirrored case and [tie] otherwise; for "Mild
    tingling" against "Moderate redness" it names [product_a]. *)
Theorem compare_safety_winner (a b : ProductModel) :
  let w := winner (_compare_safety a b) in
  (w = "product_a" <->
     mentions "mild" (side_effects a) /\ ~ mentions "mild" (side_effects b)) /\
  (w = "product_b" <->
     mentions "mild" (side_effects b) /\ ~ mentions "mild" (side_effects a)) /\
  (w = "tie" <->
     (mentions "mild" (side_effects a) <-> mentions "mild" (side_effects b))) /\
  (side_effects a = "Mild tingling" -> side_effects b = "Moderate redness" ->
     w = "product_a").
Proof.
  cbv zeta. unfold _compare_safety. cbn [winner].
  rewrite <- !contains_lower_mentions.
  split; [|split; [|split]].
  - destruct (contains "mild" (lower (side_effects a)));
      destruct (contains "mild" (lower (side_effects b))); cbn [andb negb fst];
      split; try discriminate; try (intros [? ?]; congruence);
      try (intros _; split; congruence); reflexivity.
  - destruct (contains "mild" (lower (side_effects a)));
      destruct (contains "mild" (lower (side_effects b))); cbn [andb negb fst];
      split; try discriminate; try (intros [? ?]; congruence);
      try (intros _; split; congruence); reflexivity.
  - destruct (contains "mild" (lower (side_effects a)));
      destruct (contains "mild" (lower (side_effects b))); cbn [andb negb fst];
      split; try discriminate; try reflexivity; try tauto;
      intros [H1 H2]; try (specialize (H1 eq_refl)); try (specialize (H2 eq_refl));
      discriminate.
  - intros -> ->. reflexivity.
Qed.

(** *** Aggregation *)

Lemma fold_add_ones {A : Type} (l : list A) (acc : Z) :
  fold_left Z.add (map (fun _ => 1) l) acc = acc + Z.of_nat (length l).
Proof.
  revert acc. induction l as [|x l IH]; intros acc; simpl.
  - lia.
  - rewrite IH. lia.
Qed.

Lemma sum_ones_length (cond : Dimension -> bool) (m : list Dimension) :
  sum_ones cond m = Z.of_nat (length (List.filter cond m)).
Proof. unfold sum_ones. rewrite fold_add_ones. lia. Qed.

Lemma filter_tag_tally (tag : string) (m : list Dimension) :
  length (List.filter (fun item => String.eqb (winner item) tag) m) = tally tag m.
Proof.
  unfold tally. induction m as [|d m IH]; simpl; [reflexivity|].
  destruct (String.eqb_spec (winner d) tag) as [E|E];
    destruct (string_dec (winner d) tag); try contradiction; simpl; now rewrite IH.
Qed.

Lemma in_list_ties (w : string) :
  in_list w ["tie"; "contextual"] = true <-> w = "tie" \/ w = "contextual".
Proof.
  unfold in_list. cbn [existsb]. rewrite orb_false_r, orb_true_iff.
  split; intros [E|E]; [left | right | left | right];
    first [now apply String.eqb_eq in E | now apply String.eqb_eq].
Qed.

Lemma filter_ties_tally (m : list Dimension) :
  length (List.filter (fun item => in_list (winner item) ["tie"; "contextual"]) m)
  = (tally "tie" m + tally "contextual" m)%nat.
Proof.
  unfold tally. induction m as [|d m IH]; [reflexivity|].
  cbn [List.filter map count_occ].
  destruct (in_list (winner d) ["tie"; "contextual"]) eqn:E.
  - apply in_list_ties in E.
    destruct (string_dec (winner d) "tie");
      destruct (string_dec (winner d) "contextual");
      cbn [length]; rewrite IH; try lia; try congruence.
    exfalso. tauto.
  - destruct (string_dec (winner d) "tie") as [E'|E'];
      [assert (X : in_list (winner d) ["tie"; "contextual"] = true)
         by (apply in_list_ties; tauto); congruence|].
    destruct (string_dec (winner d) "contextual") as [E''|E''];
      [assert (X : in_list (winner d) ["tie"; "contextual"] = true)
         by (apply in_list_ties; tauto); congruence|].
    exact IH.
Qed.

(** Rows are tallied under at most one of the four tags. *)
Lemma tally_bound (m : list Dimension) :
  (tally "product_a" m + tally "product_b" m + tally "tie" m + tally "contextual" m
   <= length m)%nat.
Proof.
  unfold tally. induction m as [|d m IH]; simpl; [lia|].
  destruct (string_dec (winner d) "product_a");
    destruct (string_dec (winner d) "product_b");
    destruct (string_dec (winner d) "tie");
    destruct (string_dec (winner d) "contextual"); try congruence; lia.
Qed.

(** With every tag among the four, each row is tallied exactly once. *)
Lemma tally_total (m : list Dimension) :
  Forall (fun d => In (winner d) winner_tags) m ->
  (tally "product_a" m + tally "product_b" m + tally "tie" m + tally "contextual" m
   = length m)%nat.
Proof.
  unfold tally. induction 1 as [|d m Hd Hm IH]; simpl; [reflexivity|].
  destruct (string_dec (winner d) "product_a");
    destruct (string_dec (winner d) "product_b");
    destruct (string_dec (winner d) "tie");
    destruct (string_dec (winner d) "contextual"); try congruence; try lia.
  exfalso. simpl in Hd. intuition congruence.
Qed.

Lemma skin_types_winner_tag (a b : ProductModel) :
  In (winner (_compare_skin_types a b)) ["tie"; "product_a"; "product_b"].
Proof.
  unfold _compare_skin_types. cbn [winner].
  destruct (_ >? _); [right; left; reflexivity|].
  destruct (_ >? _); [right; right; left | left]; reflexivity.
Qed.

Lemma benefits_winner_tag (a b : ProductModel) :
  In (winner (_compare_benefits a b)) ["tie"; "product_a"; "product_b"].
Proof.
  unfold _compare_benefits. cbn [winner].
  destruct (_ >? _); [right; left; reflexivity|].
  destruct (_ >? _); [right; right; left | left]; reflexivity.
Qed.

Lemma safety_winner_tag (a b : ProductModel) :
  In (winner (_compare_safety a b)) ["tie"; "product_a"; "product_b"].
Proof.
  unfold _compare_safety. cbn [winner].
  destruct (_ && _); [right; left; reflexivity|].
  destruct (_ && _); [right; right; left | left]; reflexivity.
Qed.

Lemma three_tags_in_four (w : string) :
  In w ["tie"; "product_a"; "product_b"] -> In w winner_tags.
Proof. unfold winner_tags. simpl. intuition. Qed.

(** C7.  The scores tally the rows by winner tag: [product_a_wins] and
    [product_b_wins] count the rows tagged exactly [product_a] and
    [product_b], [ties] counts the rows tagged [tie] or [contextual], so a
    row of either of these two tags counts toward neither side; the two
    win counts add up to at most the number of dimensions and are never
    both above half of it.  For the matrix of a comparison, the dimensions
    are the six fixed ones, every tag is one of the four, and wins and ties
    add up to six. *)
Theorem comparison_scores_tally :
  (forall m : list Dimension,
     let s := _calculate_scores m in
     product_a_wins s = Z.of_nat (tally "product_a" m) /\
     product_b_wins s = Z.of_nat (tally "product_b" m) /\
     ties s = Z.of_nat (tally "tie" m + tally "contextual" m) /\
     total_dimensions s = Z.of_nat (length m) /\
     product_a_wins s + product_b_wins s + ties s <= total_dimensions s /\
     product_a_wins s + product_b_wins s <= total_dimensions s /\
     ~ (2 * product_a_wins s > total_dimensions s /\
        2 * product_b_wins s > total_dimensions s)) /\
  (forall (a b : ProductModel) (r : Comparison),
     generate_comparison_block a b = Ok r ->
     let s := scores r in
     s = _calculate_scores (matrix r) /\
     map dimension (matrix r) =
       ["Price"; "Concentration"; "Skin Type Coverage";
        "Ingredients"; "Benefits"; "Safety"] /\
     Forall (fun d => In (winner d) winner_tags) (matrix r) /\
     total_dimensions s = 6 /\
     product_a_wins s + product_b_wins s + ties s = 6 /\
     product_a_wins s + product_b_wins s <= total_dimensions s /\
     ~ (product_a_wins s > total_dimensions s / 2 /\
        product_b_wins s > total_dimensions s / 2)).
Proof.
  assert (Hgen : forall m : list Dimension,
     let s := _calculate_scores m in
     product_a_wins s = Z.of_nat (tally "product_a" m) /\
     product_b_wins s = Z.of_nat (tally "product_b" m) /\
     ties s = Z.of_nat (tally "tie" m + tally "contextual" m) /\
     total_dimensions s = Z.of_nat (length m)).
  { intros m. cbv zeta. unfold _calculate_scores.
    cbn [product_a_wins product_b_wins ties total_dimensions].
    rewrite !sum_ones_length, !filter_tag_tally, filter_ties_tally.
    repeat split; reflexivity. }
  split.
  - intros m. cbv zeta. destruct (Hgen m) as (-> & -> & -> & ->).
    pose proof (tally_bound m). repeat split; try reflexivity; lia.
  - intros a b r Hr. unfold generate_comparison_block in Hr.
    destruct (_compare_price a b) as [row|e] eqn:Hrow; [|discriminate].
    cbn [bind] in Hr. injection Hr as <-. cbv zeta. cbn [scores matrix].
    assert (Hprice : In (winner row) ["tie"; "product_a"; "product_b"] /\
                     dimension row = "Price").
    { destruct (compare_price_unfold a b) as [pct [_ Hu]]. rewrite Hrow in Hu.
      destruct (int_of_float (price_diff a b)); [|discriminate].
      injection Hu as ->. cbn [winner dimension].
      split; [apply price_winner_tag | reflexivity]. }
    destruct Hprice as [Hw Hd].
    set (m := [row; _; _; _; _; _]).
    assert (Htags : Forall (fun d => In (winner d) winner_tags) m).
    { unfold m.
      constructor; [apply three_tags_in_four, Hw|].
      constructor; [right; right; right; left; reflexivity|].
      constructor; [apply three_tags_in_four, skin_types_winner_tag|].
      constructor; [right; right; right; left; reflexivity|].
      constructor; [apply three_tags_in_four, benefits_winner_tag|].
      constructor; [apply three_tags_in_four, safety_winner_tag|].
      constructor. }
    assert (Hdims : map dimension m =
       ["Price"; "Concentration"; "Skin Type Coverage";
        "Ingredients"; "Benefits"; "Safety"]).
    { unfold m. cbn [map]. rewrite Hd. reflexivity. }
    destruct (Hgen m) as (Ha & Hb & Ht & Hn).
    pose proof (tally_total m Htags) as Htot.
    assert (Hlen : length m = 6%nat) by reflexivity.
    rewrite Ha, Hb, Ht, Hn, Hlen. change (Z.of_nat 6 / 2) with 3.
    repeat split; try assumption; try reflexivity; lia.
Qed.

End WithBuiltins.

Lemma compare_safety_winner_witness :
  side_effects Examples.product_500 = "Mild tingling" /\
  side_effects Examples.product_700 = "Moderate redness" /\
  winner (_compare_safety Examples.product_500 Examples.product_700) = "product_a".
Proof.
  split; [reflexivity|]. split; [reflexivity|].
  apply (proj2 (proj2 (proj2
           (compare_safety_winner Examples.product_500 Examples.product_700))));
    reflexivity.
Defined.

Lemma comparison_scores_tally_witness :
  match generate_comparison_block (H := Examples.plain_builtins)
          Examples.product_500 Examples.product_700 with
  | Ok r =>
      total_dimensions (scores r) = 6 /\
      product_a_wins (scores r) + product_b_wins (scores r) + ties (scores r) = 6 /\
      product_a_wins (scores r) + product_b_wins (scores r) <= total_dimensions (scores r)
  | Raise _ => False
  end.
Proof.
  destruct (generate_comparison_block (H := Examples.plain_builtins)
              Examples.product_500 Examples.product_700) as [r|e] eqn:E.
  - destruct (proj2 (comparison_scores_tally (H := Examples.plain_builtins)) _ _ r E)
      as (_ & _ & _ & Htotal & Hsum & Hle & _).
    split; [exact Htotal|]. split; [exact Hsum | exact Hle].
  - vm_compute in E. discriminate E.
Defined.

End ComparisonFacts.

(* ===================================================================== *)
(** * The price block                                                     *)
(* ===================================================================== *)

Module PriceFacts.
Import Product PriceBlock Spec FloatFacts StringFacts.

(** The three thresholds share their mantissa and differ in exponent. *)
Lemma lit_500 : lit 500 = S754_finite false 8796093022208000 (-44).
Proof. reflexivity. Qed.

Lemma lit_1000 : lit 1000 = S754_finite false 8796093022208000 (-43).
Proof. reflexivity. Qed.

Lemma lit_2000 : lit 2000 = S754_finite false 8796093022208000 (-42).
Proof. reflexivity. Qed.

Lemma flt_raise_exponent (x : float) (m : positive) (e e' : Z) :
  e < e' ->
  flt x (S754_finite false m e) = true -> flt x (S754_finite false m e') = true.
Proof.
  intros He. unfold flt, SFltb.
  destruct x as [s|s| |s mx ex]; simpl; try (intros H; exact H).
  destruct s; [intros H; exact H|].
  destruct (Z.compare_spec ex e) as [E|E|E]; destruct (Z.compare_spec ex e') as [E'|E'|E'];
    try lia; try discriminate; try reflexivity.
Qed.

Lemma flt_500_1000 (x : float) : flt x (lit 500) = true -> flt x (lit 1000) = true.
Proof. rewrite lit_500, lit_1000. apply flt_raise_exponent. lia. Qed.

Lemma flt_1000_2000 (x : float) : flt x (lit 1000) = true -> flt x (lit 2000) = true.
Proof. rewrite lit_1000, lit_2000. apply flt_raise_exponent. lia. Qed.

(** The tier of a price that is a number. *)
Lemma positioning_tiers (x : float) :
  x <> S754_nan ->
  let tier := fst (price_positioning x) in
  In tier ["Budget-Friendly"; "Mid-Range"; "Premium"; "Luxury"] /\
  (tier = "Budget-Friendly" <-> flt x (lit 500) = true) /\
  (tier = "Mid-Range" <-> fle (lit 500) x = true /\ flt x (lit 1000) = true) /\
  (tier = "Premium" <-> fle (lit 1000) x = true /\ flt x (lit 2000) = true) /\
  (tier = "Luxury" <-> fle (lit 2000) x = true).
Proof.
  intros Hx. cbv zeta.
  assert (N500 : lit 500 <> S754_nan) by (rewrite lit_500; discriminate).
  assert (N1000 : lit 1000 <> S754_nan) by (rewrite lit_1000; discriminate).
  assert (N2000 : lit 2000 <> S754_nan) by (rewrite lit_2000; discriminate).
  rewrite <- (not_flt_fle x (lit 500) Hx N500).
  rewrite <- (not_flt_fle x (lit 1000) Hx N1000).
  rewrite <- (not_flt_fle x (lit 2000) Hx N2000).
  pose proof (flt_500_1000 x) as H1. pose proof (flt_1000_2000 x) as H2.
  unfold price_positioning.
  destruct (flt x (lit 500)) eqn:E500;
    destruct (flt x (lit 1000)) eqn:E1000;
    destruct (flt x (lit 2000)) eqn:E2000;
    try (specialize (H1 eq_refl); discriminate);
    try (specialize (H2 eq_refl); discriminate);
    cbn [fst]; (split; [simpl; tauto|]);
    repeat split; intros; try discriminate; try reflexivity;
    repeat match goal with
           | Hc : _ /\ _ |- _ => destruct Hc
           end; discriminate.
Qed.

Section WithBuiltins.
Context `{Builtins}.

Lemma has_premium_ingredient (p : ProductModel) :
  In "Vitamin C" (ingredients p) ->
  existsb (fun ing => in_list ing (ingredients p)) premium_ingredients = true.
Proof.
  intros Hin. unfold premium_ingredients. cbn [existsb].
  apply orb_true_iff. left. unfold in_list. apply existsb_exists.
  exists "Vitamin C". split; [exact Hin | apply String.eqb_refl].
Qed.

(** Whatever the highlights list is, it starts with the cost highlight,
    and it holds the premium highlight when the product has a premium
    ingredient. *)
Lemma value_highlights_content (p : ProductModel) (cost days : float) (hl : list string) :
  _generate_value_highlights p cost days = Ok hl ->
  hl <> [] /\
  (existsb (fun ing => in_list ing (ingredients p)) premium_ingredients = true ->
   In "Contains premium, research-backed ingredients" hl).
Proof.
  unfold _generate_value_highlights.
  destruct (flt cost (lit 5));
    [destruct (int_of_float cost) as [n|e]; [|discriminate]|];
    cbn [bind];
    (destruct (fge days (lit 60));
     [destruct (fdiv_int days 30) as [mo|e]; [|discriminate]; cbn [bind];
      destruct (int_of_float mo) as [n2|e]; [|discriminate]
     |destruct (int_of_float days) as [n2|e]; [|discriminate]]);
    cbn [bind];
    destruct (existsb (fun ing => in_list ing (ingredients p)) premium_ingredients);
    destruct (negb (is_empty (concentration p)));
    destruct (Z.of_nat (length (benefits p)) >=? 2);
    unfold append; cbn [app];
    intros Hq; injection Hq as Hq; subst hl;
    (split; [discriminate | intros Hp; try discriminate; simpl; tauto]).
Qed.

(** The highlights are computed when the cost per use is a number of
    positive sign and the supply is 240 or 120 days. *)
Lemma value_highlights_total (p : ProductModel) (cost days : float) :
  cost = S754_nan \/ sign_is false cost ->
  days = lit 240 \/ days = lit 120 ->
  exists hl, _generate_value_highlights p cost days = Ok hl.
Proof.
  intros Hcost Hdays. unfold _generate_value_highlights.
  assert (Hfirst : exists l1,
    (if flt cost (lit 5)
     then let* n := int_of_float cost in
          Ok (append [] ("Less than " ++ ComparisonBlock.rupee ++ str_of_int (n + 1) ++
                         " per application"))
     else Ok (append [] ("Approximately " ++ ComparisonBlock.rupee ++
                         format_f false 0 cost ++ " per use"))) = Ok l1).
  { destruct (flt cost (lit 5)) eqn:E; [|eexists; reflexivity].
    destruct Hcost as [-> | Hs]; [discriminate|].
    destruct (int_of_float_below cost (lit 5) Hs E) as [n ->].
    eexists; reflexivity. }
  destruct Hfirst as [l1 ->]. cbn [bind].
  destruct Hdays as [-> | ->]; eexists; reflexivity.
Qed.

(** The cost per use of a product whose price is above zero. *)
Lemma cost_per_use_sign (x : float) :
  fgt x (lit 0) = true ->
  let cost := fmul (fmul lit_2_5 lit_0_05) (SFdiv prec emax x (lit 30)) in
  cost = S754_nan \/ sign_is false cost.
Proof.
  intros Hx. cbv zeta.
  destruct (fgt_0_sign x Hx) as [Hs _].
  destruct (SFdiv_sign x (lit 30) Hs eq_refl) as [-> | Hq].
  - left. reflexivity.
  - apply SFmul_sign; [reflexivity | exact Hq].
Qed.

Lemma investment_statement_total (p : ProductModel) (x days : float) :
  is_zero days = false ->
  exists s, _generate_investment_statement p x days = Ok s.
Proof.
  intros Hd. unfold _generate_investment_statement, fdiv. rewrite Hd. cbn [bind].
  destruct (flt _ (lit 15)); [eexists; reflexivity|].
  destruct (flt _ (lit 30)); eexists; reflexivity.
Qed.

(** The block for the default bottle returns for every price above zero,
    with the tier of the price and the highlights of
    [_generate_value_highlights]. *)
Lemma generate_price_block_default_total (p : ProductModel) :
  fgt (price p) (lit 0) = true ->
  exists r cost days,
    generate_price_block_default p = Ok r /\
    positioning r = fst (price_positioning (price p)) /\
    _generate_value_highlights p cost days = Ok (value_highlights r).
Proof.
  intros Hp. unfold generate_price_block_default, generate_price_block.
  change (fdiv_int (price p) 30) with (Ok (A:=float) (SFdiv prec emax (price p) (lit 30))).
  cbn [bind].
  change (int_fdiv 30 (fmul lit_2_5 lit_0_05)) with (Ok (A:=float) (lit 240)).
  cbn [bind].
  set (cost := fmul (fmul lit_2_5 lit_0_05) (SFdiv prec emax (price p) (lit 30))).
  pose proof (cost_per_use_sign (price p) Hp) as Hcost. fold cost in Hcost.
  destruct (contains "twice" (lower (usage p)) ||
            contains "morning and evening" (lower (usage p))).
  - change (fdiv_int (lit 240) 2) with (Ok (A:=float) (lit 120)). cbn [bind].
    destruct (value_highlights_total p cost (lit 120) Hcost (or_intror eq_refl)) as [hl Hhl].
    rewrite Hhl. cbn [bind].
    change (int_of_float (lit 120)) with (Ok (A:=Z) 120). cbn [bind].
    destruct (investment_statement_total p (price p) (lit 120) eq_refl) as [s ->].
    cbn [bind]. eexists _, cost, (lit 120). split; [reflexivity|].
    split; [reflexivity | exact Hhl].
  - change (fdiv_int (lit 240) 1) with (Ok (A:=float) (lit 240)). cbn [bind].
    destruct (value_highlights_total p cost (lit 240) Hcost (or_introl eq_refl)) as [hl Hhl].
    rewrite Hhl. cbn [bind].
    change (int_of_float (lit 240)) with (Ok (A:=Z) 240). cbn [bind].
    destruct (investment_statement_total p (price p) (lit 240) eq_refl) as [s ->].
    cbn [bind]. eexists _, cost, (lit 240). split; [reflexivity|].
    split; [reflexivity | exact Hhl].
Qed.

(** Whatever the bottle, a block that returns carries the tier of the
    price. *)
Lemma generate_price_block_tier (p : ProductModel) (bottle : Z) (r : PriceContent) :
  generate_price_block p bottle = Ok r ->
  positioning r = fst (price_positioning (price p)) /\
  positioning_description r = snd (price_positioning (price p)).
Proof.
  unfold generate_price_block.
  destruct (fdiv_int (price p) bottle) as [cost_per_ml|e]; [|discriminate].
  cbn [bind].
  destruct (int_fdiv bottle (fmul lit_2_5 lit_0_05)) as [total_uses|e]; [|discriminate].
  cbn [bind].
  destruct (fdiv_int total_uses _) as [days|e]; [|discriminate].
  cbn [bind].
  destruct (_generate_value_highlights p _ days) as [hl|e]; [|discriminate].
  cbn [bind].
  destruct (int_of_float days) as [n|e]; [|discriminate].
  cbn [bind].
  destruct (_generate_investment_statement p (price p) days) as [s|e]; [|discriminate].
  cbn [bind]. intros Hr. injection Hr as <-. split; reflexivity.
Qed.

(** C8.  For every validated product the price block returns, and its
    positioning is exactly one of four tiers: Budget-Friendly when the price
    is below 500, Mid-Range from 500 to below 1000, Premium from 1000 to
    below 2000, Luxury from 2000 on.  Its highlights are never empty.  At
    price 699 the tier is Mid-Range, and a product that lists "Vitamin C"
    gets the premium-ingredient highlight. *)
Theorem price_block_positioning (p : ProductModel) :
  validated p ->
  exists r,
    generate_price_block_default p = Ok r /\
    In (positioning r) ["Budget-Friendly"; "Mid-Range"; "Premium"; "Luxury"] /\
    (positioning r = "Budget-Friendly" <-> flt (price p) (lit 500) = true) /\
    (positioning r = "Mid-Range" <->
       fle (lit 500) (price p) = true /\ flt (price p) (lit 1000) = true) /\
    (positioning r = "Premium" <->
       fle (lit 1000) (price p) = true /\ flt (price p) (lit 2000) = true) /\
    (positioning r = "Luxury" <-> fle (lit 2000) (price p) = true) /\
    value_highlights r <> [] /\
    (price p = lit 699 -> positioning r = "Mid-Range") /\
    (In "Vitamin C" (ingredients p) ->
       In "Contains premium, research-backed ingredients" (value_highlights r)).
Proof.
  intros Hv. pose proof (v_price p Hv) as Hp.
  destruct (generate_price_block_default_total p Hp) as (r & cost & days & Hr & Hpos & Hhl).
  exists r. split; [exact Hr|].
  assert (Hnan : price p <> S754_nan).
  { intros E. rewrite E in Hp. discriminate. }
  destruct (positioning_tiers (price p) Hnan) as (T0 & T1 & T2 & T3 & T4).
  rewrite <- Hpos in T0, T1, T2, T3, T4.
  destruct (value_highlights_content p cost days _ Hhl) as [Hne Hprem].
  repeat split; try (apply T0 || apply T1 || apply T2 || apply T3 || apply T4);
    try assumption.
  - intros E. apply T2. rewrite E. split; reflexivity.
  - intros Hin. apply Hprem, has_premium_ingredient, Hin.
Qed.

End WithBuiltins.

Lemma glowboost_validated : validated Examples.glowboost.
Proof. constructor; try (split; [discriminate | reflexivity]); try discriminate; reflexivity. Qed.

Lemma price_block_positioning_witness :
  validated Examples.glowboost /\
  price Examples.glowboost = lit 699 /\
  In "Vitamin C" (ingredients Examples.glowboost) /\
  exists r,
    generate_price_block_default (H := Examples.plain_builtins) Examples.glowboost = Ok r /\
    positioning r = "Mid-Range" /\
    value_highlights r <> [] /\
    In "Contains premium, research-backed ingredients" (value_highlights r).
Proof.
  split; [exact glowboost_validated|]. split; [reflexivity|].
  split; [left; reflexivity|].
  destruct (price_block_positioning (H := Examples.plain_builtins)
              Examples.glowboost glowboost_validated)
    as (r & Hr & _ & _ & _ & _ & _ & Hne & Hmid & Hprem).
  exists r. split; [exact Hr|]. split; [apply Hmid; reflexivity|].
  split; [exact Hne|]. apply Hprem. left. reflexivity.
Defined.

End PriceFacts.

(* ===================================================================== *)
(** * The template engine                                                 *)
(* ===================================================================== *)

Module TemplateFacts.
Import Product TemplateEngine Spec.

Section WithContent.
Context {Content : Type}.
Implicit Types (self : Engine Content) (product : ProductModel).
Implicit Types (names calls : list string) (blocks : list (RenderedBlock Content)).

(** Two readings of one registry entry on one product agree. *)
Lemma same_block self product name (f f' : Block Content) (c : Content) (e : exn) :
  registered_blocks self !! name = Some f -> f product = Ok c ->
  registered_blocks self !! name = Some f' -> f' product = Raise e -> False.
Proof. intros Hf Hc Hf' He. rewrite Hf in Hf'. injection Hf' as <-. rewrite Hc in He. discriminate. Qed.

Lemma not_registered self name (f : Block Content) :
  registered_blocks self !! name = None ->
  registered_blocks self !! name = Some f -> False.
Proof. intros Hn Hf. rewrite Hn in Hf. discriminate. Qed.

Lemma raises_registered self product name :
  raises self product name -> registered self name = true.
Proof.
  intros (f & e & Hf & _). unfold registered.
  destruct (registered_blocks self !! name) eqn:E; [reflexivity|].
  first [discriminate Hf | destruct (not_registered _ _ _ E Hf)].
Qed.

Lemma append_app {A : Type} (l : list A) (x : A) : append l x = (l ++ [x])%list.
Proof. reflexivity. Qed.

(** The optional loop never fails: it calls the registered names in
    order and keeps the entries of the blocks that return. *)
Lemma optional_loop_spec self product names calls blocks :
  optional_loop self product names calls blocks =
  ((calls ++ List.filter (registered self) names)%list,
   (blocks ++ entries self product false names)%list).
Proof.
  revert calls blocks. induction names as [|name rest IH]; intros calls blocks.
  - cbn [optional_loop List.filter entries]. now rewrite !app_nil_r.
  - cbn [optional_loop List.filter entries]. unfold registered at 1.
    destruct (registered_blocks self !! name) as [f|].
    + destruct (f product) as [c|e]; rewrite IH, !append_app, <- !app_assoc; reflexivity.
    + apply IH.
Qed.

(** The required loop, when no listed block raises. *)
Lemma required_loop_ok self product names calls blocks :
  (forall name, In name names -> ~ raises self product name) ->
  required_loop self product names calls blocks =
  ((calls ++ List.filter (registered self) names)%list,
   Ok (blocks ++ entries self product true names)%list).
Proof.
  revert calls blocks. induction names as [|name rest IH]; intros calls blocks Hno.
  - cbn [required_loop List.filter entries]. now rewrite !app_nil_r.
  - cbn [required_loop List.filter entries]. unfold registered at 1.
    destruct (registered_blocks self !! name) as [f|] eqn:Ef.
    + destruct (f product) as [c|e] eqn:Ec.
      * rewrite IH, !append_app, <- !app_assoc; [reflexivity|].
        intros n Hn. apply Hno. now right.
      * exfalso. apply (Hno name); [now left|]. exists f, e. split; assumption.
    + apply IH. intros n Hn. apply Hno. now right.
Qed.

(** The required loop, when a listed block raises: the loop raises. *)
Lemma required_loop_raises self product names calls blocks :
  (exists name, In name names /\ raises self product name) ->
  exists calls' e, required_loop self product names calls blocks = (calls', Raise e).
Proof.
  revert calls blocks. induction names as [|name rest IH]; intros calls blocks [n [Hin Hr]].
  - destruct Hin.
  - cbn [required_loop].
    destruct (registered_blocks self !! name) as [f|] eqn:Ef.
    + destruct (f product) as [c|e] eqn:Ec.
      * apply IH. exists n. split; [|exact Hr].
        destruct Hin as [<- | Hin]; [|exact Hin].
        destruct Hr as (f' & e' & Hf' & He').
        destruct (same_block _ _ _ _ _ _ _ Ef Ec Hf' He').
      * eexists _, e. reflexivity.
    + apply IH. exists n. split; [|exact Hr].
      destruct Hin as [<- | Hin]; [|exact Hin].
      destruct Hr as (f' & e' & Hf' & He').
      destruct (not_registered _ _ _ Ef Hf').
Qed.

(** What the entries of a pass are. *)
Lemma entries_sound self product required names (b : RenderedBlock Content) :
  In b (entries self product required names) ->
  In (rb_name b) names /\
  returns self product (rb_name b) (rb_content b) /\
  rb_required b = required.
Proof.
  induction names as [|name rest IH]; cbn [entries]; [intros []|].
  destruct (registered_blocks self !! name) as [f|] eqn:Ef.
  - destruct (f product) as [c|e] eqn:Ec.
    + intros [<- | Hin].
      * cbn. split; [now left|]. split; [|reflexivity]. exists f. split; assumption.
      * destruct (IH Hin) as (H1 & H2 & H3). split; [now right|]. split; assumption.
    + intros Hin. destruct (IH Hin) as (H1 & H2 & H3). split; [now right|]. split; assumption.
  - intros Hin. destruct (IH Hin) as (H1 & H2 & H3). split; [now right|]. split; assumption.
Qed.

Lemma entries_names self product required names :
  (forall name, In name names -> ~ raises self product name) ->
  map rb_name (entries self product required names) = List.filter (registered self) names.
Proof.
  induction names as [|name rest IH]; intros Hno; cbn [entries List.filter map];
    [reflexivity|].
  unfold registered at 1.
  destruct (registered_blocks self !! name) as [f|] eqn:Ef.
  - destruct (f product) as [c|e] eqn:Ec.
    + cbn [map rb_name]. f_equal. apply IH. intros n Hn. apply Hno. now right.
    + exfalso. apply (Hno name); [now left|]. exists f, e. split; assumption.
  - apply IH. intros n Hn. apply Hno. now right.
Qed.

Lemma filter_all_registered self names :
  Forall (fun name => registered self name = true) names ->
  List.filter (registered self) names = names.
Proof.
  induction 1 as [|name rest Hn _ IH]; cbn [List.filter]; [reflexivity|].
  rewrite Hn, IH. reflexivity.
Qed.

(** [render_section] returns exactly when no required block raises. *)
Lemma render_section_ok self (section : TemplateSection) product :
  (forall name, In name (required_blocks section) -> ~ raises self product name) ->
  render_section self section product =
  ((List.filter (registered self) (required_blocks section) ++
    List.filter (registered self) (optional_blocks section))%list,
   Ok {| rs_section_name := section_name section;
         rs_blocks := (entries self product true (required_blocks section) ++
                       entries self product false (optional_blocks section))%list |}).
Proof.
  intros Hno. unfold render_section.
  rewrite (required_loop_ok _ _ _ _ _ Hno), optional_loop_spec. reflexivity.
Qed.

Lemma render_section_raises self (section : TemplateSection) product :
  (exists name, In name (required_blocks section) /\ raises self product name) ->
  exists calls e, render_section self section product = (calls, Raise e).
Proof.
  intros Hr. unfold render_section.
  destruct (required_loop_raises self product (required_blocks section) [] [] Hr)
    as (calls & e & ->).
  exists calls, e. reflexivity.
Qed.

(** Either some listed block raises or none does. *)
Lemma raises_dec self product names :
  (exists name, In name names /\ raises self product name) \/
  (forall name, In name names -> ~ raises self product name).
Proof.
  induction names as [|name rest [IH | IH]].
  - right. intros n [].
  - left. destruct IH as (n & Hin & Hr). exists n. split; [now right | exact Hr].
  - destruct (registered_blocks self !! name) as [f|] eqn:Ef.
    + destruct (f product) as [c|e] eqn:Ec.
      * right. intros n [<- | Hin]; [|now apply IH].
        intros (f' & e' & Hf' & He'). exact (same_block _ _ _ _ _ _ _ Ef Ec Hf' He').
      * left. exists name. split; [now left|]. exists f, e. split; assumption.
    + right. intros n [<- | Hin]; [|now apply IH].
      intros (f' & e' & Hf' & He'). exact (not_registered _ _ _ Ef Hf').
Qed.

(** C5.  If a block listed as required raises, [render_section] raises.
    If no required block raises, [render_section] returns a section,
    whatever the optional blocks do: an optional block that raises has been
    called and has no entry in the result.  With no required block and a
    single optional block that raises, the section returned has no block at
    all. *)
Theorem render_section_failures self (section : TemplateSection) product :
  (forall name,
     In name (required_blocks section) -> raises self product name ->
     exists calls e, render_section self section product = (calls, Raise e)) /\
  ((forall name, In name (required_blocks section) -> ~ raises self product name) ->
   exists calls r,
     render_section self section product = (calls, Ok r) /\
     rs_section_name r = section_name section /\
     forall name,
       In name (optional_blocks section) -> raises self product name ->
       In name calls /\ forall b, In b (rs_blocks r) -> rb_name b <> name) /\
  (forall name,
     required_blocks section = [] -> optional_blocks section = [name] ->
     raises self product name ->
     render_section self section product =
     ([name], Ok {| rs_section_name := section_name section; rs_blocks := [] |})).
Proof.
  split; [|split].
  - intros name Hin Hr. apply render_section_raises. exists name. split; assumption.
  - intros Hno. rewrite (render_section_ok _ _ _ Hno).
    eexists _, _. split; [reflexivity|]. split; [reflexivity|].
    intros name Hin Hr. cbn [rs_blocks]. split.
    + apply in_or_app. right. apply filter_In. split; [exact Hin|].
      exact (raises_registered _ _ _ Hr).
    + intros b Hb Hname. apply in_app_or in Hb.
      destruct Hb as [Hb | Hb]; apply entries_sound in Hb;
        destruct Hb as (Hbin & (f & Hf & Hc) & _).
      * apply (Hno name); [now rewrite <- Hname | exact Hr].
      * destruct Hr as (f' & e' & Hf' & He'). rewrite Hname in Hf.
        exact (same_block _ _ _ _ _ _ _ Hf Hc Hf' He').
  - intros name Hreq Hopt Hr.
    rewrite render_section_ok by (rewrite Hreq; intros n []).
    rewrite Hreq, Hopt. cbn [List.filter entries app].
    rewrite (raises_registered _ _ _ Hr).
    destruct Hr as (f & e & Hf & He).
    destruct (registered_blocks self !! name) as [f'|] eqn:E;
      [|first [discriminate Hf | destruct (not_registered _ _ _ E Hf)]].
    destruct (f' product) as [c|e'] eqn:Ec; [|reflexivity].
    first [ destruct (same_block _ _ _ _ _ _ _ E Ec Hf He)
          | injection Hf as <-; rewrite Ec in He; discriminate He ].
Qed.

(** The required loop, when a registered block raises and none of the
    registered blocks listed before it does: the loop calls those and it,
    and raises what it raised. *)
Lemma required_loop_first_failure self product names calls blocks before name after
    (f : Block Content) (e : exn) :
  List.filter (registered self) names = (before ++ name :: after)%list ->
  (forall n, In n before -> ~ raises self product n) ->
  registered_blocks self !! name = Some f -> f product = Raise e ->
  required_loop self product names calls blocks =
  ((calls ++ before ++ [name])%list, Raise e).
Proof.
  revert calls blocks before.
  induction names as [|n0 rest IH]; intros calls blocks before Hreg Hno Hf He.
  - destruct before; discriminate Hreg.
  - cbn [required_loop]. cbn [List.filter] in Hreg. unfold registered at 1 in Hreg.
    destruct (registered_blocks self !! n0) as [f0|] eqn:Ef0.
    + destruct before as [|b before'].
      * cbn [app] in Hreg. injection Hreg as -> _.
        rewrite Hf in Ef0. injection Ef0 as <-. rewrite He.
        rewrite append_app. reflexivity.
      * cbn [app] in Hreg. injection Hreg as -> Hrest.
        destruct (f0 product) as [c|e0] eqn:Ec.
        -- rewrite (IH _ _ before' Hrest); [|intros n Hn; apply Hno; now right|exact Hf|exact He].
           rewrite append_app, <- app_assoc. reflexivity.
        -- exfalso. apply (Hno b); [now left|]. exists f0, e0. split; assumption.
    + apply IH; assumption.
Qed.

(** Among listed blocks, either none raises or there is a first one that
    does. *)
Lemma first_failure self product names :
  (forall n, In n names -> ~ raises self product n) \/
  exists before name after,
    names = (before ++ name :: after)%list /\
    (forall n, In n before -> ~ raises self product n) /\
    raises self product name.
Proof.
  induction names as [|n0 rest IH].
  - left. intros n [].
  - destruct (raises_dec self product [n0]) as [(n & [<- | []] & Hr) | Hno0].
    + right. exists [], n0, rest. split; [reflexivity|]. split; [intros ? []|exact Hr].
    + destruct IH as [Hno | (before & name & after & -> & Hno & Hr)].
      * left. intros n [<- | Hin]; [apply Hno0; now left | now apply Hno].
      * right. exists (n0 :: before), name, after. split; [reflexivity|].
        split; [|exact Hr].
        intros n [<- | Hin]; [apply Hno0; now left | now apply Hno].
Qed.

Lemma raises_among_registered self product names :
  (forall n, In n (List.filter (registered self) names) -> ~ raises self product n) ->
  forall n, In n names -> ~ raises self product n.
Proof.
  intros Hno n Hin Hr. apply (Hno n); [|exact Hr].
  apply filter_In. split; [exact Hin | exact (raises_registered _ _ _ Hr)].
Qed.

(** C6, as the code has it.  [render_section] goes through the required
    names in listed order; a name that is not registered with the engine is
    passed over, with no call, no entry and no error, and a registered one
    is called, until a call raises.  If no registered required block
    raises, all of them are called, in listed order and before any optional
    block, [render_section] returns, and the blocks of the section start
    with one entry per registered required name, in listed order, each with
    [required = true] and the content its block returned; the entries of
    the optional blocks follow; when every required name is registered, the
    required entries are the listed names one for one.  If a registered
    required block raises and none before it does, the blocks called are
    the registered required names up to it, it is the last one called, and
    [render_section] raises the exception it raised: the required blocks
    listed after it are not called.  One of the two cases always holds. *)
Theorem render_section_required_entries self (section : TemplateSection) product :
  let reg := List.filter (registered self) (required_blocks section) in
  ((forall name, In name reg -> ~ raises self product name) ->
   exists req opt,
     render_section self section product =
     ((reg ++ List.filter (registered self) (optional_blocks section))%list,
      Ok {| rs_section_name := section_name section;
            rs_blocks := (req ++ opt)%list |}) /\
     map rb_name req = reg /\
     Forall (fun b => rb_required b = true /\
                      returns self product (rb_name b) (rb_content b)) req /\
     Forall (fun b => rb_required b = false /\
                      returns self product (rb_name b) (rb_content b)) opt /\
     (Forall (fun name => registered self name = true) (required_blocks section) ->
      map rb_name req = required_blocks section)) /\
  (forall before name after (f : Block Content) (e : exn),
     reg = (before ++ name :: after)%list ->
     (forall n, In n before -> ~ raises self product n) ->
     registered_blocks self !! name = Some f -> f product = Raise e ->
     render_section self section product = ((before ++ [name])%list, Raise e)) /\
  ((forall name, In name reg -> ~ raises self product name) \/
   exists before name after,
     reg = (before ++ name :: after)%list /\
     (forall n, In n before -> ~ raises self product n) /\
     raises self product name).
Proof.
  cbv zeta. split; [|split].
  - intros Hreg. pose proof (raises_among_registered _ _ _ Hreg) as Hno.
    rewrite (render_section_ok _ _ _ Hno).
    eexists _, _. split; [reflexivity|].
    split; [apply entries_names, Hno|].
    split; [|split].
    + apply List.Forall_forall. intros b Hb. apply entries_sound in Hb. tauto.
    + apply List.Forall_forall. intros b Hb. apply entries_sound in Hb. tauto.
    + intros Hall. rewrite (entries_names _ _ _ _ Hno). now apply filter_all_registered.
  - intros before name after f e Hreg Hno Hf He. unfold render_section.
    rewrite (required_loop_first_failure _ _ _ [] [] _ _ _ _ _ Hreg Hno Hf He).
    reflexivity.
  - apply first_failure.
Qed.

End WithContent.

Lemma comparison_block_raises :
  raises Examples.price_engine Examples.glowboost "comparison_block".
Proof.
  eexists _, _. split.
  - unfold Examples.price_engine, register_block. cbn [registered_blocks].
    apply lookup_insert_eq.
  - reflexivity.
Qed.

Lemma price_block_does_not_raise :
  forall name,
    In name (required_blocks Examples.pricing_section) ->
    ~ raises Examples.price_engine Examples.glowboost name.
Proof.
  intros name [<- | []] (f & e & Hf & He).
  unfold Examples.price_engine, register_block in Hf. cbn [registered_blocks] in Hf.
  rewrite lookup_insert_ne in Hf by discriminate.
  rewrite lookup_insert_eq in Hf. injection Hf as <-.
  vm_compute in He. discriminate He.
Qed.

Lemma benefit_block_raises :
  raises Examples.failing_engine Examples.glowboost "benefit_block".
Proof.
  eexists _, _. split.
  - unfold Examples.failing_engine, register_block. cbn [registered_blocks].
    apply lookup_insert_eq.
  - reflexivity.
Qed.

Lemma render_section_failures_witness :
  (exists calls e,
     render_section Examples.failing_engine Examples.benefits_section Examples.glowboost
     = (calls, Raise e)) /\
  (exists calls r,
     render_section Examples.price_engine Examples.pricing_section Examples.glowboost
     = (calls, Ok r) /\
     In "comparison_block" calls /\
     forall b, In b (rs_blocks r) -> rb_name b <> "comparison_block") /\
  render_section Examples.price_engine Examples.extras_section Examples.glowboost
  = (["comparison_block"], Ok {| rs_section_name := "extras"; rs_blocks := [] |}).
Proof.
  split; [|split].
  - apply (proj1 (render_section_failures Examples.failing_engine
                    Examples.benefits_section Examples.glowboost) "benefit_block").
    + left. reflexivity.
    + exact benefit_block_raises.
  - destruct (proj1 (proj2 (render_section_failures Examples.price_engine
                              Examples.pricing_section Examples.glowboost))
                price_block_does_not_raise) as (calls & r & Hr & _ & Hopt).
    exists calls, r. split; [exact Hr|].
    apply (Hopt "comparison_block"); [left; reflexivity | exact comparison_block_raises].
  - apply (proj2 (proj2 (render_section_failures Examples.price_engine
                           Examples.extras_section Examples.glowboost))
             "comparison_block"); [reflexivity | reflexivity | exact comparison_block_raises].
Defined.

Lemma render_section_required_entries_witness :
  (exists req opt,
     render_section Examples.price_engine Examples.pricing_section Examples.glowboost =
     (["price_block"; "comparison_block"],
      Ok {| rs_section_name := "pricing"; rs_blocks := (req ++ opt)%list |}) /\
     map rb_name req = ["price_block"] /\
     Forall (fun b => rb_required b = true) req) /\
  render_section Examples.guarded_engine Examples.summary_section Examples.glowboost =
  (["price_block"; "benefit_block"], Raise (Exception "benefit block failed")).
Proof.
  split.
  - destruct (proj1 (render_section_required_entries Examples.price_engine
                       Examples.pricing_section Examples.glowboost))
      as (req & opt & Hr & Hnames & Hreq & _).
    + intros name Hin. apply price_block_does_not_raise.
      vm_compute in Hin. exact Hin.
    + exists req, opt. split; [exact Hr|]. split; [exact Hnames|].
      apply List.Forall_forall. intros b Hb.
      exact (proj1 (proj1 (List.Forall_forall _ _) Hreq b Hb)).
  - apply (proj1 (proj2 (render_section_required_entries Examples.guarded_engine
                           Examples.summary_section Examples.glowboost))
             ["price_block"] "benefit_block" ["comparison_block"]
             (fun _ => Raise (Exception "benefit block failed"))).
    + reflexivity.
    + intros n [<- | []] (f & e & Hf & He).
      unfold Examples.guarded_engine, Examples.price_engine, register_block in Hf.
      cbn [registered_blocks] in Hf.
      rewrite !lookup_insert_ne in Hf by discriminate.
      rewrite lookup_insert_eq in Hf. injection Hf as <-.
      vm_compute in He. discriminate He.
    + unfold Examples.guarded_engine, register_block. cbn [registered_blocks].
      apply lookup_insert_eq.
    + reflexivity.
Defined.

(** C6, as stated, fails on an engine that has no block registered: the
    section lists one required block and is rendered with none. *)
Lemma render_section_skips_unregistered :
  ~ renders_all_required (new_engine : Engine PriceBlock.PriceContent)
      Examples.benefits_section Examples.glowboost.
Proof.
  intros (calls & r & Hr & Hnames).
  vm_compute in Hr. injection Hr as <- <-. discriminate Hnames.
Qed.

End TemplateFacts.

(* ===================================================================== *)
(** * The FAQ answering step                                              *)
(* ===================================================================== *)

Module FaqFacts.
Import Product Question FaqGenerator Spec StringFacts.

Section WithBuiltins.
Context `{Builtins}.

(** The branch of the fallback answer that each category takes. *)
Lemma fallback_answer_by_category (p : ProductModel) (q : QuestionModel) :
  _generate_fallback_answer p q =
  match category q with
  | cat_usage =>
      "This product should be used as follows: " ++ Product.usage p ++
      ". Apply consistently for best results."
  | cat_safety =>
      "Safety information: " ++ side_effects p ++
      ". Always perform a patch test before full application."
  | cat_ingredients =>
      "This product contains: " ++ join ", " (Product.ingredients p) ++
      ". Each ingredient has been selected for its benefits."
  | cat_purchase =>
      "This product is priced at " ++ ComparisonBlock.rupee ++ str_of_float (price p) ++
      ", offering excellent value for its formulation."
  | cat_informational | cat_comparison =>
      name p ++ " is designed for " ++ join ", " (skin_types p) ++
      " skin types. Please review the product information for more details."
  end.
Proof. unfold _generate_fallback_answer. destruct (category q); reflexivity. Qed.

Lemma len_prefix_bound (a b : string) (n : nat) :
  (n <= len a)%nat -> (n <= len (a ++ b))%nat.
Proof. rewrite len_app. lia. Qed.

Lemma len_suffix_bound (a b : string) (n : nat) :
  (n <= len b)%nat -> (n <= len (a ++ b))%nat.
Proof. rewrite len_app. lia. Qed.

(** Every fallback answer has the twenty characters that
    [QuestionAnswerModel] asks for. *)
Lemma fallback_answer_long (p : ProductModel) (q : QuestionModel) :
  (20 <= len (_generate_fallback_answer p q))%nat.
Proof.
  rewrite fallback_answer_by_category.
  destruct (category q).
  - do 3 apply len_suffix_bound. vm_compute. lia.
  - apply len_prefix_bound. vm_compute. lia.
  - apply len_prefix_bound. vm_compute. lia.
  - apply len_prefix_bound. vm_compute. lia.
  - do 3 apply len_suffix_bound. vm_compute. lia.
  - apply len_prefix_bound. vm_compute. lia.
Qed.

Lemma fallback_qa_valid (p : ProductModel) (q : QuestionModel) :
  QuestionAnswerModel_new (question q) (_generate_fallback_answer p q)
    (category_str (category q)) = Ok (fallback_qa p q).
Proof.
  unfold QuestionAnswerModel_new.
  pose proof (fallback_answer_long p q) as Hlen.
  destruct (Nat.ltb_spec (len (_generate_fallback_answer p q)) 20); [lia | reflexivity].
Qed.

(** The loop of [_generate_answers] never raises. *)
Lemma answers_loop_spec (p : ProductModel) (qs : list QuestionModel)
    (acc : list QuestionAnswerModel) :
  answers_loop p qs acc = Ok (acc ++ map (fallback_qa p) qs)%list.
Proof.
  revert acc. induction qs as [|q qs IH]; intros acc; cbn [answers_loop map].
  - now rewrite app_nil_r.
  - rewrite fallback_qa_valid. cbn [bind]. rewrite IH. unfold append.
    now rewrite <- app_assoc.
Qed.

(** C10.  With a client that can be built, [_generate_answers] returns
    one record per question, in order, whose answer is the fallback answer
    of the question's category: the same list whether the LLM call returns a
    text or raises, so that two runs with different LLM replies give the
    same answers.  Without an API key the step raises before any call. *)
Theorem faq_answers_ignore_llm_reply (p : ProductModel) (qs : list QuestionModel) :
  (forall llm : LLM,
     get_llm (H := llm) = Ok tt ->
     _generate_answers (H0 := llm) p qs = Ok (map (fallback_qa p) qs)) /\
  (forall llm llm' : LLM,
     get_llm (H := llm) = Ok tt -> get_llm (H := llm') = Ok tt ->
     _generate_answers (H0 := llm) p qs = _generate_answers (H0 := llm') p qs) /\
  (forall (llm : LLM) e,
     get_llm (H := llm) = Raise e -> _generate_answers (H0 := llm) p qs = Raise e).
Proof.
  assert (Hone : forall llm : LLM,
     get_llm (H := llm) = Ok tt ->
     _generate_answers (H0 := llm) p qs = Ok (map (fallback_qa p) qs)).
  { intros llm Hkey. unfold _generate_answers. rewrite Hkey. cbn [bind].
    destruct (llm_answers p qs) as [content|e]; cbn [bind try_except];
      rewrite answers_loop_spec; reflexivity. }
  split; [exact Hone|]. split.
  - intros llm llm' Hk Hk'. now rewrite (Hone llm Hk), (Hone llm' Hk').
  - intros llm e Hk. unfold _generate_answers. rewrite Hk. reflexivity.
Qed.

End WithBuiltins.

Lemma faq_answers_ignore_llm_reply_witness :
  get_llm (H := Examples.answering_llm) = Ok tt /\
  get_llm (H := Examples.failing_llm) = Ok tt /\
  _generate_answers (H := Examples.plain_builtins) (H0 := Examples.answering_llm)
    Examples.glowboost Examples.sample_questions =
  _generate_answers (H := Examples.plain_builtins) (H0 := Examples.failing_llm)
    Examples.glowboost Examples.sample_questions /\
  _generate_answers (H := Examples.plain_builtins) (H0 := Examples.answering_llm)
    Examples.glowboost Examples.sample_questions =
  Ok (map (fallback_qa (H := Examples.plain_builtins) Examples.glowboost)
        Examples.sample_questions).
Proof.
  split; [reflexivity|]. split; [reflexivity|]. split.
  - apply (proj1 (proj2 (faq_answers_ignore_llm_reply (H := Examples.plain_builtins)
                           Examples.glowboost Examples.sample_questions)));
      reflexivity.
  - apply (proj1 (faq_answers_ignore_llm_reply (H := Examples.plain_builtins)
                    Examples.glowboost Examples.sample_questions)).
    reflexivity.
Defined.

End FaqFacts.

(* ===================================================================== *)
(** * The workflow and its error gate                                     *)
(* ===================================================================== *)

Module GraphFacts.
Import Product Question State Agents Graph.

Section WithEnvironment.
Context `{Builtins} `{LLM}.
Variable ProductPageModel : Type.
Variable build_product_page : ProductModel -> Result ProductPageModel.
Variable _generate_fictional_product : ProductModel -> Result (option ProductModel).
Variable utcnow : string.


Lemma add_error_pages (state : State.SystemState ProductPageModel) (msg : string) :
  pages (add_error state msg) = pages state.
Proof. reflexivity. Qed.

Lemma log_append_pages (state : State.SystemState ProductPageModel) (entry : string) :
  pages (log_append state entry) = pages state.
Proof. reflexivity. Qed.

(** The first two agents leave the page fields alone. *)
Lemma data_parser_agent_pages (state : State.SystemState ProductPageModel) :
  pages (data_parser_agent ProductPageModel state) = pages state.
Proof.
  unfold data_parser_agent.
  destruct (ProductModel_new _) as [p|[]]; reflexivity.
Qed.

Lemma question_generator_agent_pages (state : State.SystemState ProductPageModel) :
  pages (question_generator_agent ProductPageModel state) = pages state.
Proof.
  unfold question_generator_agent.
  destruct (product state) as [p|]; [|reflexivity].
  destruct (let* llm := get_llm in _) as [qs|e]; reflexivity.
Qed.

Lemma state_after_questions_pages (raw : RawProduct) :
  pages (state_after_questions ProductPageModel raw) = (None, None, None).
Proof.
  unfold state_after_questions.
  rewrite question_generator_agent_pages, data_parser_agent_pages. reflexivity.
Qed.

(** The gate: [error] exactly when the error list is non-empty or the
    questions are absent; it leaves the page fields alone. *)
Lemma gate_decision (state : State.SystemState ProductPageModel) :
  (fst (should_continue_after_questions ProductPageModel state) = error <->
     get_list (errors state) <> [] \/ questions state = None) /\
  (fst (should_continue_after_questions ProductPageModel state) = continue <->
     get_list (errors state) = [] /\ questions state <> None) /\
  pages (snd (should_continue_after_questions ProductPageModel state)) = pages state /\
  (fst (should_continue_after_questions ProductPageModel state) = continue ->
   snd (should_continue_after_questions ProductPageModel state) = state).
Proof.
  unfold should_continue_after_questions.
  destruct (get_list (errors state)) as [|e es] eqn:E; cbn [length Nat.ltb Nat.leb].
  - destruct (questions state) as [qs|]; cbn [fst snd].
    + split; [split; [discriminate | intros [Hc | Hc]; [contradiction | discriminate]]|].
      split; [split; [intros _; split; [reflexivity | discriminate] | reflexivity]|].
      split; reflexivity.
    + split; [split; [intros _; right; reflexivity | reflexivity]|].
      split; [split; [discriminate | intros [_ Hc]; contradiction]|].
      split; [reflexivity | discriminate].
  - cbn [fst snd].
    split; [split; [intros _; left; discriminate | reflexivity]|].
    split; [split; [discriminate | intros [Hc _]; discriminate]|].
    split; [reflexivity | discriminate].
Qed.

(** The run of the graph, by the decision of the gate: the state goes on
    as [generate_questions] left it. *)
Lemma execute_workflow_unfold (raw : RawProduct) :
  let s2 := state_after_questions ProductPageModel raw in
  execute_workflow ProductPageModel build_product_page _generate_fictional_product
    utcnow raw =
  match fst (should_continue_after_questions ProductPageModel s2) with
  | error => Some ([parse_data; generate_questions], s2)
  | continue =>
      Some ([parse_data; generate_questions; generate_faq;
             generate_product_page; generate_comparison],
            after_gate ProductPageModel build_product_page _generate_fictional_product utcnow s2)
  end.
Proof.
  cbv zeta. unfold execute_workflow, invoke, recursion_limit, state_after_questions.
  cbn [run step create_workflow_graph entry_point node edge conditional_edges append app].
  destruct (fst (should_continue_after_questions ProductPageModel _)); reflexivity.
Qed.

(** C2.  Every run of the workflow ends.  The gate is evaluated on the
    state left by [generate_questions]: if its error list is non-empty or
    its questions are absent, the run ends there, after [parse_data] and
    [generate_questions] only, and the final state has no FAQ page, no
    product page and no comparison page; otherwise the run goes on through
    [generate_faq], [generate_product_page] and [generate_comparison], in
    this order. *)
Theorem workflow_error_gate (raw : RawProduct) :
  let s2 := state_after_questions ProductPageModel raw in
  exists ran final,
    execute_workflow ProductPageModel build_product_page _generate_fictional_product
      utcnow raw = Some (ran, final) /\
    ((get_list (errors s2) <> [] \/ questions s2 = None) ->
       fst (should_continue_after_questions ProductPageModel s2) = error /\
       ran = [parse_data; generate_questions] /\
       ~ In generate_faq ran /\
       ~ In generate_product_page ran /\
       ~ In generate_comparison ran /\
       faq_page final = None /\
       product_page final = None /\
       comparison_page final = None) /\
    (~ (get_list (errors s2) <> [] \/ questions s2 = None) ->
       fst (should_continue_after_questions ProductPageModel s2) = continue /\
       ran = [parse_data; generate_questions; generate_faq;
              generate_product_page; generate_comparison] /\
       final = after_gate ProductPageModel build_product_page _generate_fictional_product
                 utcnow s2).
Proof.
  cbv zeta. rewrite execute_workflow_unfold. cbv zeta.
  set (s2 := state_after_questions ProductPageModel raw).
  destruct (gate_decision s2) as (Gerr & Gcont & _ & _).
  pose proof (state_after_questions_pages raw) as Hpages. fold s2 in Hpages.
  destruct (fst (should_continue_after_questions ProductPageModel s2)) eqn:Eg.
  - eexists _, _. split; [reflexivity|]. split.
    + intros Herr. apply Gerr in Herr. discriminate.
    + intros _. split; [reflexivity|]. split; reflexivity.
  - eexists _, _. split; [reflexivity|]. split.
    + intros _. unfold pages in Hpages.
      injection Hpages as Hf Hp Hc.
      split; [reflexivity|]. split; [reflexivity|].
      repeat split; try assumption;
        intros Hin; simpl in Hin; intuition discriminate.
    + intros Hno. exfalso. apply Hno. apply Gerr. reflexivity.
Qed.

End WithEnvironment.

Lemma workflow_error_gate_witness :
  (let s2 := state_after_questions (H := Examples.plain_builtins)
               (H0 := Examples.no_key_llm) unit Examples.glowboost_raw in
   (get_list (errors s2) <> [] \/ questions s2 = None) /\
   exists final,
     execute_workflow (H := Examples.plain_builtins) (H0 := Examples.no_key_llm)
       unit (fun _ => Ok tt) Examples.competitor "2024-01-15T10:30:00"
       Examples.glowboost_raw
     = Some ([parse_data; generate_questions], final) /\
     faq_page final = None /\ product_page final = None /\
     comparison_page final = None) /\
  (let s2 := state_after_questions (H := Examples.plain_builtins)
               (H0 := Examples.answering_llm) unit Examples.glowboost_raw in
   ~ (get_list (errors s2) <> [] \/ questions s2 = None) /\
   exists final,
     execute_workflow (H := Examples.plain_builtins) (H0 := Examples.answering_llm)
       unit (fun _ => Ok tt) Examples.competitor "2024-01-15T10:30:00"
       Examples.glowboost_raw
     = Some ([parse_data; generate_questions; generate_faq;
              generate_product_page; generate_comparison], final)).
Proof.
  split.
  - cbv zeta.
    assert (Herr : get_list (errors (state_after_questions (H := Examples.plain_builtins)
                     (H0 := Examples.no_key_llm) unit Examples.glowboost_raw)) <> [] \/
                   questions (state_after_questions (H := Examples.plain_builtins)
                     (H0 := Examples.no_key_llm) unit Examples.glowboost_raw) = None).
    { left. vm_compute. discriminate. }
    split; [exact Herr|].
    destruct (workflow_error_gate (H := Examples.plain_builtins)
                (H0 := Examples.no_key_llm) unit (fun _ => Ok tt) Examples.competitor
                "2024-01-15T10:30:00" Examples.glowboost_raw)
      as (ran & final & Hrun & Hhalt & _).
    destruct (Hhalt Herr) as (_ & -> & _ & _ & _ & Hf & Hp & Hc).
    exists final. split; [exact Hrun|]. split; [exact Hf|]. split; [exact Hp | exact Hc].
  - cbv zeta.
    assert (Hfine : ~ (get_list (errors (state_after_questions (H := Examples.plain_builtins)
                     (H0 := Examples.answering_llm) unit Examples.glowboost_raw)) <> [] \/
                   questions (state_after_questions (H := Examples.plain_builtins)
                     (H0 := Examples.answering_llm) unit Examples.glowboost_raw) = None)).
    { vm_compute. intros [Hc | Hc]; [apply Hc; reflexivity | discriminate Hc]. }
    split; [exact Hfine|].
    destruct (workflow_error_gate (H := Examples.plain_builtins)
                (H0 := Examples.answering_llm) unit (fun _ => Ok tt) Examples.competitor
                "2024-01-15T10:30:00" Examples.glowboost_raw)
      as (ran & final & Hrun & _ & Hgo).
    destruct (Hgo Hfine) as (_ & -> & _).
    exists final. exact Hrun.
Defined.

End GraphFacts.

(* ===================================================================== *)
(** * Product construction: the error report and the round trip           *)
(* ===================================================================== *)

Module ProductExtras.
Import Product Spec Vocabulary StringFacts.

Lemma offending_text (fname : string) (v : option string) :
  offending fname (field v validate_non_empty_string) = unless (good_text v) fname.
Proof.
  destruct v as [s|]; [|reflexivity].
  unfold offending, unless, good_text, field, validate_non_empty_string.
  destruct (is_empty s) eqn:Es.
  - destruct s; [|discriminate]. reflexivity.
  - simpl. destruct (is_empty (strip s)); reflexivity.
Qed.

Lemma offending_list (fname : string) (v : option (list string)) :
  offending fname (field v validate_non_empty_list) = unless (good_list v) fname.
Proof. destruct v as [[|x l]|]; reflexivity. Qed.

Lemma offending_price (fname : string) (v : option float) :
  offending fname (field v validate_gt_0) = unless (good_price v) fname.
Proof.
  destruct v as [x|]; [|reflexivity].
  unfold offending, unless, good_price, field, validate_gt_0.
  destruct (fgt x (lit 0)); reflexivity.
Qed.

Lemma offending_ok {A : Type} (fname : string) (r : Result A) :
  offending fname r = [] -> exists v, r = Ok v.
Proof. destruct r as [v|e]; [eexists; reflexivity | discriminate]. Qed.

(** X1.  The report of a failed construction: the fields named by the
    validation error are exactly the unacceptable arguments (missing,
    blank text, empty list, price not above zero), each once and in the
    order of the model's fields; and construction succeeds exactly when
    there is none. *)
Theorem product_validation_error_fields (raw : RawProduct) :
  ((exists p, ProductModel_new raw = Ok p) <-> bad_fields raw = []) /\
  (forall e, ProductModel_new raw = Raise e ->
     e = ValidationError (bad_fields raw) /\ bad_fields raw <> []).
Proof.
  unfold bad_fields.
  rewrite <- !offending_text, <- !offending_list, <- offending_price.
  unfold ProductModel_new.
  destruct (field (raw_name raw) _) as [?|?];
  destruct (field (raw_concentration raw) _) as [?|?];
  destruct (field (raw_skin_types raw) _) as [?|?];
  destruct (field (raw_ingredients raw) _) as [?|?];
  destruct (field (raw_benefits raw) _) as [?|?];
  destruct (field (raw_usage raw) _) as [?|?];
  destruct (field (raw_side_effects raw) _) as [?|?];
  destruct (field (raw_price raw) _) as [?|?];
  (split;
   [ split; [ intros [p Hp]; first [reflexivity | discriminate Hp]
            | intros H; first [eexists; reflexivity | discriminate H] ]
   | intros err Herr; first [discriminate Herr | injection Herr as <-; split; [reflexivity | discriminate]] ]).
Qed.

Lemma product_validation_error_fields_witness :
  ProductModel_new Examples.no_skin_type_raw = Raise (ValidationError ["skin_types"]) /\
  ValidationError ["skin_types"] = ValidationError (bad_fields Examples.no_skin_type_raw).
Proof.
  split; [reflexivity|].
  apply (proj2 (product_validation_error_fields Examples.no_skin_type_raw)
           (ValidationError ["skin_types"]) eq_refl).
Defined.

Lemma validate_text_fixpoint (s : string) :
  s <> EmptyString -> strip s = s -> validate_non_empty_string s = Ok s.
Proof.
  intros Hne Hs. unfold validate_non_empty_string. rewrite Hs.
  apply is_empty_false in Hne. rewrite Hne. reflexivity.
Qed.

Lemma validate_list_fixpoint (l : list string) :
  l <> [] -> validate_non_empty_list l = Ok l.
Proof. destruct l; [congruence | reflexivity]. Qed.

(** X2.  Round trip: the fields of a product that construction accepted are
    accepted again and give back the same product, so validating is
    idempotent (the stripped texts are not stripped further). *)
Theorem product_revalidation (raw : RawProduct) (p : ProductModel) :
  ProductModel_new raw = Ok p -> ProductModel_new (raw_of p) = Ok p.
Proof.
  intros Hok.
  destruct (ProductFacts.ProductModel_new_ok raw p Hok)
    as (Hn & Hc & Hst & Hi & Hb & Hu & Hse & Hp).
  apply ProductFacts.field_ok in Hn, Hc, Hst, Hi, Hb, Hu, Hse, Hp.
  destruct Hn as (vn & _ & Hn), Hc as (vc & _ & Hc), Hst as (vst & _ & Hst),
           Hi as (vi & _ & Hi), Hb as (vb & _ & Hb), Hu as (vu & _ & Hu),
           Hse as (vse & _ & Hse), Hp as (vp & _ & Hp).
  apply ProductFacts.validate_non_empty_string_ok in Hn, Hc, Hu, Hse.
  apply ProductFacts.validate_non_empty_list_ok in Hst, Hi, Hb.
  apply ProductFacts.validate_gt_0_ok in Hp.
  unfold ProductModel_new, raw_of, field. cbn [raw_name raw_concentration
    raw_skin_types raw_ingredients raw_benefits raw_usage raw_side_effects raw_price].
  rewrite (validate_text_fixpoint (name p)) by tauto.
  rewrite (validate_text_fixpoint (concentration p)) by tauto.
  rewrite (validate_text_fixpoint (usage p)) by tauto.
  rewrite (validate_text_fixpoint (side_effects p)) by tauto.
  rewrite !validate_list_fixpoint by tauto.
  unfold validate_gt_0. destruct Hp as [_ ->].
  destruct p; reflexivity.
Qed.

Lemma product_revalidation_witness :
  ProductModel_new Examples.glowboost_raw = Ok Examples.glowboost /\
  ProductModel_new (raw_of Examples.glowboost) = Ok Examples.glowboost.
Proof.
  split; [reflexivity|].
  apply (product_revalidation Examples.glowboost_raw). reflexivity.
Defined.

End ProductExtras.

(* ===================================================================== *)
(** * The comparison block: the other rows, and the two sides exchanged    *)
(* ===================================================================== *)

Module ComparisonExtras.
Import Product ComparisonBlock Spec Vocabulary FloatFacts StringFacts.

Lemma list_to_set_nodup (l : list string) :
  (list_to_set (nodup string_dec l) : gset string) = list_to_set l.
Proof.
  apply set_eq. intros x. rewrite !elem_of_list_to_set, !list_elem_of_In.
  apply nodup_In.
Qed.

(** The size of the set of a list is the number of its distinct entries. *)
Lemma size_list_to_set_distinct (l : list string) :
  size (list_to_set l : gset string) = distinct l.
Proof.
  unfold distinct. rewrite <- list_to_set_nodup.
  apply size_list_to_set, NoDup_ListNoDup, List.NoDup_nodup.
Qed.

Lemma gtb_swap_cases (x y : Z) :
  ((x >? y) = true /\ (y >? x) = false /\ x > y) \/
  ((x >? y) = false /\ (y >? x) = true /\ x < y) \/
  ((x >? y) = false /\ (y >? x) = false /\ x = y).
Proof.
  destruct (Z.gtb_spec x y), (Z.gtb_spec y x);
    first [ exfalso; lia
          | left; repeat split; lia
          | right; left; repeat split; lia
          | right; right; repeat split; lia ].
Qed.

Section WithBuiltins.
Context `{Builtins}.

(** X3.  The skin-type row: the winner is the product that lists more
    DISTINCT skin types (a type listed twice counts once), a tie when both
    list as many, and the verdict reports the larger number. *)
Theorem compare_skin_types_by_distinct (a b : ProductModel) :
  let r := _compare_skin_types a b in
  let na := distinct (skin_types a) in
  let nb := distinct (skin_types b) in
  (winner r = "product_a" <-> (nb < na)%nat) /\
  (winner r = "product_b" <-> (na < nb)%nat) /\
  (winner r = "tie" <-> na = nb) /\
  verdict r =
    (if (nb <? na)%nat then "Suitable for " ++ str_of_int (Z.of_nat na) ++ " skin types"
     else if (na <? nb)%nat then "Suitable for " ++ str_of_int (Z.of_nat nb) ++ " skin types"
     else "Both suitable for " ++ str_of_int (Z.of_nat na) ++ " skin types").
Proof.
  cbv zeta. unfold _compare_skin_types. cbn [winner verdict].
  rewrite !size_list_to_set_distinct.
  set (na := distinct (skin_types a)). set (nb := distinct (skin_types b)).
  destruct (Nat.ltb_spec nb na) as [L1|L1]; [|destruct (Nat.ltb_spec na nb) as [L2|L2]];
    destruct (gtb_swap_cases (Z.of_nat na) (Z.of_nat nb))
      as [(-> & E & Hc) | [(-> & E & Hc) | (-> & E & Hc)]]; try lia;
    try rewrite E; cbn [fst snd];
    repeat split; try reflexivity; try discriminate; intros; lia.
Qed.

(** X4.  The benefits row: the winner is the product whose list of benefits is
    longer, entry by entry (a benefit listed twice counts twice), a tie
    when the lists are as long. *)
Theorem compare_benefits_by_length (a b : ProductModel) :
  let r := _compare_benefits a b in
  let na := length (benefits a) in
  let nb := length (benefits b) in
  (winner r = "product_a" <-> (nb < na)%nat) /\
  (winner r = "product_b" <-> (na < nb)%nat) /\
  (winner r = "tie" <-> na = nb) /\
  product_a r = str_of_int (Z.of_nat na) ++ " benefits" /\
  product_b r = str_of_int (Z.of_nat nb) ++ " benefits".
Proof.
  cbv zeta. unfold _compare_benefits. cbn [winner product_a product_b].
  set (na := length (benefits a)). set (nb := length (benefits b)).
  destruct (gtb_swap_cases (Z.of_nat na) (Z.of_nat nb))
    as [(-> & E & Hc) | [(-> & E & Hc) | (-> & E & Hc)]];
    try rewrite E; cbn [fst snd];
    repeat split; try reflexivity; try discriminate; intros; lia.
Qed.

Lemma skin_types_flip (a b : ProductModel) :
  winner (_compare_skin_types b a) = flip_tag (winner (_compare_skin_types a b)).
Proof.
  unfold _compare_skin_types. cbn [winner].
  destruct (gtb_swap_cases (Z.of_nat (size (list_to_set (skin_types a) : gset string)))
                           (Z.of_nat (size (list_to_set (skin_types b) : gset string))))
    as [(-> & -> & _) | [(-> & -> & _) | (-> & -> & _)]]; reflexivity.
Qed.

Lemma benefits_flip (a b : ProductModel) :
  winner (_compare_benefits b a) = flip_tag (winner (_compare_benefits a b)).
Proof.
  unfold _compare_benefits. cbn [winner].
  destruct (gtb_swap_cases (Z.of_nat (length (benefits a))) (Z.of_nat (length (benefits b))))
    as [(-> & -> & _) | [(-> & -> & _) | (-> & -> & _)]]; reflexivity.
Qed.

Lemma safety_flip (a b : ProductModel) :
  winner (_compare_safety b a) = flip_tag (winner (_compare_safety a b)).
Proof.
  unfold _compare_safety. cbn [winner].
  destruct (contains "mild" (lower (side_effects a))),
           (contains "mild" (lower (side_effects b))); reflexivity.
Qed.

Lemma price_flip (d d' : float) (n : Z) :
  mirror d d' -> int_of_float d = Ok n -> price_winner d' = flip_tag (price_winner d).
Proof.
  intros Hm Hn.
  destruct (ComparisonFacts.price_row_mirror d d' n Hm Hn)
    as [(-> & -> & _) | [(-> & -> & _) | (-> & -> & _)]]; reflexivity.
Qed.

Lemma count_flip_a (ws : list string) :
  count_occ string_dec (map flip_tag ws) "product_a" = count_occ string_dec ws "product_b".
Proof.
  induction ws as [|w ws IH]; [reflexivity|]. cbn [map count_occ]. rewrite IH.
  unfold flip_tag.
  destruct (String.eqb_spec w "product_a") as [->|Na]; [reflexivity|].
  destruct (String.eqb_spec w "product_b") as [->|Nb]; [reflexivity|].
  destruct (string_dec w "product_a"), (string_dec w "product_b"); congruence.
Qed.

Lemma count_flip_b (ws : list string) :
  count_occ string_dec (map flip_tag ws) "product_b" = count_occ string_dec ws "product_a".
Proof.
  induction ws as [|w ws IH]; [reflexivity|]. cbn [map count_occ]. rewrite IH.
  unfold flip_tag.
  destruct (String.eqb_spec w "product_a") as [->|Na]; [reflexivity|].
  destruct (String.eqb_spec w "product_b") as [->|Nb]; [reflexivity|].
  destruct (string_dec w "product_a"), (string_dec w "product_b"); congruence.
Qed.

Lemma count_flip_other (tag : string) (ws : list string) :
  tag <> "product_a" -> tag <> "product_b" ->
  count_occ string_dec (map flip_tag ws) tag = count_occ string_dec ws tag.
Proof.
  intros Ha Hb. induction ws as [|w ws IH]; [reflexivity|]. cbn [map count_occ]. rewrite IH.
  unfold flip_tag.
  destruct (String.eqb_spec w "product_a") as [->|Na];
    [destruct (string_dec "product_b" tag), (string_dec "product_a" tag); congruence|].
  destruct (String.eqb_spec w "product_b") as [->|Nb];
    [destruct (string_dec "product_b" tag), (string_dec "product_a" tag); congruence|].
  reflexivity.
Qed.

(** Scores of a matrix whose winner tags are those of another one seen
    from the other side. *)
Lemma scores_flip (m m' : list Dimension) :
  map winner m' = map flip_tag (map winner m) ->
  product_a_wins (_calculate_scores m') = product_b_wins (_calculate_scores m) /\
  product_b_wins (_calculate_scores m') = product_a_wins (_calculate_scores m) /\
  ties (_calculate_scores m') = ties (_calculate_scores m) /\
  total_dimensions (_calculate_scores m') = total_dimensions (_calculate_scores m).
Proof.
  intros Hw. unfold _calculate_scores.
  cbn [product_a_wins product_b_wins ties total_dimensions].
  rewrite !ComparisonFacts.sum_ones_length, !ComparisonFacts.filter_tag_tally,
          !ComparisonFacts.filter_ties_tally.
  unfold tally. rewrite Hw, count_flip_a, count_flip_b.
  rewrite !count_flip_other by discriminate.
  repeat split.
  apply (f_equal (@length string)) in Hw. rewrite !length_map in Hw. now rewrite Hw.
Qed.

(** X5.  Presenting the two products in the other order: both calls raise or
    both return; when they return, every row keeps its dimension, the
    rows won by one side are won by the other (ties and contextual rows
    stay), so the two win counts change places and the number of ties is
    the same. *)
Theorem comparison_block_swap (a b : ProductModel) :
  match generate_comparison_block a b, generate_comparison_block b a with
  | Ok r, Ok r' =>
      map dimension (matrix r') = map dimension (matrix r) /\
      map winner (matrix r') = map flip_tag (map winner (matrix r)) /\
      product_a_wins (scores r') = product_b_wins (scores r) /\
      product_b_wins (scores r') = product_a_wins (scores r) /\
      ties (scores r') = ties (scores r)
  | Raise _, Raise _ => True
  | _, _ => False
  end.
Proof.
  unfold generate_comparison_block.
  destruct (ComparisonFacts.compare_price_unfold a b) as [pct [_ ->]].
  destruct (ComparisonFacts.compare_price_unfold b a) as [pct' [_ ->]].
  pose proof (fsub_swap (price a) (price b)) as Hm.
  fold (price_diff a b) in Hm. fold (price_diff b a) in Hm.
  pose proof (int_of_float_mirror _ _ Hm) as Hint.
  destruct (int_of_float (price_diff a b)) as [n|e] eqn:En;
    destruct (int_of_float (price_diff b a)) as [n'|e'] eqn:En'; try exact Hint.
  cbn [bind matrix scores].
  match goal with
  | |- _ /\ ?W /\ _ => assert (Hw : W)
  end.
  { cbn [map winner]. rewrite (price_flip _ _ n Hm En).
    rewrite skin_types_flip, benefits_flip, safety_flip. reflexivity. }
  split; [reflexivity|]. split; [exact Hw|].
  destruct (scores_flip _ _ Hw) as (Ha & Hb & Ht & _).
  repeat split; assumption.
Qed.

(** X6.  The concentration and the ingredients rows are never won: of the six
    rows of a comparison at least two count as ties and at most four are
    won, and the summary names the product that won more rows, with a
    number of rows between 1 and 4, or calls the products competitive when
    both won as many. *)
Theorem comparison_block_bounds (a b : ProductModel) (r : Comparison) :
  generate_comparison_block a b = Ok r ->
  let s := scores r in
  2 <= ties s /\ product_a_wins s + product_b_wins s <= 4 /\
  ((product_a_wins s > product_b_wins s /\ 1 <= product_a_wins s <= 4 /\
    summary r = name a ++ " leads in " ++ str_of_int (product_a_wins s) ++
                " out of " ++ str_of_int 6 ++ " dimensions") \/
   (product_b_wins s > product_a_wins s /\ 1 <= product_b_wins s <= 4 /\
    summary r = name b ++ " leads in " ++ str_of_int (product_b_wins s) ++
                " out of " ++ str_of_int 6 ++ " dimensions") \/
   (product_a_wins s = product_b_wins s /\ product_a_wins s <= 2 /\
    summary r = "Both products are competitive across " ++ str_of_int 6 ++
                " key dimensions")).
Proof.
  unfold generate_comparison_block.
  destruct (_compare_price a b) as [row|e]; [|discriminate].
  cbn [bind]. intros [= <-]. cbn [scores summary]. cbv zeta.
  set (m := [row; _compare_concentration a b; _compare_skin_types a b;
             _compare_ingredients a b; _compare_benefits a b; _compare_safety a b]).
  assert (Hs : product_a_wins (_calculate_scores m) = Z.of_nat (tally "product_a" m) /\
               product_b_wins (_calculate_scores m) = Z.of_nat (tally "product_b" m) /\
               ties (_calculate_scores m) = Z.of_nat (tally "tie" m + tally "contextual" m) /\
               total_dimensions (_calculate_scores m) = 6).
  { unfold _calculate_scores.
    cbn [product_a_wins product_b_wins ties total_dimensions].
    rewrite !ComparisonFacts.sum_ones_length, !ComparisonFacts.filter_tag_tally,
            ComparisonFacts.filter_ties_tally.
    repeat split; reflexivity. }
  destruct Hs as (Ea & Eb & Et & En).
  pose proof (ComparisonFacts.tally_bound m) as Hbound.
  assert (Hctx : (2 <= tally "contextual" m)%nat).
  { unfold tally, m. cbn [map winner _compare_concentration _compare_ingredients count_occ].
    repeat match goal with
           | |- context [string_dec ?x ?y] => destruct (string_dec x y)
           end; try congruence; lia. }
  change (length m) with 6%nat in Hbound.
  unfold _generate_comparison_summary. rewrite En.
  split; [lia|]. split; [lia|].
  destruct (gtb_swap_cases (product_a_wins (_calculate_scores m))
                           (product_b_wins (_calculate_scores m)))
    as [(-> & E & Hc) | [(-> & E & Hc) | (-> & E & Hc)]]; try rewrite E.
  - left. repeat split; try lia.
  - right; left. repeat split; try lia.
  - right; right. repeat split; try lia.
Qed.

End WithBuiltins.

Lemma comparison_block_bounds_witness :
  exists r,
    generate_comparison_block (H := Examples.plain_builtins)
      Examples.product_500 Examples.product_700 = Ok r /\
    2 <= ties (scores r) /\
    product_a_wins (scores r) + product_b_wins (scores r) <= 4.
Proof.
  eexists. split; [vm_compute; reflexivity|].
  pose proof (comparison_block_bounds (H := Examples.plain_builtins)
                Examples.product_500 Examples.product_700 _ eq_refl) as Hb.
  cbv zeta in Hb. destruct Hb as (H1 & H2 & _). split; [exact H1 | exact H2].
Defined.

End ComparisonExtras.

(* ===================================================================== *)
(** * The price block: supply, bottle size, and the order of the tiers     *)
(* ===================================================================== *)

Module PriceExtras.
Import Product PriceBlock Spec Vocabulary FloatFacts StringFacts.

(** Below a bound is inherited downwards. *)
Lemma flt_fle_trans (x y : float) (m : positive) (e : Z) :
  fle x y = true -> flt y (S754_finite false m e) = true ->
  flt x (S754_finite false m e) = true.
Proof.
  unfold fle, flt, SFleb, SFltb.
  destruct x as [sx|sx| |sx mx ex], y as [sy|sy| |sy my ey];
    try destruct sx; try destruct sy; cbn [SFcompare];
    try discriminate; try (intros; reflexivity); try (intros _ Hy; exact Hy).
  fold (Pos.compare mx my). fold (Pos.compare my m). fold (Pos.compare mx m).
  destruct (Z.compare_spec ex ey) as [E1|E1|E1];
    destruct (Z.compare_spec ey e) as [E2|E2|E2];
    destruct (Z.compare_spec ex e) as [E3|E3|E3];
    try lia; try discriminate; try (intros; reflexivity).
  destruct (Pos.compare_spec mx my) as [M1|M1|M1];
    destruct (Pos.compare_spec my m) as [M2|M2|M2];
    destruct (Pos.compare_spec mx m) as [M3|M3|M3];
    try lia; try discriminate; try (intros; reflexivity).
Qed.

Lemma lit_finite_500 : exists m e, lit 500 = S754_finite false m e.
Proof. eexists _, _. reflexivity. Qed.

Lemma lit_finite_1000 : exists m e, lit 1000 = S754_finite false m e.
Proof. eexists _, _. reflexivity. Qed.

Lemma lit_finite_2000 : exists m e, lit 2000 = S754_finite false m e.
Proof. eexists _, _. reflexivity. Qed.

(** X7.  The tiers are ordered like the prices: a product that costs no more
    than another one is never placed in a higher tier. *)
Theorem positioning_monotone (x y : float) :
  fle x y = true ->
  (tier_rank (fst (price_positioning x)) <= tier_rank (fst (price_positioning y)))%nat.
Proof.
  intros Hle.
  assert (H500 : flt y (lit 500) = true -> flt x (lit 500) = true).
  { destruct lit_finite_500 as (m & e & ->). apply flt_fle_trans, Hle. }
  assert (H1000 : flt y (lit 1000) = true -> flt x (lit 1000) = true).
  { destruct lit_finite_1000 as (m & e & ->). apply flt_fle_trans, Hle. }
  assert (H2000 : flt y (lit 2000) = true -> flt x (lit 2000) = true).
  { destruct lit_finite_2000 as (m & e & ->). apply flt_fle_trans, Hle. }
  unfold price_positioning.
  destruct (flt y (lit 500)); [rewrite H500 by reflexivity; cbn; lia|].
  destruct (flt y (lit 1000));
    [rewrite H1000 by reflexivity; destruct (flt x (lit 500)); cbn; lia|].
  destruct (flt y (lit 2000));
    [rewrite H2000 by reflexivity;
     destruct (flt x (lit 500)); [cbn; lia|]; destruct (flt x (lit 1000)); cbn; lia|].
  destruct (flt x (lit 500)); [cbn; lia|].
  destruct (flt x (lit 1000)); [cbn; lia|].
  destruct (flt x (lit 2000)); cbn; lia.
Qed.

Lemma positioning_monotone_witness :
  fle (lit 699) (lit 1500) = true /\
  (tier_rank (fst (price_positioning (lit 699))) <=
   tier_rank (fst (price_positioning (lit 1500))))%nat.
Proof.
  split; [reflexivity|]. apply (positioning_monotone (lit 699) (lit 1500)). reflexivity.
Defined.

Section WithBuiltins.
Context `{Builtins}.

(** The block of the default bottle, with its supply by the tests on
    the usage text. *)
Lemma price_block_days (p : ProductModel) :
  fgt (price p) (lit 0) = true ->
  exists r,
    generate_price_block_default p = Ok r /\
    price_numeric r = price p /\
    bottle_size_ml r = 30 /\
    estimated_days_supply r =
      (if contains "twice" (lower (usage p)) ||
          contains "morning and evening" (lower (usage p))
       then 120 else 240).
Proof.
  intros Hp. unfold generate_price_block_default, generate_price_block.
  change (fdiv_int (price p) 30) with (Ok (A:=float) (SFdiv prec emax (price p) (lit 30))).
  cbn [bind].
  change (int_fdiv 30 (fmul lit_2_5 lit_0_05)) with (Ok (A:=float) (lit 240)).
  cbn [bind].
  set (cost := fmul (fmul lit_2_5 lit_0_05) (SFdiv prec emax (price p) (lit 30))).
  pose proof (PriceFacts.cost_per_use_sign (price p) Hp) as Hcost. fold cost in Hcost.
  destruct (contains "twice" (lower (usage p)) ||
            contains "morning and evening" (lower (usage p))).
  - change (fdiv_int (lit 240) 2) with (Ok (A:=float) (lit 120)). cbn [bind].
    destruct (PriceFacts.value_highlights_total p cost (lit 120) Hcost (or_intror eq_refl))
      as [hl Hhl].
    rewrite Hhl. cbn [bind].
    change (int_of_float (lit 120)) with (Ok (A:=Z) 120). cbn [bind].
    destruct (PriceFacts.investment_statement_total p (price p) (lit 120) eq_refl) as [s ->].
    cbn [bind]. eexists. repeat split.
  - change (fdiv_int (lit 240) 1) with (Ok (A:=float) (lit 240)). cbn [bind].
    destruct (PriceFacts.value_highlights_total p cost (lit 240) Hcost (or_introl eq_refl))
      as [hl Hhl].
    rewrite Hhl. cbn [bind].
    change (int_of_float (lit 240)) with (Ok (A:=Z) 240). cbn [bind].
    destruct (PriceFacts.investment_statement_total p (price p) (lit 240) eq_refl) as [s ->].
    cbn [bind]. eexists. repeat split.
Qed.

(** X8.  The bottle and the supply.  A bottle of 0 ml makes the block raise a
    [ZeroDivisionError] at the cost per ml, whatever the product.  For the
    default bottle of 30 ml and every price above zero the block returns,
    with the price of the product; the supply is 120 days when the usage
    text mentions "twice" or "morning and evening" in any mix of upper and
    lower case, and 240 days otherwise. *)
Theorem price_block_supply (p : ProductModel) :
  generate_price_block p 0 = Raise (ZeroDivisionError "float division by zero") /\
  (fgt (price p) (lit 0) = true ->
   exists r,
     generate_price_block_default p = Ok r /\
     price_numeric r = price p /\
     bottle_size_ml r = 30 /\
     (mentions "twice" (usage p) \/ mentions "morning and evening" (usage p) ->
      estimated_days_supply r = 120) /\
     (~ (mentions "twice" (usage p) \/ mentions "morning and evening" (usage p)) ->
      estimated_days_supply r = 240)).
Proof.
  split; [reflexivity|]. intros Hp.
  destruct (price_block_days p Hp) as (r & Hr & Hprice & Hbottle & Hdays).
  exists r. split; [exact Hr|]. split; [exact Hprice|]. split; [exact Hbottle|].
  rewrite Hdays.
  destruct (contains "twice" (lower (usage p))) eqn:E1;
    [|destruct (contains "morning and evening" (lower (usage p))) eqn:E2]; cbn [orb].
  - split; [reflexivity|]. intros Hno. exfalso. apply Hno. left.
    now apply contains_lower_mentions.
  - split; [reflexivity|]. intros Hno. exfalso. apply Hno. right.
    now apply contains_lower_mentions.
  - split; [|reflexivity]. intros [Hm | Hm]; apply contains_lower_mentions in Hm; congruence.
Qed.

End WithBuiltins.

Lemma price_block_supply_witness :
  fgt (price Examples.product_700) (lit 0) = true /\
  exists r,
    generate_price_block_default (H := Examples.plain_builtins) Examples.product_700 = Ok r /\
    estimated_days_supply r = 120.
Proof.
  split; [reflexivity|].
  destruct (proj2 (price_block_supply (H := Examples.plain_builtins) Examples.product_700)
              eq_refl) as (r & Hr & _ & _ & Htwice & _).
  exists r. split; [exact Hr|]. apply Htwice.
  left. exists "Apply ", "twice", " daily". split; reflexivity.
Defined.

End PriceExtras.

(* ===================================================================== *)
(** * The JSON object cut out of an LLM reply                              *)
(* ===================================================================== *)

Module JsonExtras.
Import Spec Vocabulary StringFacts Json.

Lemma str_app_assoc (a b c : string) : (a ++ b) ++ c = a ++ b ++ c.
Proof.
  induction a as [|x a IH]; [now rewrite !append_nil|].
  now rewrite !append_cons, IH.
Qed.

Lemma str_length_app (a b : string) :
  String.length (a ++ b) = (String.length a + String.length b)%nat.
Proof.
  induction a as [|x a IH]; [now rewrite append_nil|].
  rewrite append_cons. cbn [String.length]. now rewrite IH.
Qed.

Lemma has_tail (c x : ascii) (s : string) : has_char c s -> has_char c (String x s).
Proof.
  intros (pre & post & ->). exists (String x pre), post. now rewrite append_cons.
Qed.

Lemma has_cons_inv (c x : ascii) (s : string) :
  has_char c (String x s) -> x = c \/ has_char c s.
Proof.
  intros (pre & post & E). destruct pre as [|y pre].
  - rewrite append_nil in E. injection E as -> _. now left.
  - rewrite append_cons in E. injection E as _ ->. right. now exists pre, post.
Qed.

Lemma has_occurs (c : ascii) (s : string) :
  has_char c s <-> occurs (String c EmptyString) s.
Proof.
  unfold occurs. split; intros (pre & post & ->); exists pre, post;
    now rewrite append_cons, append_nil.
Qed.

(** The first and the last occurrence of a character. *)
Lemma first_split (c : ascii) (s : string) :
  ~ has_char c s \/ exists pre post, s = pre ++ String c post /\ ~ has_char c pre.
Proof.
  induction s as [|x s IH].
  - left. intros ([|y pre] & post & E);
      [rewrite append_nil in E | rewrite append_cons in E]; discriminate.
  - destruct (Ascii.eqb_spec x c) as [->|Hne].
    + right. exists EmptyString, s. split; [now rewrite append_nil|].
      intros ([|y pre] & post & E);
        [rewrite append_nil in E | rewrite append_cons in E]; discriminate.
    + destruct IH as [Hno | (pre & post & -> & Hpre)].
      * left. intros Hh. apply has_cons_inv in Hh. tauto.
      * right. exists (String x pre), post. split; [now rewrite append_cons|].
        intros Hh. apply has_cons_inv in Hh. tauto.
Qed.

Lemma last_split (c : ascii) (s : string) :
  ~ has_char c s \/ exists pre post, s = pre ++ String c post /\ ~ has_char c post.
Proof.
  induction s as [|x s IH].
  - left. intros ([|y pre] & post & E);
      [rewrite append_nil in E | rewrite append_cons in E]; discriminate.
  - destruct IH as [Hno | (pre & post & -> & Hpost)].
    + destruct (Ascii.eqb_spec x c) as [->|Hne].
      * right. exists EmptyString, s. split; [now rewrite append_nil | exact Hno].
      * left. intros Hh. apply has_cons_inv in Hh. tauto.
    + right. exists (String x pre), post. split; [now rewrite append_cons | exact Hpost].
Qed.

(** *** [find] and [rfind] *)

Lemma find_from_none (c : ascii) (s : string) (i : Z) :
  ~ has_char c s -> find_from c s i = -1.
Proof.
  revert i. induction s as [|x s IH]; intros i Hno; cbn [find_from]; [reflexivity|].
  destruct (Ascii.eqb_spec x c) as [->|Hne].
  - exfalso. apply Hno. exists EmptyString, s. now rewrite append_nil.
  - apply IH. intros Hh. apply Hno. now apply has_tail.
Qed.

Lemma find_from_some (c : ascii) (pre post : string) (i : Z) :
  ~ has_char c pre ->
  find_from c (pre ++ String c post) i = i + Z.of_nat (String.length pre).
Proof.
  revert i. induction pre as [|x pre IH]; intros i Hno.
  - rewrite append_nil. cbn [find_from String.length]. rewrite Ascii.eqb_refl. lia.
  - rewrite append_cons. cbn [find_from String.length].
    destruct (Ascii.eqb_spec x c) as [->|Hne].
    + exfalso. apply Hno. exists EmptyString, pre. now rewrite append_nil.
    + rewrite IH; [lia|]. intros Hh. apply Hno. now apply has_tail.
Qed.

Lemma rfind_from_none (c : ascii) (s : string) (i last : Z) :
  ~ has_char c s -> rfind_from c s i last = last.
Proof.
  revert i last. induction s as [|x s IH]; intros i last Hno; cbn [rfind_from];
    [reflexivity|].
  destruct (Ascii.eqb_spec x c) as [->|Hne].
  - exfalso. apply Hno. exists EmptyString, s. now rewrite append_nil.
  - apply IH. intros Hh. apply Hno. now apply has_tail.
Qed.

Lemma rfind_from_some (c : ascii) (pre post : string) (i last : Z) :
  ~ has_char c post ->
  rfind_from c (pre ++ String c post) i last = i + Z.of_nat (String.length pre).
Proof.
  intros Hno. revert i last. induction pre as [|x pre IH]; intros i last.
  - rewrite append_nil. cbn [rfind_from String.length]. rewrite Ascii.eqb_refl.
    rewrite rfind_from_none by exact Hno. lia.
  - rewrite append_cons. cbn [rfind_from String.length]. rewrite IH. lia.
Qed.

(** *** Slices *)

Lemma substring_prefix (mid post : string) :
  substring 0 (String.length mid) (mid ++ post) = mid.
Proof.
  induction mid as [|x mid IH].
  - rewrite append_nil. destruct post; reflexivity.
  - rewrite append_cons. cbn [String.length substring]. now rewrite IH.
Qed.

Lemma substring_middle (pre mid post : string) :
  substring (String.length pre) (String.length mid) (pre ++ mid ++ post) = mid.
Proof.
  induction pre as [|x pre IH].
  - rewrite append_nil. apply substring_prefix.
  - rewrite append_cons. cbn [String.length substring]. exact IH.
Qed.

(** Two ways to split one text at a character. *)
Lemma split_compare (x y : ascii) (pre p1 pre2 p2 : string) :
  pre ++ String x p1 = pre2 ++ String y p2 ->
  (exists m, pre2 = pre ++ String x m /\ p1 = m ++ String y p2) \/
  (String.length pre = String.length pre2 /\ x = y) \/
  (exists m, pre = pre2 ++ String y m /\ p2 = m ++ String x p1).
Proof.
  revert pre2. induction pre as [|a pre IH]; intros [|b pre2] E;
    rewrite ?append_nil, ?append_cons in E.
  - right; left. injection E as -> _. split; reflexivity.
  - left. injection E as -> ->. exists pre2. split; [now rewrite append_nil | reflexivity].
  - right; right. injection E as -> <-. exists pre.
    split; [now rewrite append_nil | reflexivity].
  - injection E as -> E.
    destruct (IH pre2 E) as [(m & -> & ->) | [(Hl & ->) | (m & -> & ->)]].
    + left. exists m. split; [now rewrite append_cons | reflexivity].
    + right; left. cbn [String.length]. split; [now rewrite Hl | reflexivity].
    + right; right. exists m. split; [now rewrite append_cons | reflexivity].
Qed.

(** X17.  The text the LLM callers hand to the JSON parser.  When a text is
    handed over, it runs from the first opening brace of the reply to its
    last closing brace, both included, and whatever stands before and
    after is dropped.  Nothing is handed over exactly when the reply has no
    opening brace, or no closing brace after its first opening brace. *)
Theorem extract_json_spec (content : string) :
  match extract_json content with
  | Some json_str =>
      exists pre body post,
        content = pre ++ "{" ++ body ++ "}" ++ post /\
        json_str = "{" ++ body ++ "}" /\
        ~ occurs "{" pre /\ ~ occurs "}" post
  | None =>
      ~ occurs "{" content \/
      exists pre rest,
        content = pre ++ "{" ++ rest /\ ~ occurs "{" pre /\ ~ occurs "}" rest
  end.
Proof.
  unfold extract_json, find, rfind, open_brace, close_brace.
  destruct (first_split "{" content) as [Hno | (pre & p1 & -> & Hpre)].
  - rewrite find_from_none by exact Hno. cbn [Z.geb Z.compare andb].
    left. now rewrite <- has_occurs.
  - rewrite find_from_some by exact Hpre.
    replace (0 + Z.of_nat (String.length pre) >=? 0) with true
      by (symmetry; apply Z.geb_le; lia).
    cbn [andb].
    destruct (last_split "}" (pre ++ String "{" p1)) as [Hno2 | (pre2 & p2 & E2 & Hpost)].
    + rewrite rfind_from_none by exact Hno2.
      replace (-1 + 1 >? 0 + Z.of_nat (String.length pre)) with false
        by (symmetry; rewrite Z.gtb_ltb; apply Z.ltb_ge; lia).
      right. exists pre, p1. split; [reflexivity|].
      split; [now rewrite <- has_occurs|]. rewrite <- has_occurs.
      intros (a & b & ->). apply Hno2. exists (pre ++ String "{" a), b.
      now rewrite str_app_assoc, append_cons.
    + destruct (split_compare _ _ _ _ _ _ E2)
        as [(m & -> & ->) | [(_ & Hc) | (m & -> & ->)]].
      * assert (Hr : rfind_from "}" (pre ++ String "{" (m ++ String "}" p2)) 0 (-1) =
                     0 + Z.of_nat (String.length (pre ++ String "{" m))).
        { rewrite <- (rfind_from_some "}" (pre ++ String "{" m) p2 0 (-1)) by exact Hpost.
          f_equal. now rewrite str_app_assoc, append_cons. }
        rewrite Hr, str_length_app. cbn [String.length].
        replace (0 + Z.of_nat (String.length pre + S (String.length m)) + 1 >?
                 0 + Z.of_nat (String.length pre)) with true
          by (symmetry; rewrite Z.gtb_ltb; apply Z.ltb_lt; lia).
        exists pre, m, p2. split; [reflexivity|].
        split; [|split; [now rewrite <- has_occurs | now rewrite <- has_occurs]].
        unfold slice.
        replace (Z.to_nat (0 + Z.of_nat (String.length pre))) with (String.length pre) by lia.
        replace (Z.to_nat (0 + Z.of_nat (String.length pre + S (String.length m)) + 1 -
                           (0 + Z.of_nat (String.length pre))))
          with (String.length ("{" ++ m ++ "}")).
        -- change (String "{" (m ++ String "}" p2)) with ("{" ++ m ++ "}" ++ p2).
           replace ("{" ++ m ++ "}" ++ p2) with (("{" ++ m ++ "}") ++ p2).
           ++ apply substring_middle.
           ++ rewrite !str_app_assoc. reflexivity.
        -- rewrite append_cons, append_nil. cbn [String.length].
           rewrite str_length_app. cbn [String.length]. lia.
      * discriminate Hc.
      * assert (Hr : rfind_from "}" ((pre2 ++ String "}" m) ++ String "{" p1) 0 (-1) =
                     0 + Z.of_nat (String.length pre2)).
        { rewrite <- (rfind_from_some "}" pre2 (m ++ String "{" p1) 0 (-1)) by exact Hpost.
          f_equal. now rewrite str_app_assoc, append_cons. }
        rewrite Hr, str_length_app. cbn [String.length].
        replace (0 + Z.of_nat (String.length pre2) + 1 >?
                 0 + Z.of_nat (String.length pre2 + S (String.length m))) with false
          by (symmetry; rewrite Z.gtb_ltb; apply Z.ltb_ge; lia).
        right. exists (pre2 ++ String "}" m), p1. split; [reflexivity|].
        split; [now rewrite <- has_occurs|]. rewrite <- has_occurs.
        intros (a & b & ->). apply Hpost. exists (m ++ String "{" a), b.
        now rewrite str_app_assoc, append_cons.
Qed.

End JsonExtras.

(* ===================================================================== *)
(** * The FAQ generator: selection of the questions, fallback answers      *)
(* ===================================================================== *)

Module FaqExtras.
Import Product Question FaqGenerator Spec Vocabulary StringFacts.

Lemma Category_eqb_eq (c1 c2 : Category) : Category_eqb c1 c2 = true <-> c1 = c2.
Proof. destruct c1, c2; vm_compute; split; congruence. Qed.

Lemma Category_eqb_refl (c : Category) : Category_eqb c c = true.
Proof. now apply Category_eqb_eq. Qed.

Lemma Category_eqb_neq (c1 c2 : Category) : Category_eqb c1 c2 = false <-> c1 <> c2.
Proof.
  rewrite <- Category_eqb_eq. destruct (Category_eqb c1 c2); split; congruence.
Qed.

(** *** The dictionary [by_category] *)

Lemma group_group_add (c : Category) (G : Groups) (q : QuestionModel) :
  group c (group_add G q) =
  if Category_eqb c (category q) then append (group c G) q else group c G.
Proof.
  unfold group. induction G as [|[c' g] G IH]; cbn [group_add List.find fst snd].
  - destruct (Category_eqb (category q) c) eqn:E.
    + apply Category_eqb_eq in E. subst c. rewrite Category_eqb_refl. reflexivity.
    + apply Category_eqb_neq in E.
      destruct (Category_eqb c (category q)) eqn:E'; [|reflexivity].
      apply Category_eqb_eq in E'. congruence.
  - destruct (Category_eqb c' (category q)) eqn:E1; cbn [List.find fst snd].
    + apply Category_eqb_eq in E1. subst c'.
      destruct (Category_eqb (category q) c) eqn:E2.
      * apply Category_eqb_eq in E2. subst c. rewrite Category_eqb_refl. reflexivity.
      * apply Category_eqb_neq in E2.
        destruct (Category_eqb c (category q)) eqn:E3; [|reflexivity].
        apply Category_eqb_eq in E3. congruence.
    + destruct (Category_eqb c' c) eqn:E2; [|exact IH].
      apply Category_eqb_eq in E2. subst c'. rewrite E1. reflexivity.
Qed.

Lemma group_fold (c : Category) (l : list QuestionModel) (G : Groups) :
  group c (fold_left group_add l G) =
  (group c G ++ List.filter (fun q => Category_eqb (category q) c) l)%list.
Proof.
  revert G. induction l as [|q l IH]; intros G; cbn [fold_left List.filter].
  - now rewrite app_nil_r.
  - rewrite IH, group_group_add.
    destruct (Category_eqb c (category q)) eqn:E.
    + apply Category_eqb_eq in E. subst c. rewrite Category_eqb_refl.
      unfold append. now rewrite <- app_assoc.
    + apply Category_eqb_neq in E.
      destruct (Category_eqb (category q) c) eqn:E'; [|reflexivity].
      apply Category_eqb_eq in E'. congruence.
Qed.

Lemma keys_group_add (G : Groups) (q : QuestionModel) :
  map fst (group_add G q) =
  if existsb (fun c => Category_eqb c (category q)) (map fst G)
  then map fst G else (map fst G ++ [category q])%list.
Proof.
  induction G as [|[c g] G IH]; cbn [group_add map existsb fst]; [reflexivity|].
  destruct (Category_eqb c (category q)); cbn [orb map fst]; [reflexivity|].
  rewrite IH. destruct (existsb _ (map fst G)); reflexivity.
Qed.

Lemma keys_nodup_group_add (G : Groups) (q : QuestionModel) :
  List.NoDup (map fst G) -> List.NoDup (map fst (group_add G q)).
Proof.
  intros Hnd. rewrite keys_group_add.
  destruct (existsb _ (map fst G)) eqn:E; [exact Hnd|].
  apply List.NoDup_app; [exact Hnd | repeat constructor; intros [] |].
  intros c Hin [<-|[]].
  assert (existsb (fun c0 => Category_eqb c0 (category q)) (map fst G) = true)
    by (apply existsb_exists; exists (category q); split; [exact Hin | apply Category_eqb_refl]).
  congruence.
Qed.

Lemma keys_nodup_fold (l : list QuestionModel) (G : Groups) :
  List.NoDup (map fst G) -> List.NoDup (map fst (fold_left group_add l G)).
Proof.
  revert G. induction l as [|q l IH]; intros G Hnd; cbn [fold_left]; [exact Hnd|].
  apply IH, keys_nodup_group_add, Hnd.
Qed.

(** The dictionary holds the questions it was built from. *)
Lemma group_add_perm (G : Groups) (q : QuestionModel) :
  Permutation (concat (map snd (group_add G q))) (q :: concat (map snd G)).
Proof.
  induction G as [|[c g] G IH]; cbn [group_add map snd concat].
  - reflexivity.
  - destruct (Category_eqb c (category q)); cbn [map snd concat].
    + unfold append. rewrite <- app_assoc. cbn [app].
      symmetry. apply Permutation_middle.
    + rewrite IH. symmetry. apply Permutation_middle.
Qed.

Lemma fold_perm (l : list QuestionModel) (G : Groups) :
  Permutation (concat (map snd (fold_left group_add l G))) (concat (map snd G) ++ l).
Proof.
  revert G. induction l as [|q l IH]; intros G; cbn [fold_left].
  - now rewrite app_nil_r.
  - rewrite IH, group_add_perm. cbn [app]. apply Permutation_middle.
Qed.

Lemma Category_eqb_sym (c1 c2 : Category) : Category_eqb c1 c2 = Category_eqb c2 c1.
Proof. destruct c1, c2; reflexivity. Qed.

Lemma filter_and {A : Type} (f g : A -> bool) (l : list A) :
  List.filter f (List.filter g l) = List.filter (fun x => g x && f x) l.
Proof.
  induction l as [|x l IH]; [reflexivity|]. cbn [List.filter].
  destruct (g x); cbn [List.filter andb]; [|exact IH].
  destruct (f x); now rewrite IH.
Qed.

Lemma filter_all {A : Type} (l : list A) : List.filter (fun _ => true) l = l.
Proof. induction l as [|x l IH]; [reflexivity|]. cbn [List.filter]. now rewrite IH. Qed.

(** The keys of the dictionary, in insertion order: those it had, then the
    new categories in the order of their first occurrence. *)
Lemma keys_fold (l : list QuestionModel) (G : Groups) :
  map fst (fold_left group_add l G) =
  (map fst G ++
   List.filter (fun c => negb (existsb (fun c' => Category_eqb c' c) (map fst G)))
               (categories_in_order l))%list.
Proof.
  revert G. induction l as [|q l IH]; intros G;
    cbn [fold_left categories_in_order List.filter].
  - now rewrite app_nil_r.
  - rewrite IH, keys_group_add.
    destruct (existsb (fun c => Category_eqb c (category q)) (map fst G)) eqn:E;
      cbn [negb].
    + f_equal. rewrite filter_and. apply List.filter_ext. intros c.
      destruct (Category_eqb c (category q)) eqn:Ec; cbn [negb andb]; [|reflexivity].
      apply Category_eqb_eq in Ec. subst c. rewrite E. reflexivity.
    + rewrite <- app_assoc. cbn [app]. f_equal. f_equal. rewrite filter_and.
      apply List.filter_ext. intros c.
      rewrite existsb_app. cbn [existsb].
      rewrite orb_false_r, negb_orb, (Category_eqb_sym (category q) c).
      apply andb_comm.
Qed.

(** The dictionary read through its keys. *)
Lemma by_keys {B : Type} (h : list QuestionModel -> B) (G : Groups) :
  List.NoDup (map fst G) ->
  map (fun cq => h (snd cq)) G = map (fun c => h (group c G)) (map fst G).
Proof.
  induction G as [|[c g] G IH]; intros Hnd; [reflexivity|].
  cbn [map fst snd] in *. inversion Hnd as [|? ? Hnotin Hnd']; subst.
  f_equal.
  - unfold group. cbn [List.find fst snd]. now rewrite Category_eqb_refl.
  - rewrite (IH Hnd'). apply map_ext_in. intros c' Hin.
    unfold group. cbn [List.find fst snd].
    destruct (Category_eqb c c') eqn:E; [|reflexivity].
    apply Category_eqb_eq in E. subst c'. contradiction.
Qed.

(** The dictionary built from a list of questions: one key per category,
    in the order of first occurrence, holding the questions of the category
    in the order of the list. *)
Lemma groups_of_questions {B : Type} (h : list QuestionModel -> B)
    (questions : list QuestionModel) :
  map (fun cq => h (snd cq)) (fold_left group_add questions []) =
  map (fun c => h (of_category c questions)) (categories_in_order questions).
Proof.
  rewrite by_keys by (apply keys_nodup_fold; constructor).
  rewrite keys_fold. cbn [map app existsb negb]. rewrite filter_all.
  apply map_ext. intros c. rewrite group_fold. reflexivity.
Qed.

Lemma groups_length (questions : list QuestionModel) :
  length (fold_left group_add questions []) = length (categories_in_order questions).
Proof.
  rewrite <- (length_map fst (fold_left group_add questions [])), keys_fold.
  cbn [map app existsb negb]. now rewrite filter_all.
Qed.

(** [categories_in_order] lists each category that occurs, once. *)
Lemma categories_in_order_spec (l : list QuestionModel) :
  List.NoDup (categories_in_order l) /\
  forall c, In c (categories_in_order l) <-> exists q, In q l /\ category q = c.
Proof.
  induction l as [|q l [IHnd IHin]]; cbn [categories_in_order].
  - split; [constructor|]. intros c. split; [intros [] | intros (q & [] & _)].
  - split.
    + constructor; [|now apply List.NoDup_filter].
      intros Hin. apply filter_In in Hin. destruct Hin as [_ Hne].
      now rewrite Category_eqb_refl in Hne.
    + intros c. cbn [In]. rewrite filter_In, IHin. split.
      * intros [<- | [(q' & Hq' & Hc) _]].
        -- exists q. split; [now left | reflexivity].
        -- exists q'. split; [now right | exact Hc].
      * intros (q' & [<- | Hq'] & Hc); [now left|].
        destruct (Category_eqb c (category q)) eqn:E.
        -- left. apply Category_eqb_eq in E. now symmetry.
        -- right. split; [|reflexivity]. exists q'. split; assumption.
Qed.

(** *** Slices *)

Lemma slice_to_nonneg {A : Type} (l : list A) (n : Z) :
  0 <= n -> slice_to l n = firstn (Z.to_nat n) l.
Proof. intros Hn. unfold slice_to. destruct (Z.leb_spec 0 n); [reflexivity | lia]. Qed.

Lemma slice_to_sublist {A : Type} (l : list A) (n : Z) : sublist (slice_to l n) l.
Proof. unfold slice_to. destruct (0 <=? n); apply sublist_take. Qed.

Lemma slice_to_all {A : Type} (l : list A) (n : Z) :
  Z.of_nat (length l) <= n -> slice_to l n = l.
Proof.
  intros Hn. rewrite slice_to_nonneg by lia. apply firstn_all2. lia.
Qed.

(** *** The selection *)

Lemma selected_concat (per : Z) (G : Groups) (acc : list QuestionModel) :
  fold_left (fun selected cq => (selected ++ slice_to (snd cq) per)%list) G acc =
  (acc ++ concat (map (fun cq => slice_to (snd cq) per) G))%list.
Proof.
  revert acc. induction G as [|cg G IH]; intros acc; cbn [fold_left map concat].
  - now rewrite app_nil_r.
  - rewrite IH. now rewrite <- app_assoc.
Qed.

Lemma selected_submseteq (per : Z) (G : Groups) :
  concat (map (fun cq => slice_to (snd cq) per) G) ⊆+ concat (map snd G).
Proof.
  induction G as [|cg G IH]; cbn [map concat]; [reflexivity|].
  apply submseteq_app; [|exact IH].
  apply sublist_submseteq, slice_to_sublist.
Qed.

Lemma selected_length (per : Z) (cats : list Category) (questions : list QuestionModel) :
  0 <= per ->
  Z.of_nat (length (concat (map (fun c => slice_to (of_category c questions) per) cats)))
  <= Z.of_nat (length cats) * per.
Proof.
  intros Hper. induction cats as [|c cats IH]; cbn [map concat length]; [lia|].
  rewrite length_app, slice_to_nonneg, length_firstn by exact Hper. nia.
Qed.

(** What the pass over the dictionary collects, by category. *)
Lemma selected_by_category (per : Z) (questions : list QuestionModel) :
  concat (map (fun cq => slice_to (snd cq) per) (fold_left group_add questions [])) =
  concat (map (fun c => slice_to (of_category c questions) per)
              (categories_in_order questions)).
Proof. now rewrite (groups_of_questions (fun l => slice_to l per)). Qed.

Lemma selected_from_questions (per : Z) (questions : list QuestionModel) :
  concat (map (fun c => slice_to (of_category c questions) per)
              (categories_in_order questions)) ⊆+ questions.
Proof.
  rewrite <- selected_by_category.
  etransitivity; [apply selected_submseteq|].
  apply Permutation_submseteq. rewrite fold_perm. reflexivity.
Qed.

(** A list that is short enough is returned as it is. *)
Lemma select_best_questions_short (questions : list QuestionModel) (max_count : Z) :
  Z.of_nat (length questions) <= max_count ->
  _select_best_questions questions max_count = Ok questions.
Proof.
  intros Hle. unfold _select_best_questions.
  destruct (Z.leb_spec (Z.of_nat (length questions)) max_count); [reflexivity | lia].
Qed.

(** The selection from a longer list. *)
Lemma select_best_questions_long (questions : list QuestionModel) (max_count : Z) :
  max_count < Z.of_nat (length questions) -> questions <> [] ->
  _select_best_questions questions max_count =
  Ok (slice_to
        (concat (map (fun c => slice_to (of_category c questions)
                                 (max_count / Z.of_nat (length (categories_in_order questions))))
                     (categories_in_order questions)))
        max_count).
Proof.
  intros Hlt Hne. unfold _select_best_questions.
  destruct (Z.leb_spec (Z.of_nat (length questions)) max_count) as [Hle|_]; [lia|].
  rewrite groups_length.
  destruct (Z.eqb_spec (Z.of_nat (length (categories_in_order questions))) 0) as [Hz|_].
  - destruct questions as [|q l]; [congruence|].
    cbn [categories_in_order length] in Hz. lia.
  - rewrite selected_concat, selected_by_category. reflexivity.
Qed.

(** With no question and a negative limit the division is by zero. *)
Lemma select_best_questions_none (max_count : Z) :
  max_count < 0 ->
  _select_best_questions [] max_count =
  Raise (ZeroDivisionError "integer division or modulo by zero").
Proof.
  intros Hneg. unfold _select_best_questions. cbn [length fold_left].
  destruct (Z.leb_spec (Z.of_nat 0) max_count) as [Hle|_]; [lia | reflexivity].
Qed.

(** With a limit that is not negative, what the pass collects is within
    the limit. *)
Lemma selected_within (questions : list QuestionModel) (max_count : Z) :
  0 <= max_count ->
  Z.of_nat (length
    (concat (map (fun c => slice_to (of_category c questions)
                             (max_count / Z.of_nat (length (categories_in_order questions))))
                 (categories_in_order questions)))) <= max_count.
Proof.
  intros Hpos.
  destruct (categories_in_order questions) as [|c cats] eqn:E; [cbn; lia|].
  rewrite <- E.
  assert (Hk : 0 < Z.of_nat (length (categories_in_order questions)))
    by (rewrite E; cbn [length]; lia).
  etransitivity; [apply selected_length, Z.div_pos; lia|].
  apply Z.mul_div_le, Hk.
Qed.

(** With a limit that is not negative the selection returns, within the
    limit and from the questions given. *)
Lemma select_best_questions_within (questions : list QuestionModel) (max_count : Z) :
  0 <= max_count ->
  exists selected,
    _select_best_questions questions max_count = Ok selected /\
    Z.of_nat (length selected) <= max_count /\
    selected ⊆+ questions.
Proof.
  intros Hpos.
  destruct (Z.le_gt_cases (Z.of_nat (length questions)) max_count) as [Hle|Hgt].
  - exists questions. rewrite (select_best_questions_short _ _ Hle).
    split; [reflexivity|]. split; [exact Hle | reflexivity].
  - assert (Hne : questions <> []) by (intros ->; cbn in Hgt; lia).
    eexists. split; [apply select_best_questions_long; [lia | exact Hne]|].
    rewrite slice_to_all by (apply selected_within, Hpos).
    split; [apply selected_within, Hpos | apply selected_from_questions].
Qed.

(** X9.  The selection of the questions for the FAQ page, for every list
    and every integer limit [max_count].  A list of at most [max_count]
    questions is returned as it is.  A longer list is grouped by category,
    the categories in the order of their first occurrence and the
    questions of a category in the order of the list; with [k] categories,
    every category contributes the slice [[: max_count // k]] of its
    questions, in the order of the categories, and the result is the slice
    [[: max_count]] of what they contribute.  The call raises exactly when
    the list is empty and [max_count] is negative, and then
    [ZeroDivisionError].  When [max_count] is not negative, the slice of a
    category is its first [max_count // k] questions (all of them if it has
    fewer), the final slice removes nothing, and at most [max_count]
    questions are selected, possibly fewer.  Whatever is returned is taken
    from the questions given, none more often than it occurs there. *)
Theorem select_best_questions_spec (questions : list QuestionModel) (max_count : Z) :
  let cats := categories_in_order questions in
  let per_category := max_count / Z.of_nat (length cats) in
  let selected :=
    concat (map (fun c => slice_to (of_category c questions) per_category) cats) in
  (List.NoDup cats /\
   forall c, In c cats <-> exists q, In q questions /\ category q = c) /\
  (Z.of_nat (length questions) <= max_count ->
   _select_best_questions questions max_count = Ok questions) /\
  (max_count < Z.of_nat (length questions) -> questions <> [] ->
   _select_best_questions questions max_count = Ok (slice_to selected max_count)) /\
  (forall e,
     _select_best_questions questions max_count = Raise e <->
     questions = [] /\ max_count < 0 /\
     e = ZeroDivisionError "integer division or modulo by zero") /\
  (0 <= max_count ->
   selected =
     concat (map (fun c => firstn (Z.to_nat per_category) (of_category c questions)) cats) /\
   slice_to selected max_count = selected /\
   Z.of_nat (length selected) <= max_count) /\
  (forall chosen,
     _select_best_questions questions max_count = Ok chosen -> chosen ⊆+ questions).
Proof.
  cbv zeta. split; [apply categories_in_order_spec|].
  split; [apply select_best_questions_short|].
  split; [apply select_best_questions_long|].
  split; [|split].
  - intros e. split.
    + intros Hraise.
      destruct (Z.le_gt_cases (Z.of_nat (length questions)) max_count) as [Hle|Hgt].
      * rewrite (select_best_questions_short _ _ Hle) in Hraise. discriminate Hraise.
      * destruct (Nat.eq_dec (length questions) 0%nat) as [Hz|Hnz].
        -- apply length_zero_iff_nil in Hz. subst questions. cbn [length] in Hgt.
           rewrite select_best_questions_none in Hraise by lia.
           injection Hraise as <-. split; [reflexivity|]. split; [lia | reflexivity].
        -- rewrite select_best_questions_long in Hraise;
             [discriminate Hraise | exact Hgt | intros ->; now apply Hnz].
    + intros (-> & Hneg & ->). apply select_best_questions_none, Hneg.
  - intros Hpos. split.
    + f_equal. apply map_ext. intros c. apply slice_to_nonneg.
      destruct (categories_in_order questions) as [|c0 cats]; [cbn; now rewrite Z.div_0_r|].
      apply Z.div_pos; [exact Hpos | cbn [length]; lia].
    + split; [apply slice_to_all|]; apply selected_within, Hpos.
  - intros chosen Hsel.
    destruct (Z.le_gt_cases (Z.of_nat (length questions)) max_count) as [Hle|Hgt].
    + rewrite (select_best_questions_short _ _ Hle) in Hsel. injection Hsel as <-.
      reflexivity.
    + destruct (Nat.eq_dec (length questions) 0%nat) as [Hz|Hnz].
      * apply length_zero_iff_nil in Hz. subst questions. cbn [length] in Hgt.
        rewrite select_best_questions_none in Hsel by lia. discriminate Hsel.
      * rewrite select_best_questions_long in Hsel;
          [|exact Hgt | intros ->; now apply Hnz].
        injection Hsel as <-.
        etransitivity; [apply sublist_submseteq, slice_to_sublist|].
        apply selected_from_questions.
Qed.

Lemma select_best_questions_spec_witness :
  _select_best_questions (firstn 3 MoreExamples.eleven_questions) 10 =
    Ok (firstn 3 MoreExamples.eleven_questions) /\
  _select_best_questions MoreExamples.eleven_questions 10 =
    Ok (firstn 5 (of_category cat_usage MoreExamples.eleven_questions) ++
        of_category cat_safety MoreExamples.eleven_questions)%list /\
  _select_best_questions MoreExamples.eleven_questions (-2) =
    Ok (firstn 7 (of_category cat_usage MoreExamples.eleven_questions)) /\
  _select_best_questions [] (-1) =
    Raise (ZeroDivisionError "integer division or modulo by zero").
Proof.
  split; [|split; [|split]].
  - apply (proj1 (proj2 (select_best_questions_spec
                           (firstn 3 MoreExamples.eleven_questions) 10))).
    vm_compute. discriminate.
  - rewrite (proj1 (proj2 (proj2 (select_best_questions_spec
                                    MoreExamples.eleven_questions 10))))
      by (vm_compute; first [reflexivity | discriminate]).
    reflexivity.
  - rewrite (proj1 (proj2 (proj2 (select_best_questions_spec
                                    MoreExamples.eleven_questions (-2)))))
      by (vm_compute; first [reflexivity | discriminate]).
    reflexivity.
  - apply (proj1 (proj2 (proj2 (proj2 (select_best_questions_spec [] (-1)))))).
    split; [reflexivity|]. split; [lia | reflexivity].
Defined.

Section WithBuiltins.
Context `{Builtins}.

(** Texts that end alike: equal texts with tails of the same length have
    the same tail. *)
Lemma app_suffix_eq (a b s1 s2 : string) :
  String.length s1 = String.length s2 -> a ++ s1 = b ++ s2 -> s1 = s2.
Proof.
  intros Hlen. revert b. induction a as [|x a IH]; intros [|y b] E;
    rewrite ?append_nil, ?append_cons in E.
  - exact E.
  - apply (f_equal String.length) in E. cbn [String.length] in E.
    rewrite JsonExtras.str_length_app in E. lia.
  - apply (f_equal String.length) in E. cbn [String.length] in E.
    rewrite JsonExtras.str_length_app in E. lia.
  - injection E as _ E. exact (IH b E).
Qed.

(** X10.  The fallback answer is decided by the category alone.  Usage,
    safety, ingredients and purchase questions get the sentence built
    from the matching field of the product; informational and comparison
    questions both get the sentence on skin types; the sentence on the
    benefits of the product, which the function also holds, is the answer
    to no question. *)
Theorem fallback_answer_table (p : ProductModel) (q : QuestionModel) :
  _generate_fallback_answer p q =
  match category q with
  | cat_usage =>
      "This product should be used as follows: " ++ Product.usage p ++
      ". Apply consistently for best results."
  | cat_safety =>
      "Safety information: " ++ side_effects p ++
      ". Always perform a patch test before full application."
  | cat_ingredients =>
      "This product contains: " ++ join ", " (Product.ingredients p) ++
      ". Each ingredient has been selected for its benefits."
  | cat_purchase =>
      "This product is priced at " ++ ComparisonBlock.rupee ++ str_of_float (price p) ++
      ", offering excellent value for its formulation."
  | cat_informational | cat_comparison =>
      name p ++ " is designed for " ++ join ", " (skin_types p) ++
      " skin types. Please review the product information for more details."
  end /\
  _generate_fallback_answer p q <>
    "The key benefits of this product include: " ++ join ", " (benefits p) ++
    ". Results vary by individual.".
Proof.
  split; [apply FaqFacts.fallback_answer_by_category|].
  rewrite FaqFacts.fallback_answer_by_category.
  assert (Hgeneric :
    name p ++ " is designed for " ++ join ", " (skin_types p) ++
    " skin types. Please review the product information for more details." <>
    "The key benefits of this product include: " ++ join ", " (benefits p) ++
    ". Results vary by individual.").
  { change " skin types. Please review the product information for more details."
      with (" skin types. Please review the product " ++ "information for more details.").
    intros E. rewrite <- !JsonExtras.str_app_assoc in E.
    apply app_suffix_eq in E; [discriminate E | reflexivity]. }
  destruct (category q); try exact Hgeneric;
    intros E; rewrite !append_cons in E; discriminate E.
Qed.

End WithBuiltins.

End FaqExtras.

(* ===================================================================== *)
(** * The usage block and the safety block                                 *)
(* ===================================================================== *)

Module BlockExtras.
Import Product Spec Vocabulary StringFacts.

Lemma contains_mentions_iff (word s : string) (b : bool) :
  contains word (lower s) = b -> (b = true <-> mentions word s).
Proof. intros <-. apply contains_lower_mentions. Qed.

Lemma not_mentions (word s : string) :
  contains word (lower s) = false <-> ~ mentions word s.
Proof.
  rewrite <- contains_lower_mentions. destruct (contains word (lower s)); split; congruence.
Qed.

(** *** Usage *)

(** X11.  The application steps.  There are always five, numbered 1 to 5, and
    the first four are the same for every product.  The timing is
    "Morning" exactly when the usage text mentions "morning" (in any mix
    of upper and lower case), and then the last step is the sunscreen,
    also when the text mentions the evening or the night as well;
    otherwise the last step is the moisturizer. *)
Theorem usage_block_steps (p : ProductModel) :
  let r := UsageBlock.generate_usage_block p in
  map UsageBlock.step (UsageBlock.steps r) = [1; 2; 3; 4; 5] /\
  UsageBlock.instructions r = usage p /\
  (mentions "morning" (usage p) ->
   UsageBlock.timing r = "Morning" /\
   map UsageBlock.action (UsageBlock.steps r) =
     ["Cleanse"; "Apply Serum"; "Massage"; "Wait"; "Apply Sunscreen"]) /\
  (~ mentions "morning" (usage p) ->
   (UsageBlock.timing r = "Evening" <->
    mentions "evening" (usage p) \/ mentions "night" (usage p)) /\
   (UsageBlock.timing r = "Daily" <->
    ~ (mentions "evening" (usage p) \/ mentions "night" (usage p))) /\
   map UsageBlock.action (UsageBlock.steps r) =
     ["Cleanse"; "Apply Serum"; "Massage"; "Wait"; "Moisturize"]).
Proof.
  cbv zeta. unfold UsageBlock.generate_usage_block.
  cbn [UsageBlock.steps UsageBlock.timing UsageBlock.instructions].
  unfold UsageBlock.usage_timing, UsageBlock._generate_application_steps.
  destruct (contains "morning" (lower (usage p))) eqn:Em.
  - cbn [fst]. change (contains "morning" (lower "Morning")) with true. cbv iota.
    split; [reflexivity|]. split; [reflexivity|]. split.
    + intros _. split; reflexivity.
    + intros Hno. apply not_mentions in Hno. congruence.
  - apply not_mentions in Em.
    destruct (contains "evening" (lower (usage p))) eqn:Ee;
      [|destruct (contains "night" (lower (usage p))) eqn:En]; cbn [orb fst];
      try change (contains "morning" (lower "Evening")) with false;
      try change (contains "morning" (lower "Daily")) with false; cbv iota;
      (split; [reflexivity|]); (split; [reflexivity|]);
      (split; [intros Hyes; contradiction|]); intros _.
    + apply contains_lower_mentions in Ee.
      split; [tauto|]. split; [|reflexivity]. split; [discriminate | tauto].
    + apply contains_lower_mentions in En.
      split; [tauto|]. split; [|reflexivity]. split; [discriminate | tauto].
    + apply not_mentions in Ee, En.
      split; [|split; [|reflexivity]].
      * split; [discriminate | tauto].
      * split; [tauto | reflexivity].
Qed.

Lemma usage_block_steps_witness :
  UsageBlock.timing (UsageBlock.generate_usage_block Examples.glowboost) = "Morning" /\
  map UsageBlock.action (UsageBlock.steps (UsageBlock.generate_usage_block Examples.glowboost)) =
    ["Cleanse"; "Apply Serum"; "Massage"; "Wait"; "Apply Sunscreen"].
Proof.
  apply (usage_block_steps Examples.glowboost).
  exists "Apply 2-3 drops in the ", "morning", " before sunscreen". split; reflexivity.
Defined.

(** The frequency of the usage block, read off the usage text in any mix
    of upper and lower case: "once" wins over every other word, then
    "twice" or "morning and evening", then "morning", then "evening" or
    "night". *)
Lemma usage_frequency (p : ProductModel) :
  let f := UsageBlock.frequency (UsageBlock.generate_usage_block p) in
  (f = "Once daily" <-> mentions "once" (usage p)) /\
  (f = "Twice daily" <->
   ~ mentions "once" (usage p) /\
   (mentions "twice" (usage p) \/ mentions "morning and evening" (usage p))).
Proof.
  cbv zeta. unfold UsageBlock.generate_usage_block. cbn [UsageBlock.frequency].
  unfold UsageBlock._determine_frequency.
  rewrite <- !contains_lower_mentions.
  destruct (contains "once" (lower (usage p)));
    [split; split; [reflexivity | reflexivity | discriminate | intros [Hn _]; congruence]|].
  destruct (contains "twice" (lower (usage p)));
    [cbn [orb]; split; split;
     [discriminate | discriminate | intros _; split; [discriminate | now left] | reflexivity]|].
  destruct (contains "morning and evening" (lower (usage p)));
    [cbn [orb]; split; split;
     [discriminate | discriminate | intros _; split; [discriminate | now right] | reflexivity]|].
  cbn [orb].
  destruct (contains "morning" (lower (usage p)));
    [|destruct (contains "evening" (lower (usage p)) || contains "night" (lower (usage p)))];
    (split; split; [discriminate | discriminate | discriminate |
                    intros [_ [Hc|Hc]]; discriminate Hc]).
Qed.

Section WithBuiltins.
Context `{Builtins}.

(** X12.  The usage block and the price block read the same usage text.  When
    the usage block reports "Twice daily" the price block counts two uses
    a day, a supply of 120 days.  The converse fails on a text that also
    has the word "once": the usage block then reports "Once daily" while
    the price block still counts two uses a day. *)
Theorem usage_frequency_and_supply (p : ProductModel) :
  fgt (price p) (lit 0) = true ->
  let f := UsageBlock.frequency (UsageBlock.generate_usage_block p) in
  exists r,
    PriceBlock.generate_price_block_default p = Ok r /\
    (f = "Twice daily" -> PriceBlock.estimated_days_supply r = 120) /\
    (PriceBlock.estimated_days_supply r = 240 -> f <> "Twice daily") /\
    (mentions "once" (usage p) -> mentions "twice" (usage p) ->
     f = "Once daily" /\ PriceBlock.estimated_days_supply r = 120).
Proof.
  intros Hp. cbv zeta.
  destruct (PriceExtras.price_block_days p Hp) as (r & Hr & _ & _ & Hdays).
  assert (H120 : mentions "twice" (usage p) \/ mentions "morning and evening" (usage p) ->
                 PriceBlock.estimated_days_supply r = 120).
  { rewrite Hdays, <- !contains_lower_mentions, <- orb_true_iff. now intros ->. }
  destruct (usage_frequency p) as [Honce Htwice]. cbv zeta in Honce, Htwice.
  exists r. split; [exact Hr|].
  assert (Hf : UsageBlock.frequency (UsageBlock.generate_usage_block p) = "Twice daily" ->
               PriceBlock.estimated_days_supply r = 120).
  { intros Hf. apply H120. apply Htwice in Hf. tauto. }
  split; [exact Hf|]. split.
  - intros E240 Htw. apply Hf in Htw. rewrite E240 in Htw. discriminate.
  - intros Ho Ht. split; [now apply Honce | apply H120; now left].
Qed.

End WithBuiltins.

Lemma usage_frequency_and_supply_witness :
  exists r,
    PriceBlock.generate_price_block_default (H := Examples.plain_builtins)
      Examples.product_700 = Ok r /\
    PriceBlock.estimated_days_supply r = 120.
Proof.
  destruct (usage_frequency_and_supply (H := Examples.plain_builtins)
              Examples.product_700 eq_refl) as (r & Hr & Htwice & _).
  exists r. split; [exact Hr|]. apply Htwice. reflexivity.
Defined.

Lemma existsb_mentions (word : string) (l : list string) :
  existsb (fun ing => contains word (lower ing)) l = true <->
  exists ing, In ing l /\ mentions word ing.
Proof.
  rewrite existsb_exists. split; intros (ing & Hin & Hc); exists ing; (split; [exact Hin|]);
    now apply contains_lower_mentions.
Qed.

Lemma in_list_In (x : string) (l : list string) : in_list x l = true <-> In x l.
Proof.
  unfold in_list. rewrite existsb_exists. split.
  - intros (y & Hy & E). apply String.eqb_eq in E. now subst y.
  - intros Hin. exists x. split; [exact Hin | apply String.eqb_refl].
Qed.

(** X13.  The usage tips.  The two general tips always close the list.  The tip
    on a lightweight moisturizer is given exactly when the skin types hold
    the entry "Oily", written so; the two tips on Vitamin C exactly when
    an ingredient mentions "vitamin c" in any mix of upper and lower case;
    the two tips for sensitive skin, on a slow start and on a patch test,
    exactly when the skin types hold "Sensitive" or the side effects
    mention "sensitive". *)
Theorem usage_tips_spec (p : ProductModel) :
  let tips := UsageBlock.tips (UsageBlock.generate_usage_block p) in
  (exists front,
     tips = (front ++ ["Consistency is key - use daily for best results";
                       "Visible results typically appear within 2-4 weeks of regular use"])%list) /\
  (In "Use lightweight moisturizer after application" tips <-> In "Oily" (skin_types p)) /\
  (In "Store in a cool place to maintain stability and potency" tips <->
   exists ing, In ing (ingredients p) /\ mentions "vitamin c" ing) /\
  (In "Do patch test on inner arm first if this is your first time" tips <->
   In "Sensitive" (skin_types p) \/ mentions "sensitive" (side_effects p)) /\
  (In "Vitamin C works best on clean skin - apply to completely dry face" tips <->
   exists ing, In ing (ingredients p) /\ mentions "vitamin c" ing) /\
  (In "Start with use 2-3 times per week to allow skin to adapt" tips <->
   In "Sensitive" (skin_types p) \/ mentions "sensitive" (side_effects p)).
Proof.
  cbv zeta. unfold UsageBlock.generate_usage_block. cbn [UsageBlock.tips].
  unfold UsageBlock._generate_usage_tips, UsageBlock.append2, append.
  rewrite <- existsb_mentions, <- !in_list_In, <- contains_lower_mentions, <- orb_true_iff.
  destruct (existsb _ (ingredients p));
    destruct (in_list "Oily" (skin_types p));
    destruct (in_list "Sensitive" (skin_types p) ||
              contains "sensitive" (lower (side_effects p)));
    cbn [app];
    (split; [eexists; match goal with |- ?l = _ => 
       first [ instantiate (1 := []); reflexivity
             | instantiate (1 := [_]); reflexivity
             | instantiate (1 := [_; _]); reflexivity
             | instantiate (1 := [_; _; _]); reflexivity
             | instantiate (1 := [_; _; _; _]); reflexivity
             | instantiate (1 := [_; _; _; _; _]); reflexivity ] end|]);
    (repeat split; cbn [In]; intros Hx; try reflexivity; try discriminate;
     repeat (destruct Hx as [Hx|Hx]; try discriminate Hx); try contradiction; tauto).
Qed.

(** *** Safety *)

Lemma suitable_fold (l acc : list string) :
  fold_left (fun suitable skin_type => append suitable (skin_type ++ " skin")) l acc =
  (acc ++ map (fun skin_type => (skin_type ++ " skin")%string) l)%list.
Proof.
  revert acc. induction l as [|t l IH]; intros acc; cbn [fold_left map].
  - now rewrite app_nil_r.
  - rewrite IH. unfold append. now rewrite <- app_assoc.
Qed.

Ltac peel_suffix H s :=
  repeat (destruct s as [|? s];
          [ rewrite ?append_nil in H; discriminate H
          | rewrite append_cons in H; first [discriminate H | injection H as _ H] ]).

(** No skin type followed by " skin" is the advice for sensitive skin. *)
Lemma skin_entry_not_advice (t : string) :
  t ++ " skin" <> "Sensitive skin types (with patch test)".
Proof.
  intros E. peel_suffix E t.
Qed.

(** X14.  The severity of the safety block, read off the side effects in any mix
    of upper and lower case: "mild" wins over "moderate", which wins over
    "severe"; a text with none of them is "Minimal".  The advice for
    sensitive skin is given exactly at severity "Mild", and the list of
    what to do when side effects occur has five entries at "Moderate" and
    "Requires Caution" and four otherwise. *)
Theorem safety_block_severity (p : ProductModel) :
  let r := SafetyBlock.generate_safety_block p in
  let s := SafetyBlock.severity r in
  In s ["Mild"; "Moderate"; "Requires Caution"; "Minimal"] /\
  (s = "Mild" <-> mentions "mild" (side_effects p)) /\
  (s = "Moderate" <->
   ~ mentions "mild" (side_effects p) /\ mentions "moderate" (side_effects p)) /\
  (s = "Requires Caution" <->
   ~ mentions "mild" (side_effects p) /\ ~ mentions "moderate" (side_effects p) /\
   mentions "severe" (side_effects p)) /\
  (In "Sensitive skin types (with patch test)" (SafetyBlock.suitable_for r) <-> s = "Mild") /\
  length (SafetyBlock.if_side_effects_occur r) =
    (if in_list s ["Moderate"; "Requires Caution"] then 5 else 4)%nat.
Proof.
  cbv zeta. unfold SafetyBlock.generate_safety_block.
  cbn [SafetyBlock.severity SafetyBlock.suitable_for SafetyBlock.if_side_effects_occur].
  unfold SafetyBlock.parse_severity, SafetyBlock._determine_suitable_for,
         SafetyBlock._generate_action_steps.
  rewrite suitable_fold. cbn [app]. unfold append.
  rewrite <- !not_mentions, <- !contains_lower_mentions.
  destruct (contains "mild" (lower (side_effects p))) eqn:Emild.
  - cbn [fst]. change (in_list "Mild" ["Moderate"; "Requires Caution"]) with false.
    cbv iota. split; [now left|].
    split; [tauto|]. split; [split; [discriminate | intros [? _]; discriminate]|].
    split; [split; [discriminate | intros [? _]; discriminate]|].
    split; [|reflexivity].
    split; [reflexivity|]. intros _.
    rewrite !in_app_iff. right. now left.
  - assert (Hno : ~ In "Sensitive skin types (with patch test)"
                     (map (fun skin_type => (skin_type ++ " skin")%string) (skin_types p) ++
                      ["Adults 18+ years"])).
    { rewrite in_app_iff, in_map_iff. intros [(t & Ht & _) | [Ha | []]].
      - exact (skin_entry_not_advice t Ht).
      - discriminate Ha. }
    destruct (contains "moderate" (lower (side_effects p))) eqn:Emod;
      [|destruct (contains "severe" (lower (side_effects p))) eqn:Esev]; cbn [fst].
    + change (in_list "Moderate" ["Moderate"; "Requires Caution"]) with true. cbv iota.
      split; [right; now left|].
      split; [split; discriminate|]. split; [split; [auto | reflexivity]|].
      split; [split; [discriminate | intros (_ & ? & _); discriminate]|].
      split; [|reflexivity]. split; [intros Hin; contradiction | discriminate].
    + change (in_list "Requires Caution" ["Moderate"; "Requires Caution"]) with true.
      cbv iota. split; [right; right; now left|].
      split; [split; discriminate|]. split; [split; [discriminate | intros [_ ?]; discriminate]|].
      split; [split; [auto | reflexivity]|].
      split; [|reflexivity]. split; [intros Hin; contradiction | discriminate].
    + change (in_list "Minimal" ["Moderate"; "Requires Caution"]) with false.
      cbv iota. split; [right; right; right; now left|].
      split; [split; discriminate|]. split; [split; [discriminate | intros [_ ?]; discriminate]|].
      split; [split; [discriminate | intros (_ & _ & ?); discriminate]|].
      split; [|reflexivity]. split; [intros Hin; contradiction | discriminate].
Qed.

(** X15.  The listed side effects.  The list is never empty; each of the four
    known effects is listed exactly when the side effects mention its
    keyword, in any mix of upper and lower case and whatever the severity;
    the entry "No known severe side effects" stands alone, and is given
    exactly when none of the four keywords is mentioned. *)
Theorem safety_block_effects (p : ProductModel) :
  let r := SafetyBlock.generate_safety_block p in
  let effs := map SafetyBlock.effect (SafetyBlock.known_side_effects r) in
  effs <> [] /\
  (In "Tingling sensation" effs <-> mentions "tingling" (side_effects p)) /\
  (In "Mild redness" effs <-> mentions "redness" (side_effects p)) /\
  (In "Temporary dryness" effs <-> mentions "dryness" (side_effects p)) /\
  (In "Skin irritation" effs <-> mentions "irritation" (side_effects p)) /\
  (effs = ["No known severe side effects"] <->
   ~ (mentions "tingling" (side_effects p) \/ mentions "redness" (side_effects p) \/
      mentions "dryness" (side_effects p) \/ mentions "irritation" (side_effects p))).
Proof.
  cbv zeta. unfold SafetyBlock.generate_safety_block. cbn [SafetyBlock.known_side_effects].
  unfold SafetyBlock._identify_side_effects, append.
  rewrite <- !contains_lower_mentions.
  destruct (contains "tingling" (lower (side_effects p)));
    destruct (contains "redness" (lower (side_effects p)));
    destruct (contains "dryness" (lower (side_effects p)));
    destruct (contains "irritation" (lower (side_effects p)));
    cbn [app map SafetyBlock.effect In];
    (split; [discriminate|]);
    repeat split; try reflexivity; try discriminate; try tauto;
    try (intros Hx; repeat (destruct Hx as [Hx|Hx]; try discriminate Hx); contradiction);
    try (intros Hx; exfalso; apply Hx; tauto);
    try (intros Hx; repeat (destruct Hx as [Hx|Hx]; try discriminate Hx)).
  intros Hy. repeat (destruct Hy as [Hy|Hy]; try discriminate Hy).
Qed.

(** X16.  Who the product is for.  The list opens with one entry per skin type
    of the product, in the order of the product and each followed by
    " skin", then "Adults 18+ years"; who it is not for always names
    pregnant or nursing women and children, and names severe skin
    sensitivity exactly when the side effects mention "sensitive". *)
Theorem safety_block_suitability (p : ProductModel) :
  let r := SafetyBlock.generate_safety_block p in
  (exists rest,
     SafetyBlock.suitable_for r =
       (map (fun skin_type => (skin_type ++ " skin")%string) (skin_types p) ++
        "Adults 18+ years" :: rest)%list /\
     (rest = [] \/ rest = ["Sensitive skin types (with patch test)"])) /\
  In "Pregnant or nursing women (consult doctor)" (SafetyBlock.not_suitable_for r) /\
  In "Children under 18 years" (SafetyBlock.not_suitable_for r) /\
  (In "Those with severe skin sensitivity without prior testing"
      (SafetyBlock.not_suitable_for r) <->
   mentions "sensitive" (side_effects p)).
Proof.
  cbv zeta. unfold SafetyBlock.generate_safety_block.
  cbn [SafetyBlock.suitable_for SafetyBlock.not_suitable_for].
  unfold SafetyBlock._determine_suitable_for, SafetyBlock._determine_not_suitable_for.
  rewrite suitable_fold. cbn [app]. unfold append.
  rewrite <- contains_lower_mentions.
  split.
  - destruct (contains "mild" (lower (side_effects p))).
    + eexists. rewrite <- app_assoc. cbn [app]. split; [reflexivity | now right].
    + eexists. split; [reflexivity | now left].
  - destruct (contains "sensitive" (lower (side_effects p))); cbn [app In];
      repeat split; try tauto; try discriminate;
      intros Hx; repeat (destruct Hx as [Hx|Hx]; try discriminate Hx); contradiction.
Qed.

End BlockExtras.

(* ===================================================================== *)
(** * The benefit block, the ingredient block and the product page         *)
(* ===================================================================== *)

Module ContentExtras.
Import Product Spec Vocabulary StringFacts.

Section WithEnvironment.
Context `{Builtins} `{JsonLib} `{LLM} `{BlockLLM}.

(** *** Benefits *)

Lemma rule_based_benefits (p : ProductModel) :
  map BenefitBlock.benefit
      (BenefitBlock.benefit_details (BenefitBlock._generate_benefit_block_rule_based p))
  = benefits p.
Proof.
  unfold BenefitBlock._generate_benefit_block_rule_based.
  cbn [BenefitBlock.benefit_details]. rewrite map_map. cbn [BenefitBlock.benefit].
  apply map_id.
Qed.

(** The benefit block with the LLM, once the client is built. *)
Lemma benefit_block_with_client (p : ProductModel) :
  get_llm = Ok tt ->
  BenefitBlock.generate_benefit_block p true =
  match llm_benefits p with
  | Raise _ => Ok (Some (BenefitBlock._generate_benefit_block_rule_based p))
  | Ok content =>
      match Json.extract_json content with
      | None => Ok None
      | Some json_str =>
          match json_loads json_str with
          | Ok (Json.Object items) =>
              Ok (Some {| BenefitBlock.title := "Key Benefits";
                          BenefitBlock.benefit_details :=
                            map (fun bd : string * Json.Value =>
                                   {| BenefitBlock.benefit := fst bd;
                                      BenefitBlock.description := snd bd;
                                      BenefitBlock.relevance := "High" |}) items;
                          BenefitBlock.summary :=
                            "This product delivers " ++
                            str_of_int (Z.of_nat (length items)) ++
                            " proven benefits for " ++ join ", " (skin_types p) ++
                            " skin." |})
          | _ => Ok (Some (BenefitBlock._generate_benefit_block_rule_based p))
          end
      end
  end.
Proof.
  intros Hllm. unfold BenefitBlock.generate_benefit_block,
    BenefitBlock._generate_benefit_block_with_llm.
  rewrite Hllm. cbn [bind]. unfold try_except.
  destruct (llm_benefits p) as [content|e]; cbn [bind]; [|reflexivity].
  destruct (Json.extract_json content) as [json_str|]; [|reflexivity].
  destruct (json_loads json_str) as [[]|e]; cbn [bind Json.items]; try reflexivity.
  now rewrite length_map.
Qed.

(** X18.  The benefit block.  Without the LLM it has one entry per benefit of
    the product, in order.  With the LLM it raises when no client can be
    built; with a client it never raises: a failed call, a reply that does
    not parse and a reply that parses to something else than an object all
    give the block made without the LLM, a reply that holds no JSON object
    gives no block at all ([None]), and an object gives one entry per
    key. *)
Theorem benefit_block_outcomes (p : ProductModel) :
  (exists c,
     BenefitBlock.generate_benefit_block p false = Ok (Some c) /\
     map BenefitBlock.benefit (BenefitBlock.benefit_details c) = benefits p) /\
  (forall e, get_llm = Raise e ->
     BenefitBlock.generate_benefit_block p true = Raise e) /\
  (get_llm = Ok tt ->
     (exists r, BenefitBlock.generate_benefit_block p true = Ok r) /\
     (BenefitBlock.generate_benefit_block p true = Ok None <->
      exists content, llm_benefits p = Ok content /\ Json.extract_json content = None) /\
     ((exists e, llm_benefits p = Raise e) ->
      BenefitBlock.generate_benefit_block p true =
      BenefitBlock.generate_benefit_block p false) /\
     (forall content json_str e,
        llm_benefits p = Ok content -> Json.extract_json content = Some json_str ->
        json_loads json_str = Raise e ->
        BenefitBlock.generate_benefit_block p true =
        BenefitBlock.generate_benefit_block p false) /\
     (forall content json_str items,
        llm_benefits p = Ok content -> Json.extract_json content = Some json_str ->
        json_loads json_str = Ok (Json.Object items) ->
        exists c,
          BenefitBlock.generate_benefit_block p true = Ok (Some c) /\
          map BenefitBlock.benefit (BenefitBlock.benefit_details c) = map fst items) /\
     (forall content json_str v,
        llm_benefits p = Ok content -> Json.extract_json content = Some json_str ->
        json_loads json_str = Ok v -> (forall items, v <> Json.Object items) ->
        BenefitBlock.generate_benefit_block p true =
        BenefitBlock.generate_benefit_block p false)).
Proof.
  split; [|split].
  - eexists. split; [reflexivity | apply rule_based_benefits].
  - intros e He. unfold BenefitBlock.generate_benefit_block,
      BenefitBlock._generate_benefit_block_with_llm. rewrite He. reflexivity.
  - intros Hllm. rewrite (benefit_block_with_client p Hllm).
    split; [|split; [|split; [|split; [|split]]]].
    + destruct (llm_benefits p) as [content|e]; [|eexists; reflexivity].
      destruct (Json.extract_json content) as [json_str|]; [|eexists; reflexivity].
      destruct (json_loads json_str) as [[]|e]; eexists; reflexivity.
    + split.
      * destruct (llm_benefits p) as [content|e]; [|discriminate].
        destruct (Json.extract_json content) as [json_str|] eqn:Ej;
          [|intros _; exists content; split; [reflexivity | exact Ej]].
        destruct (json_loads json_str) as [[]|e]; discriminate.
      * intros (content & -> & ->). reflexivity.
    + intros (e & ->). reflexivity.
    + intros content json_str e -> -> ->. reflexivity.
    + intros content json_str items -> -> ->. eexists. split; [reflexivity|].
      cbn [BenefitBlock.benefit_details]. rewrite map_map. reflexivity.
    + intros content json_str v -> -> -> Hv.
      destruct v; try reflexivity. destruct (Hv _ eq_refl).
Qed.

(** *** Ingredients *)

Lemma first_pass_fold (l : list string) (acc : list IngredientBlock.IngredientDetail)
    (unknown : list string) :
  fold_left
    (fun (acc : list IngredientBlock.IngredientDetail * list string) ingredient =>
       let ing_lower := lower ingredient in
       match IngredientBlock.INGREDIENT_KNOWLEDGE !! ing_lower with
       | Some info => (append (fst acc) (IngredientBlock.known_detail ingredient info), snd acc)
       | None => (fst acc, append (snd acc) ingredient)
       end) l (acc, unknown) =
  ((acc ++ known_details l)%list,
   (unknown ++ List.filter (fun ing => negb (known ing)) l)%list).
Proof.
  revert acc unknown. induction l as [|ing l IH]; intros acc unknown.
  - cbn. now rewrite !app_nil_r.
  - cbn [fold_left]. cbv zeta. unfold known_details, known in *.
    cbn [omap list_omap List.filter].
    destruct (IngredientBlock.INGREDIENT_KNOWLEDGE !! lower ing) as [info|] eqn:Ek;
      cbn [fst snd]; rewrite IH; unfold append.
    + rewrite bool_decide_eq_true_2 by (eexists; reflexivity). cbn [negb].
      now rewrite <- app_assoc.
    + rewrite bool_decide_eq_false_2 by (intros [? ?]; discriminate). cbn [negb].
      now rewrite <- app_assoc.
Qed.

Lemma first_pass_spec (p : ProductModel) :
  IngredientBlock.first_pass p =
  (known_details (ingredients p),
   List.filter (fun ing => negb (known ing)) (ingredients p)).
Proof. unfold IngredientBlock.first_pass. now rewrite first_pass_fold. Qed.

Lemma known_details_names (l : list string) :
  map IngredientBlock.ingredient (known_details l) = List.filter known l.
Proof.
  unfold known_details, known. induction l as [|ing l IH]; [reflexivity|].
  cbn [omap list_omap List.filter].
  destruct (IngredientBlock.INGREDIENT_KNOWLEDGE !! lower ing) as [info|] eqn:Ek.
  - rewrite bool_decide_eq_true_2 by (eexists; reflexivity).
    cbn [map IngredientBlock.ingredient IngredientBlock.known_detail]. now rewrite IH.
  - rewrite bool_decide_eq_false_2 by (intros [? ?]; discriminate). exact IH.
Qed.

Lemma filler_fold (p : ProductModel) (l : list string)
    (acc : list IngredientBlock.IngredientDetail) :
  fold_left (fun details ingredient =>
               append details (IngredientBlock.filler_detail p ingredient)) l acc =
  (acc ++ map (IngredientBlock.filler_detail p) l)%list.
Proof.
  revert acc. induction l as [|ing l IH]; intros acc; cbn [fold_left map].
  - now rewrite app_nil_r.
  - rewrite IH. unfold append. now rewrite <- app_assoc.
Qed.

Lemma filter_partition_perm (f : string -> bool) (l : list string) :
  Permutation (List.filter f l ++ List.filter (fun x => negb (f x)) l) l.
Proof.
  induction l as [|x l IH]; [reflexivity|]. cbn [List.filter].
  destruct (f x); cbn [negb app].
  - now constructor.
  - rewrite <- Permutation_middle. now constructor.
Qed.

(** The ingredient block without the LLM. *)
Lemma ingredient_block_rule_based (p : ProductModel) :
  exists c,
    IngredientBlock.generate_ingredient_block p false = Ok c /\
    map IngredientBlock.ingredient (IngredientBlock.ingredient_details c) =
      (List.filter known (ingredients p) ++
       List.filter (fun ing => negb (known ing)) (ingredients p))%list.
Proof.
  unfold IngredientBlock.generate_ingredient_block. cbv zeta.
  rewrite first_pass_spec. cbn [fst snd]. rewrite andb_false_r. cbn [bind].
  eexists. split; [reflexivity|]. cbn [IngredientBlock.ingredient_details].
  rewrite filler_fold, map_app, known_details_names, map_map.
  cbn [IngredientBlock.ingredient IngredientBlock.filler_detail]. now rewrite map_id.
Qed.

(** X19.  The ingredient block without the LLM never raises and has one entry
    per ingredient of the product, but not in the order of the product:
    the ingredients found in the knowledge base (by their name in lower
    case) come first, the others after them, each group in the order of
    the product. *)
Theorem ingredient_block_order (p : ProductModel) :
  exists c,
    IngredientBlock.generate_ingredient_block p false = Ok c /\
    map IngredientBlock.ingredient (IngredientBlock.ingredient_details c) =
      (List.filter known (ingredients p) ++
       List.filter (fun ing => negb (known ing)) (ingredients p))%list /\
    Permutation (map IngredientBlock.ingredient (IngredientBlock.ingredient_details c))
                (ingredients p) /\
    length (IngredientBlock.ingredient_details c) = length (ingredients p).
Proof.
  destruct (ingredient_block_rule_based p) as (c & Hc & Hnames).
  exists c. split; [exact Hc|]. split; [exact Hnames|].
  assert (Hperm : Permutation
            (map IngredientBlock.ingredient (IngredientBlock.ingredient_details c))
            (ingredients p)) by (rewrite Hnames; apply filter_partition_perm).
  split; [exact Hperm|].
  apply Permutation_length in Hperm. now rewrite length_map in Hperm.
Qed.

Lemma all_known_no_unknown (l : list string) :
  forallb known l = true -> List.filter (fun ing => negb (known ing)) l = [].
Proof.
  induction l as [|x l IH]; [reflexivity|]. cbn [forallb List.filter].
  intros Hall. apply andb_true_iff in Hall. destruct Hall as [-> Hl]. cbn [negb].
  exact (IH Hl).
Qed.

Lemma some_unknown (l : list string) :
  forallb known l = false ->
  negb (Nat.eqb (length (List.filter (fun ing => negb (known ing)) l)) 0) = true.
Proof.
  induction l as [|x l IH]; [discriminate|]. cbn [forallb List.filter].
  destruct (known x); cbn [andb negb]; [exact IH | reflexivity].
Qed.

(** X20.  The ingredient block with the LLM.  When every ingredient is in the
    knowledge base the LLM is not consulted, and the block is the one made
    without it, API key or not.  Otherwise the block raises when no client
    can be built; with a client, a failed call drops the ingredients that
    the knowledge base does not have, and a reply that holds no JSON object
    makes the block raise a [TypeError]. *)
Theorem ingredient_block_with_llm (p : ProductModel) :
  (forallb known (ingredients p) = true ->
   IngredientBlock.generate_ingredient_block p true =
   IngredientBlock.generate_ingredient_block p false) /\
  (forallb known (ingredients p) = false ->
   (forall e, get_llm = Raise e ->
      IngredientBlock.generate_ingredient_block p true = Raise e) /\
   (get_llm = Ok tt ->
    (forall e, llm_ingredients (List.filter (fun ing => negb (known ing)) (ingredients p)) p
               = Raise e ->
       exists c,
         IngredientBlock.generate_ingredient_block p true = Ok c /\
         map IngredientBlock.ingredient (IngredientBlock.ingredient_details c) =
           List.filter known (ingredients p)) /\
    (forall content,
       llm_ingredients (List.filter (fun ing => negb (known ing)) (ingredients p)) p
         = Ok content ->
       Json.extract_json content = None ->
       IngredientBlock.generate_ingredient_block p true =
       Raise (TypeError "'NoneType' object is not iterable")))).
Proof.
  unfold IngredientBlock.generate_ingredient_block. cbv zeta.
  rewrite first_pass_spec. cbn [fst snd]. split.
  - intros Hall. rewrite (all_known_no_unknown _ Hall). reflexivity.
  - intros Hsome. rewrite (some_unknown _ Hsome). cbn [andb].
    unfold IngredientBlock._get_ingredient_info_from_llm. split.
    + intros e ->. reflexivity.
    + intros ->. cbn [bind]. unfold try_except. split.
      * intros e ->. cbn [bind]. eexists. split; [reflexivity|].
        cbn [IngredientBlock.ingredient_details]. rewrite app_nil_r.
        apply known_details_names.
      * intros content Hc Hj. rewrite Hc. cbn [bind]. rewrite Hj. reflexivity.
Qed.

End WithEnvironment.

Lemma benefit_block_outcomes_witness :
  get_llm (H := Examples.answering_llm) = Ok tt /\
  BenefitBlock.generate_benefit_block (H := Examples.plain_builtins)
    (H0 := MoreExamples.plain_json) (H1 := Examples.answering_llm)
    (H2 := MoreExamples.prose_llm)
    Examples.glowboost true = Ok None.
Proof.
  split; [reflexivity|].
  destruct (benefit_block_outcomes (H := Examples.plain_builtins)
              (H0 := MoreExamples.plain_json)
              (H1 := Examples.answering_llm) (H2 := MoreExamples.prose_llm)
              Examples.glowboost) as (_ & _ & Hclient).
  destruct (Hclient eq_refl) as (_ & Hnone & _).
  apply Hnone. eexists. split; [reflexivity | reflexivity].
Defined.

Lemma ingredient_block_with_llm_witness :
  forallb known (ingredients MoreExamples.bakuchiol_serum) = false /\
  exists c,
    IngredientBlock.generate_ingredient_block (H := MoreExamples.plain_json)
      (H0 := Examples.answering_llm) (H1 := MoreExamples.failing_block_llm)
      MoreExamples.bakuchiol_serum true = Ok c /\
    map IngredientBlock.ingredient (IngredientBlock.ingredient_details c) =
      ["Retinol"; "Niacinamide"].
Proof.
  assert (Hunknown : forallb known (ingredients MoreExamples.bakuchiol_serum) = false)
    by (vm_compute; reflexivity).
  split; [exact Hunknown|].
  destruct (ingredient_block_with_llm (H0 := MoreExamples.plain_json)
              (H1 := Examples.answering_llm) (H2 := MoreExamples.failing_block_llm)
              MoreExamples.bakuchiol_serum) as (_ & Hllm).
  destruct (Hllm Hunknown) as (_ & Hclient).
  destruct (Hclient eq_refl) as (Hfail & _).
  destruct (Hfail (Exception "rate limit") eq_refl) as (c & Hc & Hnames).
  exists c. split; [exact Hc|]. rewrite Hnames. vm_compute. reflexivity.
Defined.

End ContentExtras.

(* ===================================================================== *)
(** * The product page                                                    *)
(* ===================================================================== *)

Module PageExtras.
Import Product Spec Vocabulary StringFacts State.

Section WithEnvironment.
Context `{Builtins} `{JsonLib} `{LLM} `{BlockLLM}.
Variable utcnow : string.

(** With a client, the hero section never raises. *)
Lemma hero_section_with_client (p : ProductModel) :
  get_llm = Ok tt ->
  ProductPage._generate_hero_section p =
  Ok (match llm_hero p with
      | Raise _ => ProductPage.fallback_hero p
      | Ok content =>
          match Json.extract_json content with
          | None => ProductPage.fallback_hero p
          | Some json_str =>
              match json_loads json_str with
              | Ok hero_data => hero_data
              | Raise _ => ProductPage.fallback_hero p
              end
          end
      end).
Proof.
  intros Hllm. unfold ProductPage._generate_hero_section. rewrite Hllm. cbn [bind].
  destruct (llm_hero p) as [content|e]; cbn [bind]; [|reflexivity].
  destruct (Json.extract_json content) as [json_str|]; [|reflexivity].
  destruct (json_loads json_str) as [hero_data|e]; reflexivity.
Qed.

(** The ingredient block when the LLM is down. *)
Lemma ingredient_block_llm_down (p : ProductModel) :
  get_llm = Ok tt ->
  (forall l, exists e, llm_ingredients l p = Raise e) ->
  exists c,
    IngredientBlock.generate_ingredient_block p true = Ok c /\
    map IngredientBlock.ingredient (IngredientBlock.ingredient_details c) =
      List.filter known (ingredients p).
Proof.
  intros Hllm Hdown.
  unfold IngredientBlock.generate_ingredient_block. cbv zeta.
  rewrite ContentExtras.first_pass_spec. cbn [fst snd].
  destruct (forallb known (ingredients p)) eqn:Hall.
  - rewrite (ContentExtras.all_known_no_unknown _ Hall). cbn [length Nat.eqb negb andb bind fold_left].
    eexists. split; [reflexivity|]. cbn [IngredientBlock.ingredient_details].
    apply ContentExtras.known_details_names.
  - rewrite (ContentExtras.some_unknown _ Hall). cbn [andb].
    unfold IngredientBlock._get_ingredient_info_from_llm. rewrite Hllm. cbn [bind].
    destruct (Hdown (List.filter (fun ing => negb (known ing)) (ingredients p))) as [e ->].
    unfold try_except. cbn [bind]. eexists. split; [reflexivity|].
    cbn [IngredientBlock.ingredient_details]. rewrite app_nil_r.
    apply ContentExtras.known_details_names.
Qed.

(** X21.  The product page when the API key is set and the LLM is down: every
    call for a content block fails, and the page is built all the same,
    from the fallback hero, the benefit block made without the LLM, the
    ingredients of the knowledge base alone, and the three blocks that
    never call the LLM. *)
Theorem product_page_when_llm_down (p : ProductModel) :
  get_llm = Ok tt ->
  fgt (price p) (lit 0) = true ->
  (exists e, llm_hero p = Raise e) ->
  (exists e, llm_benefits p = Raise e) ->
  (forall l, exists e, llm_ingredients l p = Raise e) ->
  exists page,
    ProductPage.build_product_page utcnow p = Ok page /\
    ProductPage.page_type page = "product" /\
    ProductPage.product_name page = name p /\
    Json.Object (ProductPage.hero_section page) = ProductPage.fallback_hero p /\
    ProductPage.benefits_section page = BenefitBlock._generate_benefit_block_rule_based p /\
    map IngredientBlock.ingredient
        (IngredientBlock.ingredient_details (ProductPage.ingredients_section page)) =
      List.filter known (ingredients p) /\
    ProductPage.usage_section page = UsageBlock.generate_usage_block p /\
    ProductPage.safety_section page = SafetyBlock.generate_safety_block p /\
    PriceBlock.generate_price_block_default p = Ok (ProductPage.price_section page).
Proof.
  intros Hllm Hprice (eh & Hhero) (eb & Hben) Hing.
  unfold ProductPage.build_product_page.
  rewrite (hero_section_with_client p Hllm), Hhero. cbn [bind].
  rewrite (ContentExtras.benefit_block_with_client p Hllm), Hben. cbn [bind].
  destruct (ingredient_block_llm_down p Hllm Hing) as (c & -> & Hnames). cbn [bind].
  destruct (PriceFacts.generate_price_block_default_total p Hprice) as (r & _ & _ & -> & _).
  cbn [bind]. unfold ProductPage.fallback_hero. cbn [ProductPage.ProductPageModel_new].
  eexists. split; [reflexivity|].
  cbn [ProductPage.page_type ProductPage.product_name ProductPage.hero_section
       ProductPage.benefits_section ProductPage.ingredients_section
       ProductPage.usage_section ProductPage.safety_section ProductPage.price_section].
  repeat split; try reflexivity. exact Hnames.
Qed.

(** X22.  A reply to the prompt of the benefit block that holds no JSON object
    costs the whole product page: the block returns [None], construction of
    the page raises, and the agent records one error and sets no page. *)
Theorem product_page_needs_benefits_json (p : ProductModel) (content : string)
    (state : SystemState ProductPage.ProductPageModel) :
  get_llm = Ok tt ->
  llm_benefits p = Ok content ->
  Json.extract_json content = None ->
  product state = Some p ->
  exists e,
    ProductPage.build_product_page utcnow p = Raise e /\
    Agents.product_page_generator_agent ProductPage.ProductPageModel
      (ProductPage.build_product_page utcnow) state =
    add_error state ("Product page generation failed: " ++ str_of_exn e) /\
    product_page
      (Agents.product_page_generator_agent ProductPage.ProductPageModel
         (ProductPage.build_product_page utcnow) state) = product_page state.
Proof.
  intros Hllm Hben Hjson Hp.
  assert (Hbuild : exists e, ProductPage.build_product_page utcnow p = Raise e).
  { unfold ProductPage.build_product_page.
    rewrite (hero_section_with_client p Hllm). cbn [bind].
    rewrite (ContentExtras.benefit_block_with_client p Hllm), Hben, Hjson. cbn [bind].
    destruct (IngredientBlock.generate_ingredient_block p true) as [c|e];
      [|eexists; reflexivity].
    cbn [bind].
    destruct (PriceBlock.generate_price_block_default p) as [r|e];
      [|eexists; reflexivity].
    cbn [bind]. unfold ProductPage.ProductPageModel_new.
    destruct (match llm_hero p with Ok _ => _ | Raise _ => _ end); eexists; reflexivity. }
  destruct Hbuild as [e He]. exists e. split; [exact He|].
  unfold Agents.product_page_generator_agent. rewrite Hp, He.
  split; reflexivity.
Qed.

End WithEnvironment.

Lemma product_page_when_llm_down_witness :
  exists page,
    ProductPage.build_product_page (H := Examples.plain_builtins)
      (H0 := MoreExamples.plain_json) (H1 := Examples.answering_llm)
      (H2 := MoreExamples.failing_block_llm) "2024-01-15T10:30:00"
      MoreExamples.bakuchiol_serum = Ok page /\
    map IngredientBlock.ingredient
        (IngredientBlock.ingredient_details (ProductPage.ingredients_section page)) =
      ["Retinol"; "Niacinamide"].
Proof.
  destruct (product_page_when_llm_down (H := Examples.plain_builtins)
              (H0 := MoreExamples.plain_json) (H1 := Examples.answering_llm)
              (H2 := MoreExamples.failing_block_llm) "2024-01-15T10:30:00"
              MoreExamples.bakuchiol_serum eq_refl eq_refl
              (ex_intro _ (Exception "rate limit") eq_refl)
              (ex_intro _ (Exception "rate limit") eq_refl)
              (fun l => ex_intro _ (Exception "rate limit") eq_refl))
    as (page & Hpage & _ & _ & _ & _ & Hnames & _).
  exists page. split; [exact Hpage|]. rewrite Hnames. vm_compute. reflexivity.
Defined.

Lemma product_page_needs_benefits_json_witness :
  exists e,
    ProductPage.build_product_page (H := Examples.plain_builtins)
      (H0 := MoreExamples.plain_json) (H1 := Examples.answering_llm)
      (H2 := MoreExamples.prose_llm) "2024-01-15T10:30:00" Examples.glowboost = Raise e.
Proof.
  destruct (product_page_needs_benefits_json (H := Examples.plain_builtins)
              (H0 := MoreExamples.plain_json) (H1 := Examples.answering_llm)
              (H2 := MoreExamples.prose_llm) "2024-01-15T10:30:00" Examples.glowboost
              "It brightens the skin and fades dark spots."
              (set_product (create_initial_state Examples.glowboost_raw) Examples.glowboost)
              eq_refl eq_refl eq_refl eq_refl) as (e & He & _).
  exists e. exact He.
Defined.

End PageExtras.

(* ===================================================================== *)
(** * Rendering a whole template; the default engine                       *)
(* ===================================================================== *)

Module EngineExtras.
Import Product TemplateEngine Spec Vocabulary.

Section WithContent.
Context {Content : Type}.
Implicit Types (self : Engine Content) (product : ProductModel).

(** The required loop stops at the first block that raises: that block
    is the last one called. *)
Lemma required_loop_stops self product (names calls : list string)
    (blocks : list (RenderedBlock Content)) :
  (exists name, In name names /\ raises self product name) ->
  exists before name e,
    required_loop self product names calls blocks =
      ((calls ++ before ++ [name])%list, Raise e) /\
    In name names /\ raises self product name.
Proof.
  revert calls blocks. induction names as [|n rest IH]; intros calls blocks (x & Hin & Hr).
  - destruct Hin.
  - cbn [required_loop].
    destruct (registered_blocks self !! n) as [f|] eqn:Ef.
    + destruct (f product) as [c|e] eqn:Efp.
      * destruct Hin as [-> | Hin].
        { destruct Hr as (f' & e' & Hf' & He').
          destruct (TemplateFacts.same_block _ _ _ _ _ _ _ Ef Efp Hf' He'). }
        destruct (IH (append calls n)
                     (append blocks {| rb_name := n; rb_content := c; rb_required := true |})
                     (ex_intro _ x (conj Hin Hr)))
          as (before & name & e & -> & Hname & Hraises).
        exists (n :: before), name, e. split; [|split; [now right | exact Hraises]].
        unfold append. now rewrite <- app_assoc.
      * exists [], n, e. split; [reflexivity|]. split; [now left|].
        exists f, e. split; assumption.
    + destruct Hin as [-> | Hin].
      { destruct Hr as (f' & e' & Hf' & _).
        destruct (TemplateFacts.not_registered _ _ _ Ef Hf'). }
      destruct (IH calls blocks (ex_intro _ x (conj Hin Hr)))
        as (before & name & e & -> & Hname & Hraises).
      exists before, name, e. split; [reflexivity|]. split; [now right | exact Hraises].
Qed.

Lemma render_section_stops self (section : TemplateSection) product :
  (exists name, In name (required_blocks section) /\ raises self product name) ->
  exists before name e,
    render_section self section product = ((before ++ [name])%list, Raise e) /\
    raises self product name.
Proof.
  intros Hr. unfold render_section.
  destruct (required_loop_stops self product (required_blocks section) [] [] Hr)
    as (before & name & e & -> & _ & Hraises).
  exists before, name, e. split; [reflexivity | exact Hraises].
Qed.

(** The loop over the sections, when no required block raises. *)
Lemma sections_loop_ok self product (todo : list TemplateSection) (calls : list string)
    (done : list (RenderedSection Content)) :
  (forall section, In section todo ->
     forall name, In name (required_blocks section) -> ~ raises self product name) ->
  exists calls' rendered,
    sections_loop Content self product todo calls done =
      ((calls ++ calls')%list, Ok (done ++ rendered)%list) /\
    map rs_section_name rendered = map section_name todo /\
    Forall2 (fun (r : RenderedSection Content) section =>
               map rb_name (List.filter rb_required (rs_blocks r)) =
               List.filter (registered self) (required_blocks section))
            rendered todo.
Proof.
  revert calls done. induction todo as [|section rest IH]; intros calls done Hno.
  - exists [], []. cbn [sections_loop]. rewrite !app_nil_r.
    split; [reflexivity|]. split; [reflexivity | constructor].
  - cbn [sections_loop].
    rewrite (TemplateFacts.render_section_ok self section product)
      by (intros name Hin; apply (Hno section); [now left | exact Hin]).
    destruct (IH (calls ++ (List.filter (registered self) (required_blocks section) ++
                            List.filter (registered self) (optional_blocks section)))%list
                 (append done
                    {| rs_section_name := section_name section;
                       rs_blocks := (entries self product true (required_blocks section) ++
                                     entries self product false (optional_blocks section))%list |}))
      as (calls' & rendered & -> & Hnames & Hreq).
    { intros s Hs. apply Hno. now right. }
    exists ((List.filter (registered self) (required_blocks section) ++
             List.filter (registered self) (optional_blocks section)) ++ calls')%list,
           ({| rs_section_name := section_name section;
               rs_blocks := (entries self product true (required_blocks section) ++
                             entries self product false (optional_blocks section))%list |}
            :: rendered).
    split.
    + unfold append. rewrite <- !app_assoc. cbn [app]. reflexivity.
    + cbn [map rs_section_name]. split; [now rewrite Hnames|].
      constructor; [|exact Hreq]. cbn [rs_blocks].
      rewrite List.filter_app, map_app.
      assert (Hreqs : forall names,
                List.filter rb_required (entries self product true names) =
                entries self product true names).
      { induction names as [|n names IHn]; [reflexivity|]. cbn [entries].
        destruct (registered_blocks self !! n) as [f|]; [|exact IHn].
        destruct (f product); [|exact IHn]. cbn [List.filter rb_required]. now rewrite IHn. }
      assert (Hopts : forall names,
                List.filter rb_required (entries self product false names) = []).
      { induction names as [|n names IHn]; [reflexivity|]. cbn [entries].
        destruct (registered_blocks self !! n) as [f|]; [|exact IHn].
        destruct (f product); [|exact IHn]. cbn [List.filter rb_required]. exact IHn. }
      rewrite Hreqs, Hopts. cbn [map]. rewrite app_nil_r.
      apply TemplateFacts.entries_names.
      intros name Hin. apply (Hno section); [now left | exact Hin].
Qed.

(** The loop over the sections, when a required block raises. *)
Lemma sections_loop_stops self product (todo : list TemplateSection) (calls : list string)
    (done : list (RenderedSection Content)) :
  (exists section name,
     In section todo /\ In name (required_blocks section) /\ raises self product name) ->
  exists before name e,
    sections_loop Content self product todo calls done =
      ((calls ++ before ++ [name])%list, Raise e) /\
    raises self product name.
Proof.
  revert calls done. induction todo as [|section rest IH];
    intros calls done (s & x & Hs & Hx & Hr).
  - destruct Hs.
  - cbn [sections_loop].
    destruct (TemplateFacts.raises_dec self product (required_blocks section))
      as [Hbad | Hgood].
    + destruct (render_section_stops self section product Hbad)
        as (before & name & e & -> & Hraises).
      exists before, name, e. split; [reflexivity | exact Hraises].
    + rewrite (TemplateFacts.render_section_ok self section product Hgood).
      destruct Hs as [-> | Hs].
      { exfalso. exact (Hgood x Hx Hr). }
      destruct (IH (calls ++ (List.filter (registered self) (required_blocks section) ++
                              List.filter (registered self) (optional_blocks section)))%list
                   (append done
                      {| rs_section_name := section_name section;
                         rs_blocks := (entries self product true (required_blocks section) ++
                                       entries self product false (optional_blocks section))%list |})
                   (ex_intro _ s (ex_intro _ x (conj Hs (conj Hx Hr)))))
        as (before & name & e & -> & Hraises).
      exists ((List.filter (registered self) (required_blocks section) ++
               List.filter (registered self) (optional_blocks section)) ++ before)%list,
             name, e.
      split; [|exact Hraises].
      rewrite <- !app_assoc. reflexivity.
Qed.

(** X23.  Rendering a template.  When no required block of any section raises,
    the template is rendered: one rendered section per section of the
    template, in order and under its name, whose required entries are the
    registered required blocks of the section.  When some required block
    raises, the whole rendering raises, nothing is returned for the
    sections already rendered, and the last block called is one that
    raises: no block is called after the failure. *)
Theorem render_template_outcome self (template : TemplateModel) product :
  ((forall section, In section (sections template) ->
      forall name, In name (required_blocks section) -> ~ raises self product name) ->
   exists calls rt,
     render_template self template product = (calls, Ok rt) /\
     rt_template_type Content rt = template_type template /\
     map rs_section_name (rt_sections Content rt) =
       map section_name (sections template) /\
     Forall2 (fun (r : RenderedSection Content) section =>
                map rb_name (List.filter rb_required (rs_blocks r)) =
                List.filter (registered self) (required_blocks section))
             (rt_sections Content rt) (sections template)) /\
  ((exists section name,
      In section (sections template) /\ In name (required_blocks section) /\
      raises self product name) ->
   exists before name e,
     render_template self template product = ((before ++ [name])%list, Raise e) /\
     raises self product name).
Proof.
  unfold render_template. split.
  - intros Hno.
    destruct (sections_loop_ok self product (sections template) [] [] Hno)
      as (calls & rendered & -> & Hnames & Hreq).
    cbn [app]. eexists _, _. split; [reflexivity|].
    cbn [rt_template_type rt_sections]. repeat split; assumption.
  - intros Hbad.
    destruct (sections_loop_stops self product (sections template) [] [] Hbad)
      as (before & name & e & -> & Hraises).
    cbn [app]. exists before, name, e. split; [reflexivity | exact Hraises].
Qed.

End WithContent.

Lemma render_template_outcome_witness :
  exists before name e,
    render_template Examples.failing_engine
      {| template_type := "product";
         sections := [Examples.extras_section; Examples.benefits_section] |}
      Examples.glowboost = ((before ++ [name])%list, Raise e) /\
    raises Examples.failing_engine Examples.glowboost name.
Proof.
  apply (render_template_outcome Examples.failing_engine
           {| template_type := "product";
              sections := [Examples.extras_section; Examples.benefits_section] |}
           Examples.glowboost).
  exists Examples.benefits_section, "benefit_block".
  split; [right; left; reflexivity|]. split; [left; reflexivity|].
  exact TemplateFacts.benefit_block_raises.
Defined.

Section WithEnvironment.
Context `{Builtins} `{JsonLib} `{LLM} `{BlockLLM}.

Ltac rewrite_lookup L :=
  let Hl := fresh "Hl" in
  pose proof L as Hl; unfold Block in Hl; unfold Block; rewrite Hl; clear Hl.

Ltac lookup_default_engine :=
  unfold DefaultEngine.create_default_engine, register_block;
  cbn [registered_blocks];
  repeat (rewrite lookup_insert_ne by discriminate);
  apply lookup_insert_eq.

Lemma default_benefit_block :
  registered_blocks DefaultEngine.create_default_engine !! "benefit_block" =
  Some (fun p => let* c := BenefitBlock.generate_benefit_block p true in
                 Ok (DefaultEngine.BenefitBlockContent c)).
Proof. lookup_default_engine. Qed.

Lemma default_ingredient_block :
  registered_blocks DefaultEngine.create_default_engine !! "ingredient_block" =
  Some (fun p => let* c := IngredientBlock.generate_ingredient_block p true in
                 Ok (DefaultEngine.IngredientBlockContent c)).
Proof. lookup_default_engine. Qed.

Lemma default_usage_block :
  registered_blocks DefaultEngine.create_default_engine !! "usage_block" =
  Some (fun p => Ok (DefaultEngine.UsageBlockContent (UsageBlock.generate_usage_block p))).
Proof. lookup_default_engine. Qed.

Lemma default_safety_block :
  registered_blocks DefaultEngine.create_default_engine !! "safety_block" =
  Some (fun p => Ok (DefaultEngine.SafetyBlockContent (SafetyBlock.generate_safety_block p))).
Proof. lookup_default_engine. Qed.

Lemma default_price_block :
  registered_blocks DefaultEngine.create_default_engine !! "price_block" =
  Some (fun p => let* c := PriceBlock.generate_price_block_default p in
                 Ok (DefaultEngine.PriceBlockContent c)).
Proof. lookup_default_engine. Qed.

Lemma default_comparison_block :
  registered_blocks DefaultEngine.create_default_engine !! "comparison_block" =
  Some DefaultEngine.comparison_block_on_one_product.
Proof. lookup_default_engine. Qed.

(** X24.  The comparison template cannot be rendered by the default engine: its
    only block, [comparison_block], is registered with a function of two
    products, which the engine calls on one.  Whatever the product and
    whatever the LLM answers, the rendering raises a [TypeError] at this
    block, the first and only one it calls. *)
Theorem comparison_template_never_renders (product : ProductModel) :
  render_template DefaultEngine.create_default_engine
    DefaultEngine.get_comparison_template product =
  (["comparison_block"],
   Raise (TypeError
     "generate_comparison_block() missing 1 required positional argument: 'product_b'")).
Proof.
  unfold render_template, DefaultEngine.get_comparison_template.
  cbn [sections template_type sections_loop render_section required_blocks
       optional_blocks section_name required_loop optional_loop].
  unfold render_section.
  cbn [required_blocks optional_blocks section_name required_loop optional_loop].
  rewrite_lookup default_comparison_block. reflexivity.
Qed.

(** X25.  The product template on the default engine.  The five content
    blocks are called in the order benefits, ingredients, usage, safety,
    price; when the three that can raise return, the rendering has the six
    sections of the template, the hero section with no block at all and
    each other section with its one block, marked required. *)
Theorem product_template_rendering (product : ProductModel)
    (b : option BenefitBlock.BenefitContent) (i : IngredientBlock.IngredientContent)
    (pr : PriceBlock.PriceContent) :
  BenefitBlock.generate_benefit_block product true = Ok b ->
  IngredientBlock.generate_ingredient_block product true = Ok i ->
  PriceBlock.generate_price_block_default product = Ok pr ->
  render_template DefaultEngine.create_default_engine
    DefaultEngine.get_product_template product =
  (["benefit_block"; "ingredient_block"; "usage_block"; "safety_block"; "price_block"],
   Ok {| rt_template_type := "product";
         rt_sections :=
           [ {| rs_section_name := "hero"; rs_blocks := [] |};
             {| rs_section_name := "benefits";
                rs_blocks := [ {| rb_name := "benefit_block";
                                  rb_content := DefaultEngine.BenefitBlockContent b;
                                  rb_required := true |} ] |};
             {| rs_section_name := "ingredients";
                rs_blocks := [ {| rb_name := "ingredient_block";
                                  rb_content := DefaultEngine.IngredientBlockContent i;
                                  rb_required := true |} ] |};
             {| rs_section_name := "usage";
                rs_blocks := [ {| rb_name := "usage_block";
                                  rb_content :=
                                    DefaultEngine.UsageBlockContent
                                      (UsageBlock.generate_usage_block product);
                                  rb_required := true |} ] |};
             {| rs_section_name := "safety";
                rs_blocks := [ {| rb_name := "safety_block";
                                  rb_content :=
                                    DefaultEngine.SafetyBlockContent
                                      (SafetyBlock.generate_safety_block product);
                                  rb_required := true |} ] |};
             {| rs_section_name := "pricing";
                rs_blocks := [ {| rb_name := "price_block";
                                  rb_content := DefaultEngine.PriceBlockContent pr;
                                  rb_required := true |} ] |} ] |}).
Proof.
  intros Hb Hi Hp.
  unfold render_template, DefaultEngine.get_product_template.
  cbn [sections template_type sections_loop render_section required_blocks
       optional_blocks section_name required_loop optional_loop].
  unfold render_section.
  cbn [required_blocks optional_blocks section_name required_loop optional_loop].
  rewrite_lookup default_benefit_block. rewrite_lookup default_ingredient_block.
  rewrite_lookup default_usage_block. rewrite_lookup default_safety_block.
  rewrite_lookup default_price_block.
  rewrite Hb, Hi, Hp. reflexivity.
Qed.

End WithEnvironment.

Lemma product_template_rendering_witness :
  exists calls rt,
    render_template
      (DefaultEngine.create_default_engine (H := Examples.plain_builtins)
         (H0 := MoreExamples.plain_json) (H1 := Examples.answering_llm)
         (H2 := MoreExamples.failing_block_llm))
      DefaultEngine.get_product_template Examples.glowboost = (calls, Ok rt) /\
    length (rt_sections DefaultEngine.BlockContent rt) = 6%nat.
Proof.
  eexists _, _. split.
  - apply (product_template_rendering (H := Examples.plain_builtins)
             (H0 := MoreExamples.plain_json) (H1 := Examples.answering_llm)
             (H2 := MoreExamples.failing_block_llm) Examples.glowboost);
      vm_compute; reflexivity.
  - reflexivity.
Defined.

End EngineExtras.

(* ===================================================================== *)
(** * The agents and the bookkeeping of a run                              *)
(* ===================================================================== *)

Module WorkflowExtras.
Import Product Question State Agents Graph Spec Vocabulary.

Section WithEnvironment.
Context `{Builtins} `{LLM}.
Variable ProductPageModel : Type.
Variable build_product_page : ProductModel -> Result ProductPageModel.
Variable _generate_fictional_product : ProductModel -> Result (option ProductModel).
Variable utcnow : string.

Implicit Types (state : State.SystemState ProductPageModel).

(** *** What each agent does to the state *)

Lemma data_parser_agent_outcome state :
  (exists p,
     data_parser_agent ProductPageModel state =
       log_append (set_product state p)
         (" Agent 1 (Data Parser): Product validated - " ++ name p)) \/
  (exists msg, data_parser_agent ProductPageModel state = add_error state msg).
Proof.
  unfold data_parser_agent.
  destruct (ProductModel_new _) as [p|e].
  - left. exists p. reflexivity.
  - right. destruct e; eexists; reflexivity.
Qed.

Lemma question_generator_agent_outcome state :
  (exists p qs entry,
     product state = Some p /\
     question_generator_agent ProductPageModel state =
       log_append (set_questions state qs) entry) \/
  (exists msg, question_generator_agent ProductPageModel state = add_error state msg).
Proof.
  unfold question_generator_agent.
  destruct (product state) as [p|]; [|right; eexists; reflexivity].
  destruct (let* llm := get_llm in _) as [qs|e].
  - left. exists p, qs. eexists. split; reflexivity.
  - right. eexists. reflexivity.
Qed.

Lemma faq_generator_agent_outcome state :
  (exists p page entry,
     product state = Some p /\
     faq_generator_agent ProductPageModel utcnow state =
       log_append (set_faq_page state page) entry /\
     faq_product_name page = name p /\
     (length (faqs page) <= 10)%nat /\
     (forall qa, In qa (faqs page) ->
        exists q, In q (get_list (questions state)) /\ qa = fallback_qa p q)) \/
  (exists msg, faq_generator_agent ProductPageModel utcnow state = add_error state msg).
Proof.
  unfold faq_generator_agent.
  destruct (product state) as [p|]; [|right; eexists; reflexivity].
  destruct (get_list (questions state)) as [|q qs] eqn:Eq; [right; eexists; reflexivity|].
  assert (Hsel : exists selected,
            FaqGenerator._select_best_questions (q :: qs) 10 = Ok selected /\
            (length selected <= 10)%nat /\ selected ⊆+ q :: qs).
  { destruct (FaqExtras.select_best_questions_within (q :: qs) 10 ltac:(lia))
      as (selected & Hsel & Hlen & Hsub).
    exists selected. split; [exact Hsel|]. split; [lia | exact Hsub]. }
  destruct Hsel as (selected & -> & Hlen & Hsub).
  cbn [bind]. unfold FaqGenerator._generate_answers.
  destruct get_llm as [[]|e]; cbn [bind]; [|right; eexists; reflexivity].
  unfold try_except.
  destruct (llm_answers p selected) as [content|e]; cbn [bind];
    rewrite FaqFacts.answers_loop_spec; cbn [app];
    (left; exists p; eexists _, _; split; [reflexivity|]; split; [reflexivity|];
     cbn [faq_product_name faqs]; split; [reflexivity|];
     split; [now rewrite length_map|];
     intros qa Hqa; apply in_map_iff in Hqa; destruct Hqa as (q' & <- & Hq');
     exists q'; split; [|reflexivity];
     apply list_elem_of_In; eapply elem_of_submseteq; [|exact Hsub];
     now apply list_elem_of_In).
Qed.

Lemma product_page_generator_agent_outcome state :
  (exists p page,
     product state = Some p /\ build_product_page p = Ok page /\
     product_page_generator_agent ProductPageModel build_product_page state =
       log_append (set_product_page state page)
         " Agent 5 (Product Page Generator): Generated complete product page") \/
  (exists msg,
     product_page_generator_agent ProductPageModel build_product_page state =
       add_error state msg).
Proof.
  unfold product_page_generator_agent.
  destruct (product state) as [p|]; [|right; eexists; reflexivity].
  destruct (build_product_page p) as [page|e] eqn:Eb.
  - left. exists p, page. repeat split. exact Eb.
  - right. eexists. reflexivity.
Qed.

Lemma comparison_generator_agent_outcome state :
  (exists a b page,
     product state = Some a /\
     _generate_fictional_product a = Ok (Some b) /\
     comparison_generator_agent ProductPageModel _generate_fictional_product utcnow state =
       log_append (set_comparison_page state page)
         (" Agent 6 (Comparison Generator): Generated comparison with " ++ name b) /\
     cp_product_a page = a /\ cp_product_b page = b /\
     length (comparison_matrix page) = 6%nat /\
     (50 <= len (recommendation page))%nat) \/
  (exists msg,
     comparison_generator_agent ProductPageModel _generate_fictional_product utcnow state =
       add_error state msg).
Proof.
  unfold comparison_generator_agent.
  destruct (product state) as [a|]; [|right; eexists; reflexivity].
  destruct (_generate_fictional_product a) as [[b|]|e] eqn:Eg; cbn [bind];
    try (right; eexists; reflexivity).
  unfold ComparisonBlock.generate_comparison_block.
  destruct (ComparisonBlock._compare_price a b) as [row|e]; cbn [bind];
    [|right; eexists; reflexivity].
  destruct (_generate_recommendation a b) as [r|e]; cbn [bind];
    [|right; eexists; reflexivity].
  unfold ComparisonPageModel_new. cbn [ComparisonBlock.matrix].
  destruct (Nat.ltb_spec (len r) 50) as [Hshort|Hlong]; cbn [bind];
    [right; eexists; reflexivity|].
  left. exists a, b. eexists. split; [reflexivity|]. split; [exact Eg|].
  split; [reflexivity|].
  cbn [cp_product_a cp_product_b comparison_matrix recommendation length].
  repeat split. exact Hlong.
Qed.

(** X27.  Every agent either writes its one output and one line of the log,
    leaving the error list as it is, or reports one error and writes no
    output ([add_error] puts the message on the error list and a line on
    the log).  What is written is what the agent is for: a FAQ page has the
    name of the product, at most ten entries, and only fallback answers to
    questions of the state; a comparison page has the product of the state
    as product A, the generated competitor as product B, the six rows of
    the comparison, and a recommendation of at least 50 characters. *)
Theorem agents_write_or_report state :
  ((exists p,
      data_parser_agent ProductPageModel state =
        log_append (set_product state p)
          (" Agent 1 (Data Parser): Product validated - " ++ name p)) \/
   (exists msg, data_parser_agent ProductPageModel state = add_error state msg)) /\
  ((exists p qs entry,
      product state = Some p /\
      question_generator_agent ProductPageModel state =
        log_append (set_questions state qs) entry) \/
   (exists msg, question_generator_agent ProductPageModel state = add_error state msg)) /\
  ((exists p page entry,
      product state = Some p /\
      faq_generator_agent ProductPageModel utcnow state =
        log_append (set_faq_page state page) entry /\
      faq_product_name page = name p /\
      (length (faqs page) <= 10)%nat /\
      (forall qa, In qa (faqs page) ->
         exists q, In q (get_list (questions state)) /\ qa = fallback_qa p q)) \/
   (exists msg, faq_generator_agent ProductPageModel utcnow state = add_error state msg)) /\
  ((exists p page,
      product state = Some p /\ build_product_page p = Ok page /\
      product_page_generator_agent ProductPageModel build_product_page state =
        log_append (set_product_page state page)
          " Agent 5 (Product Page Generator): Generated complete product page") \/
   (exists msg,
      product_page_generator_agent ProductPageModel build_product_page state =
        add_error state msg)) /\
  ((exists a b page,
      product state = Some a /\
      _generate_fictional_product a = Ok (Some b) /\
      comparison_generator_agent ProductPageModel _generate_fictional_product utcnow state =
        log_append (set_comparison_page state page)
          (" Agent 6 (Comparison Generator): Generated comparison with " ++ name b) /\
      cp_product_a page = a /\ cp_product_b page = b /\
      length (comparison_matrix page) = 6%nat /\
      (50 <= len (recommendation page))%nat) \/
   (exists msg,
      comparison_generator_agent ProductPageModel _generate_fictional_product utcnow state =
        add_error state msg)).
Proof.
  split; [apply data_parser_agent_outcome|].
  split; [apply question_generator_agent_outcome|].
  split; [apply faq_generator_agent_outcome|].
  split; [apply product_page_generator_agent_outcome|].
  apply comparison_generator_agent_outcome.
Qed.

(** *** The report of [validate_workflow_output] *)

(** The report calls a state complete when it holds the five outputs. *)
Lemma validate_complete_iff state :
  Execution.all_required_outputs_present (Execution.validate_workflow_output state) = true
  <-> outputs_present state = 5%nat.
Proof.
  unfold Execution.validate_workflow_output, outputs_present.
  destruct state as [rd [p|] [qs|] [fp|] [pp|] [cp|] errs lg];
    cbn; split; intros; first [reflexivity | discriminate | lia].
Qed.

(** X28.  The report lists exactly the outputs that the state does not hold,
    in the fixed order product, questions, FAQ page, product page,
    comparison page; it calls the state complete exactly when it lists
    none, that is when all five are there; and it passes the error list on
    without reading it, so that a state with errors can be complete. *)
Theorem validate_workflow_output_exact state :
  let v := Execution.validate_workflow_output state in
  Execution.missing_outputs v =
    List.filter (fun output => negb (Execution.has_key state output))
                Execution.required_outputs /\
  (Execution.all_required_outputs_present v = true <-> Execution.missing_outputs v = []) /\
  (Execution.all_required_outputs_present v = true <-> outputs_present state = 5%nat) /\
  Execution.validation_errors v = get_list (errors state).
Proof.
  cbv zeta. unfold Execution.validate_workflow_output, outputs_present.
  destruct state as [rd [p|] [qs|] [fp|] [pp|] [cp|] errs lg];
    cbn; repeat split; intros; try reflexivity; try discriminate; try lia.
Qed.

(** *** The comparison page and the recommendation *)

Lemma fallback_recommendation_long (a b : ProductModel) :
  (50 <= len ("Both " ++ name a ++ " and " ++ name b ++
              " are excellent skincare products. Choose based on your specific skin type and budget preferences. " ++
              name a ++ " offers proven benefits, while " ++ name b ++
              " provides an alternative formulation. Patch test before full use."))%nat.
Proof.
  do 4 apply FaqFacts.len_suffix_bound. apply FaqFacts.len_prefix_bound.
  vm_compute. lia.
Qed.

(** X26.  The comparison page stands or falls with the length of the
    recommendation.  With a client, a competitor and a finite price
    difference: when the call for the recommendation fails, the fallback
    text is used, which is always long enough, and the page is written;
    when the LLM replies, a reply of at least 50 characters is taken as it
    is, and a shorter one costs the page: the agent records an error. *)
Theorem comparison_page_recommendation state (a b : ProductModel) :
  product state = Some a ->
  _generate_fictional_product a = Ok (Some b) ->
  (exists n, int_of_float (ComparisonBlock.price_diff a b) = Ok n) ->
  get_llm = Ok tt ->
  let s' := comparison_generator_agent ProductPageModel _generate_fictional_product
              utcnow state in
  ((exists e, llm_recommendation a b = Raise e) ->
   exists page,
     comparison_page s' = Some page /\ errors s' = errors state /\
     recommendation page =
       "Both " ++ name a ++ " and " ++ name b ++
       " are excellent skincare products. Choose based on your specific skin type and budget preferences. " ++
       name a ++ " offers proven benefits, while " ++ name b ++
       " provides an alternative formulation. Patch test before full use.") /\
  (forall content, llm_recommendation a b = Ok content ->
     ((50 <= len content)%nat ->
      exists page,
        comparison_page s' = Some page /\ errors s' = errors state /\
        recommendation page = content) /\
     ((len content < 50)%nat ->
      comparison_page s' = comparison_page state /\
      s' = add_error state
             ("Comparison generation failed: " ++
              str_of_exn (ValidationError ["recommendation"])))).
Proof.
  intros Hp Hb Hdiff Hllm. cbv zeta.
  apply ComparisonFacts.compare_price_returns in Hdiff. destruct Hdiff as [row Hrow].
  unfold comparison_generator_agent. rewrite Hp, Hb. cbn [bind].
  unfold ComparisonBlock.generate_comparison_block. rewrite Hrow. cbn [bind].
  unfold _generate_recommendation. rewrite Hllm. cbn [bind].
  split.
  - intros (e & ->). cbn [bind]. unfold ComparisonPageModel_new.
    pose proof (fallback_recommendation_long a b) as Hlong.
    destruct (Nat.ltb_spec
                (len ("Both " ++ name a ++ " and " ++ name b ++
                      " are excellent skincare products. Choose based on your specific skin type and budget preferences. " ++
                      name a ++ " offers proven benefits, while " ++ name b ++
                      " provides an alternative formulation. Patch test before full use."))
                50) as [Hshort|_]; [lia|].
    cbn [bind]. eexists. repeat split.
  - intros content ->. cbn [bind]. unfold ComparisonPageModel_new.
    destruct (Nat.ltb_spec (len content) 50) as [Hshort|Hlong]; cbn [bind].
    + split; [intros; lia|]. intros _. split; reflexivity.
    + split; [|intros; lia]. intros _. eexists. repeat split.
Qed.

(** *** A whole run *)

Ltac agent_cases :=
  match goal with
  | |- context [faq_generator_agent _ _ ?s] =>
      destruct (faq_generator_agent_outcome s)
        as [(? & ? & ? & _ & -> & _) | (? & ->)]
  | |- context [product_page_generator_agent _ _ ?s] =>
      destruct (product_page_generator_agent_outcome s)
        as [(? & ? & _ & _ & ->) | (? & ->)]
  | |- context [comparison_generator_agent _ _ _ ?s] =>
      destruct (comparison_generator_agent_outcome s)
        as [(? & ? & ? & _ & _ & -> & _) | (? & ->)]
  end.

Lemma run_bookkeeping (raw : RawProduct) :
  exists ran final,
    execute_workflow ProductPageModel build_product_page _generate_fictional_product
      utcnow raw = Some (ran, final) /\
    (ran = [parse_data; generate_questions] \/
     ran = [parse_data; generate_questions; generate_faq;
            generate_product_page; generate_comparison]) /\
    (exists rest,
       get_list (execution_log final) = "🚀 Workflow started" :: rest /\
       length rest = length ran) /\
    (length (get_list (errors final)) + outputs_present final = length ran)%nat /\
    (get_list (errors final) = [] <-> outputs_present final = 5%nat).
Proof.
  rewrite (GraphFacts.execute_workflow_unfold ProductPageModel build_product_page
             _generate_fictional_product utcnow raw).
  cbv zeta. unfold state_after_questions.
  destruct (data_parser_agent_outcome (create_initial_state raw)) as [(p & ->) | (msg & ->)].
  - match goal with
    | |- context [question_generator_agent _ ?s] =>
        destruct (question_generator_agent_outcome s)
          as [(p' & qs & entry & _ & ->) | (msg & ->)]
    end.
    + unfold should_continue_after_questions. cbn. unfold after_gate.
      do 3 agent_cases;
        (eexists _, _; split; [reflexivity|]; split; [now right|];
         split; [eexists; split; [reflexivity | reflexivity]|];
         unfold outputs_present; cbn; split; [lia|];
         split; intros; first [reflexivity | discriminate | lia]).
    + unfold should_continue_after_questions. cbn.
      eexists _, _. split; [reflexivity|]. split; [now left|].
      split; [eexists; split; [reflexivity | reflexivity]|].
      unfold outputs_present. cbn. split; [lia|]. split; intros; first [reflexivity | discriminate | lia].
  - match goal with
    | |- context [question_generator_agent _ ?s] =>
        destruct (question_generator_agent_outcome s)
          as [(p' & qs & entry & _ & ->) | (msg' & ->)]
    end;
      unfold should_continue_after_questions; cbn;
      (eexists _, _; split; [reflexivity|]; split; [now left|];
       split; [eexists; split; [reflexivity | reflexivity]|];
       unfold outputs_present; cbn; split; [lia|]; split; intros; first [reflexivity | discriminate | lia]).
Qed.

(** X29.  The books of a run.  Every run ends after two or after five nodes.
    The execution log of the final state starts with the line "Workflow
    started" and has one more line per node that ran.  Every node that ran
    either produced its output or recorded one error: the number of errors
    and the number of outputs present add up to the number of nodes that
    ran.  So the error list is empty exactly when all five outputs are
    there, which is exactly when [validate_workflow_output] reports the
    state as complete. *)
Theorem workflow_bookkeeping (raw : RawProduct) :
  exists ran final,
    execute_workflow ProductPageModel build_product_page _generate_fictional_product
      utcnow raw = Some (ran, final) /\
    (ran = [parse_data; generate_questions] \/
     ran = [parse_data; generate_questions; generate_faq;
            generate_product_page; generate_comparison]) /\
    (exists rest,
       get_list (execution_log final) = "🚀 Workflow started" :: rest /\
       length rest = length ran) /\
    (length (get_list (errors final)) + outputs_present final = length ran)%nat /\
    (get_list (errors final) = [] <-> outputs_present final = 5%nat) /\
    (get_list (errors final) = [] <->
     Execution.all_required_outputs_present (Execution.validate_workflow_output final)
       = true).
Proof.
  destruct (run_bookkeeping raw) as (ran & final & Hrun & Hran & Hlog & Hsum & Hiff).
  exists ran, final. repeat (split; [assumption|]).
  rewrite validate_complete_iff. exact Hiff.
Qed.

(** X30.  The runs that end at the gate.  An input that is not a valid product
    costs two errors, the one of the parser and "Product not found in
    state" from the question generator, and leaves no output at all.  A
    valid product without a client for the LLM leaves the product, and the
    one error of the question generator; no page is attempted. *)
Theorem workflow_halts_early (raw : RawProduct) :
  (forall e, ProductModel_new raw = Raise e ->
     exists final msg,
       execute_workflow ProductPageModel build_product_page _generate_fictional_product
         utcnow raw = Some ([parse_data; generate_questions], final) /\
       get_list (errors final) = [msg; "Product not found in state"] /\
       outputs_present final = 0%nat) /\
  (forall p e, ProductModel_new raw = Ok p -> get_llm = Raise e ->
     exists final,
       execute_workflow ProductPageModel build_product_page _generate_fictional_product
         utcnow raw = Some ([parse_data; generate_questions], final) /\
       product final = Some p /\
       get_list (errors final) = ["Question generation failed: " ++ str_of_exn e] /\
       outputs_present final = 1%nat).
Proof.
  split.
  - intros e He.
    rewrite (GraphFacts.execute_workflow_unfold ProductPageModel build_product_page
               _generate_fictional_product utcnow raw).
    cbv zeta. unfold state_after_questions, data_parser_agent.
    cbn [create_initial_state raw_data]. rewrite He.
    destruct e; unfold question_generator_agent, should_continue_after_questions; cbn;
      eexists _, _; (split; [reflexivity|]); split; reflexivity.
  - intros p e Hp He.
    rewrite (GraphFacts.execute_workflow_unfold ProductPageModel build_product_page
               _generate_fictional_product utcnow raw).
    cbv zeta. unfold state_after_questions, data_parser_agent.
    cbn [create_initial_state raw_data]. rewrite Hp.
    unfold question_generator_agent. cbn [log_append set_product product].
    rewrite He. cbn [bind]. unfold should_continue_after_questions. cbn.
    eexists. split; [reflexivity|]. repeat split.
Qed.

End WithEnvironment.

Lemma comparison_page_recommendation_witness :
  exists page,
    comparison_page
      (comparison_generator_agent (H := Examples.plain_builtins)
         (H0 := Examples.failing_llm) unit Examples.competitor "2024-01-15T10:30:00"
         (set_product (create_initial_state Examples.glowboost_raw) Examples.product_500))
    = Some page /\
    cp_product_b page = Examples.product_700.
Proof.
  destruct (proj1 (comparison_page_recommendation (H := Examples.plain_builtins)
                     (H0 := Examples.failing_llm) unit Examples.competitor
                     "2024-01-15T10:30:00"
                     (set_product (create_initial_state Examples.glowboost_raw)
                        Examples.product_500)
                     Examples.product_500 Examples.product_700
                     eq_refl eq_refl (ex_intro _ (-200) eq_refl) eq_refl)
              (ex_intro _ (Exception "rate limit") eq_refl))
    as (page & Hpage & _ & _).
  exists page. split; [exact Hpage|].
  vm_compute in Hpage. injection Hpage as <-. reflexivity.
Defined.

Lemma workflow_halts_early_witness :
  (exists final msg,
     execute_workflow (H := Examples.plain_builtins) (H0 := Examples.answering_llm)
       unit (fun _ => Ok tt) Examples.competitor "2024-01-15T10:30:00"
       Examples.no_skin_type_raw = Some ([parse_data; generate_questions], final) /\
     get_list (errors final) = [msg; "Product not found in state"] /\
     outputs_present final = 0%nat) /\
  (exists final,
     execute_workflow (H := Examples.plain_builtins) (H0 := Examples.no_key_llm)
       unit (fun _ => Ok tt) Examples.competitor "2024-01-15T10:30:00"
       Examples.glowboost_raw = Some ([parse_data; generate_questions], final) /\
     product final = Some Examples.glowboost /\
     outputs_present final = 1%nat).
Proof.
  split.
  - apply (proj1 (workflow_halts_early (H := Examples.plain_builtins)
                    (H0 := Examples.answering_llm) unit (fun _ => Ok tt)
                    Examples.competitor "2024-01-15T10:30:00" Examples.no_skin_type_raw)
             (ValidationError ["skin_types"])).
    reflexivity.
  - destruct (proj2 (workflow_halts_early (H := Examples.plain_builtins)
                       (H0 := Examples.no_key_llm) unit (fun _ => Ok tt)
                       Examples.competitor "2024-01-15T10:30:00" Examples.glowboost_raw)
                Examples.glowboost
                (ValueError "OPENAI_API_KEY environment variable not set")
                eq_refl eq_refl) as (final & Hrun & Hp & _ & Hout).
    exists final. split; [exact Hrun|]. split; [exact Hp | exact Hout].
Defined.

End WorkflowExtras.
